(** * WebCom-E-Com: the authentication and session subsystem

  A shallow embedding of [src/controllers/BaseController.js],
  [src/controllers/user/authController.js],
  [src/controllers/admin/authController.js], the [UserAuthService]
  class and the [isUser] / [isAdmin] middlewares, together with the
  properties the specification states about them.

  Conventions of the embedding:
  - a [Date] is its number of milliseconds since the epoch, a [Z];
    the calendar methods [setDate] and [setMinutes] work on local time,
    so the time zone of the process is a parameter;
  - a character of a string is a code unit below 256;
  - a Sequelize table is the list of its rows in storage order, the
    [UUIDV4] primary keys are numbers allocated fresh on [create];
  - every source of non-determinism of a request (the clock, the bytes
    of [crypto.randomBytes], the bcrypt salt) is an explicit input;
  - a handler maps the database before the request to the response and
    the database after it, a rolled back transaction leaves it as it was. *)

From Stdlib Require Import ZArith List String Ascii Bool Lia.
From Stdlib Require Init.Byte Strings.Byte.
Import ListNotations.

Local Open Scope string_scope.
Local Open Scope Z_scope.

(** ** JavaScript strings and numbers *)

Module Js.

(** [String(n)] for a non-negative integer: its decimal digits. *)
Definition digit (d : Z) : ascii := ascii_of_N (48 + Z.to_N d).

Fixpoint decimal (fuel : nat) (n : Z) : string :=
  match fuel with
  | O => String (digit (n mod 10)) ""
  | S fuel' =>
      if n <? 10 then String (digit n) ""
      else (decimal fuel' (n / 10) ++ String (digit (n mod 10)) "")%string
  end.

Definition toString (n : Z) : string := decimal (Z.to_nat (Z.log2 n)) n.

(** [s.padStart(width, c)]. *)
Fixpoint repeat (c : ascii) (k : nat) : string :=
  match k with
  | O => ""
  | S k' => String c (repeat c k')
  end.

Definition padStart (width : nat) (c : ascii) (s : string) : string :=
  (repeat c (width - String.length s) ++ s)%string.

(** [buffer.toString('hex')]: two lower-case hexadecimal digits a byte. *)
Definition hexdigit (d : N) : ascii :=
  if (d <? 10)%N then ascii_of_N (48 + d) else ascii_of_N (87 + d).

Definition hexbyte (b : Byte.byte) : string :=
  let n := Byte.to_N b in
  String (hexdigit (n / 16)) (String (hexdigit (n mod 16)) "").

Fixpoint toHex (buffer : list Byte.byte) : string :=
  match buffer with
  | [] => ""
  | b :: rest => (hexbyte b ++ toHex rest)%string
  end.

(** [parseInt(s, 16)]: the value of the longest prefix of hexadecimal
    digits, [NaN] (here [None]) when that prefix is empty. *)
Definition hexval (c : ascii) : option Z :=
  let n := Z.of_N (N_of_ascii c) in
  if (48 <=? n) && (n <=? 57) then Some (n - 48)
  else if (97 <=? n) && (n <=? 102) then Some (n - 87)
  else if (65 <=? n) && (n <=? 70) then Some (n - 55)
  else None.

Fixpoint parseHexFrom (acc : Z) (s : string) : Z :=
  match s with
  | "" => acc
  | String c rest =>
      match hexval c with
      | Some d => parseHexFrom (acc * 16 + d) rest
      | None => acc
      end
  end.

Definition parseInt16 (s : string) : option Z :=
  match s with
  | "" => None
  | String c _ =>
      match hexval c with
      | Some _ => Some (parseHexFrom 0 s)
      | None => None
      end
  end.

(** A JavaScript value is truthy unless it is [undefined] or the empty
    string (the request bodies of this API carry strings only). *)
Definition truthy (v : option string) : bool :=
  match v with
  | None => false
  | Some s => negb (s =? "")%string
  end.

(** A default parameter value, [f(x = d)], and [o.field] read with a
    fallback: the argument when it is given, [d] when it is left out. *)
Definition orElse {A : Type} (o : option A) (d : A) : A :=
  match o with Some a => a | None => d end.

(** Reading a decimal string back, used to tell codes apart. *)
Definition decval (c : ascii) : Z := Z.of_N (N_of_ascii c) - 48.

Fixpoint parseDecFrom (acc : Z) (s : string) : Z :=
  match s with
  | "" => acc
  | String c rest => parseDecFrom (acc * 10 + decval c) rest
  end.

Definition isDigit (c : ascii) : bool :=
  let n := Z.of_N (N_of_ascii c) in (48 <=? n) && (n <=? 57).

Fixpoint allDigits (s : string) : bool :=
  match s with
  | "" => true
  | String c rest => isDigit c && allDigits rest
  end.

(** The class [\s] of a regular expression, among the code units below
    256: tab, line feed, vertical tab, form feed, carriage return,
    space and the no-break space. *)
Definition isSpace (c : ascii) : bool :=
  let n := Z.of_N (N_of_ascii c) in
  ((9 <=? n) && (n <=? 13)) || (n =? 32) || (n =? 160).

Fixpoint allSpaces (s : string) : bool :=
  match s with
  | "" => true
  | String c rest => isSpace c && allSpaces rest
  end.

(** [array.join(separator)]. *)
Fixpoint join (separator : string) (parts : list string) : string :=
  match parts with
  | [] => ""
  | [part] => part
  | part :: rest => (part ++ separator ++ join separator rest)%string
  end.

(** [array[0]] of an array of numbers ([undefined] is not told apart
    from [0]: the arrays read this way here have one element). *)
Definition first (array : list Z) : Z := hd 0 array.

End Js.

(** ** One-time-passcode generation: [createOtp], lines 136-137 *)

Module OtpCode.

(** [String(parseInt(buffer.toString('hex'), 16) % 1000000).padStart(6, '0')];
    on [NaN] JavaScript computes [String(NaN % 1000000)], that is "NaN". *)
Definition generate (buffer : list Byte.byte) : string :=
  match Js.parseInt16 (Js.toHex buffer) with
  | Some v => Js.padStart 6 "0" (Js.toString (v mod 1000000))
  | None => Js.padStart 6 "0" "NaN"
  end.

(** The 2^24 possible results of [crypto.randomBytes(3)], numbered by
    their big-endian value. *)
Definition draws : Z := 16777216.

Definition byteOf (n : Z) : Byte.byte :=
  match Byte.of_N (Z.to_N (n mod 256)) with
  | Some b => b
  | None => Byte.x00
  end.

Definition buffer (v : Z) : list Byte.byte :=
  [byteOf (v / 65536); byteOf (v / 256); byteOf v].

Definition value (buf : list Byte.byte) : Z :=
  fold_left (fun acc b => acc * 256 + Z.of_N (Byte.to_N b)) buf 0.

(** How many of the first [n] draws satisfy [p]. *)
Fixpoint countBelow (n : nat) (p : Z -> bool) : Z :=
  match n with
  | O => 0
  | S k => (if p (Z.of_nat k) then 1 else 0) + countBelow k p
  end.

(** The number of 3-byte buffers for which [createOtp] produces [code];
    under a uniform draw the probability of [code] is this number
    divided by [draws]. *)
Definition frequency (code : string) : Z :=
  countBelow (Z.to_nat draws) (fun v => (generate (buffer v) =? code)%string).

(** The code that stands for the number [n]. *)
Definition codeOf (n : Z) : string := Js.padStart 6 "0" (Js.toString n).

End OtpCode.


(** ** The Credential Store *)

(** The [User] model ([src/models/review.js], lines 145-213). *)
Module User.
Record t := mk {
  id : Z;
  username : string;
  email : string;
  password : string;
  phone : option string;
  roleId : Z;
  isActive : bool }.

(** The [updates] object handed to [user.update]: the fields present. *)
Record updates := mkUpdates {
  newUsername : option string;
  newPassword : option string;
  newPhone : option string;
  newIsActive : option bool }.

Definition noUpdates : updates := mkUpdates None None None None.

Definition apply (upd : updates) (u : t) : t :=
  mk (id u)
     (Js.orElse (newUsername upd) (username u))
     (email u)
     (Js.orElse (newPassword upd) (password u))
     (match newPhone upd with Some p => Some p | None => phone u end)
     (roleId u)
     (Js.orElse (newIsActive upd) (isActive u)).
End User.

(** [models/Role.js]. *)
Module Role.
Record t := mk { id : Z; name : string; description : string }.
End Role.

(** [models/RefreshToken.js]; [token] carries a unique index. *)
Module RefreshToken.
Record t := mk {
  id : Z;
  token : string;
  userId : Z;
  expiresAt : Z;
  isRevoked : bool }.

Definition revoke (r : t) : t := mk (id r) (token r) (userId r) (expiresAt r) true.
End RefreshToken.

(** [models/Otp.js]; [timestamps: true] adds [createdAt], which
    [verifyOtp] orders by. *)
Module Otp.
Record t := mk {
  id : Z;
  userId : Z;
  otp : string;
  expiresAt : Z;
  isUsed : bool;
  createdAt : Z }.

Definition use (r : t) : t :=
  mk (id r) (userId r) (otp r) (expiresAt r) true (createdAt r).
End Otp.

Record Db := mkDb {
  users : list User.t;
  roles : list Role.t;
  refreshTokens : list RefreshToken.t;
  otps : list Otp.t }.

Definition withUsers (rows : list User.t) (db : Db) : Db :=
  mkDb rows (roles db) (refreshTokens db) (otps db).

Definition withRefreshTokens (rows : list RefreshToken.t) (db : Db) : Db :=
  mkDb (users db) (roles db) rows (otps db).

Definition withOtps (rows : list Otp.t) (db : Db) : Db :=
  mkDb (users db) (roles db) (refreshTokens db) rows.

(** A primary key no row of the table has yet. *)
Definition freshId (ids : list Z) : Z := 1 + fold_right Z.max 0 ids.

(** ** Transactions

    A computation inside [sequelize.transaction()] reads and writes the
    database and may throw; the thrown [error.message] is all the
    handlers look at. *)

Inductive Result (A : Type) : Type :=
| Ok (value : A) (db : Db)
| Thrown (message : string).

Arguments Ok {A} value db.
Arguments Thrown {A} message.

Definition Tx (A : Type) : Type := Db -> Result A.

Definition ret {A : Type} (a : A) : Tx A := fun db => Ok a db.

Definition bind {A B : Type} (m : Tx A) (k : A -> Tx B) : Tx B :=
  fun db =>
    match m db with
    | Ok a db' => k a db'
    | Thrown msg => Thrown msg
    end.

Definition throw {A : Type} (message : string) : Tx A := fun _ => Thrown message.

Notation "x <- m ;; k" := (bind m (fun x => k))
  (at level 61, m at next level, right associativity).
Notation "m ;;; k" := (bind m (fun _ => k))
  (at level 61, right associativity).

(** ** Sequelize queries *)

Module Sql.

(** [Model.findOne({ where })]: the first row that matches. *)
Definition findOne {A : Type} (where_ : A -> bool) (rows : list A) : option A :=
  find where_ rows.

(** The newest row by [createdAt]; of two rows created at the same
    instant the one stored first is kept. *)
Fixpoint newest (rows : list Otp.t) : option Otp.t :=
  match rows with
  | [] => None
  | r :: rest =>
      match newest rest with
      | None => Some r
      | Some b => if Otp.createdAt r <? Otp.createdAt b then Some b else Some r
      end
  end.

(** [Otp.findOne({ where, order: [['createdAt', 'DESC']] })]. *)
Definition findNewest (where_ : Otp.t -> bool) (rows : list Otp.t) : option Otp.t :=
  newest (filter where_ rows).

(** [Model.update(values, { where })]: every matching row is rewritten;
    the result is the new table and the number of rows affected. *)
Definition update {A : Type} (set : A -> A) (where_ : A -> bool) (rows : list A)
  : list A * Z :=
  (map (fun r => if where_ r then set r else r) rows,
   Z.of_nat (List.length (filter where_ rows))).

End Sql.

(** ** JSON Web Tokens ([jsonwebtoken]) *)

Module Jwt.

(** The two payloads this code base signs. *)
Inductive payload : Type :=
| Access (id : Z) (type : Z) (validationCheck : bool)
| PasswordReset (userId : Z) (email : string).

(** A signed token: its payload, the [iat] and [exp] claims in seconds
    and the secret it was signed with. *)
Record t := mk { claims : payload; iat : Z; exp : Z; key : string }.

(** A token string as a client sends it: either one that decodes to a
    signed token or anything else. *)
Inductive encoded : Type :=
| Malformed (s : string)
| Signed (tok : t).

(** The [ms] package on [expiresIn]: digits followed by a unit, in the
    short spelling of the units that this code base uses. *)
Fixpoint splitDigits (s : string) : string * string :=
  match s with
  | "" => ("", "")
  | String c rest =>
      if Js.isDigit c
      then let (d, u) := splitDigits rest in (String c d, u)
      else ("", s)
  end.

Definition unitMs (u : string) : option Z :=
  if (u =? "")%string then Some 1
  else if (u =? "ms")%string then Some 1
  else if (u =? "s")%string then Some 1000
  else if (u =? "m")%string then Some 60000
  else if (u =? "h")%string then Some 3600000
  else if (u =? "d")%string then Some 86400000
  else if (u =? "w")%string then Some 604800000
  else if (u =? "y")%string then Some 31557600000
  else None.

Definition ms (span : string) : option Z :=
  let (d, u) := splitDigits span in
  if (d =? "")%string then None
  else match unitMs u with
       | Some k => Some (Js.parseDecFrom 0 d * k)
       | None => None
       end.

(** [jwt.sign(payload, secret, { expiresIn })] at the instant [now];
    [None] when it throws on a bad [expiresIn]. *)
Definition sign (claims : payload) (secret : string) (expiresIn : string) (now : Z)
  : option t :=
  match ms expiresIn with
  | Some span => let iat := now / 1000 in Some (mk claims iat (iat + span / 1000) secret)
  | None => None
  end.

(** [jwt.verify(token, secret)]: the payload, [None] when it throws
    (malformed, bad signature, expired). *)
Definition verify (token : encoded) (secret : string) (now : Z) : option payload :=
  match token with
  | Malformed _ => None
  | Signed tok =>
      if (key tok =? secret)%string && (now / 1000 <? exp tok)
      then Some (claims tok)
      else None
  end.

End Jwt.

(** ** What the process is started with *)

(** [bcrypt] (a salt is drawn by every [bcrypt.hash]), the [isEmail] of
    [validator], which Sequelize calls for [validate: { isEmail: true }],
    [process.env] and the time zone of the process: [LocalTZA t true] is
    the offset of local time from UTC, in milliseconds, at the instant
    [t], and [LocalTZA t false] the offset at the local time [t], as in
    ECMAScript (at a local time that a clock change repeats or skips,
    the offset before the change). *)
Class Runtime : Type := {
  bcrypt_hash : string -> Z -> list Byte.byte -> string;
  bcrypt_compare : string -> string -> bool;
  isEmail : string -> bool;
  JWT_SECRET : option string;
  LocalTZA : Z -> bool -> Z }.

(** ** [Date] objects *)

Module JsDate.
Section WithRuntime.
Context {rt : Runtime}.

Definition msPerMinute : Z := 60000.
Definition msPerDay : Z := 86400000.

Definition LocalTime (t : Z) : Z := t + LocalTZA t true.
Definition UTC (t : Z) : Z := t - LocalTZA t false.

(** [d.setDate(d.getDate() + days)] on the date [d] of time value [t]:
    the day of the local date moves, the local time of day stays, and
    the result is read back as an instant. *)
Definition addDays (t days : Z) : Z := UTC (LocalTime t + days * msPerDay).

(** [d.setMinutes(d.getMinutes() + minutes)]. *)
Definition addMinutes (t minutes : Z) : Z := UTC (LocalTime t + minutes * msPerMinute).

End WithRuntime.
End JsDate.

(** ** The validators of the [User] model *)

Module Validate.

(** [notEmpty] of Sequelize: [!str.match(/^[\s\t\r\n]*$/)]. *)
Definition notEmpty (str : string) : bool := negb (Js.allSpaces str).

(** [len: [min, max]], the [isLength] of [validator]. *)
Definition len (min max : nat) (str : string) : bool :=
  (min <=? String.length str)%nat && (String.length str <=? max)%nat.

(** [x?] for a class [x] of single characters: the rest of the string
    once the character is taken, when it is there. *)
Definition optional (class : ascii -> bool) (str : string) : string :=
  match str with
  | String c rest => if class c then rest else str
  | "" => str
  end.

(** [[0-9]{n}]: the rest of the string after [n] digits. *)
Fixpoint digits (n : nat) (str : string) : option string :=
  match n with
  | O => Some str
  | S k =>
      match str with
      | String c rest => if Js.isDigit c then digits k rest else None
      | "" => None
      end
  end.

Definition separator (c : ascii) : bool :=
  Ascii.eqb c "-" || Js.isSpace c || Ascii.eqb c ".".

(** [is: /^[+]?[(]?[0-9]{3}[)]?[-\s.]?[0-9]{3}[-\s.]?[0-9]{4,6}$/i]: no
    optional character can stand for what follows it, so the match is
    read off from left to right. *)
Definition phone (str : string) : bool :=
  let str := optional (Ascii.eqb "+") str in
  let str := optional (Ascii.eqb "(") str in
  match digits 3 str with
  | None => false
  | Some str =>
      let str := optional (Ascii.eqb ")") str in
      let str := optional separator str in
      match digits 3 str with
      | None => false
      | Some str =>
          let str := optional separator str in
          Js.allDigits str && (4 <=? String.length str)%nat
          && (String.length str <=? 6)%nat
      end
  end.

(** The message of the item a failed built-in validator leaves, and
    the message of the [ValidationError] thrown for the items. *)
Definition failed (validator field : string) : string :=
  ("Validation " ++ validator ++ " on " ++ field ++ " failed")%string.

Definition message (items : list string) : string :=
  Js.join (String "," (String (ascii_of_nat 10) ""))
          (map (fun item => ("Validation error: " ++ item)%string) items).

Definition check (ok : bool) (validator field : string) : list string :=
  if ok then [] else [failed validator field].

End Validate.

(** What one request observes of the outside world: the clock and the
    random bytes it draws. *)
Record Env := mkEnv {
  now : Z;
  randomBytes3 : Byte.byte * Byte.byte * Byte.byte;
  randomBytes40 : list Byte.byte;
  salt : list Byte.byte }.

Definition otpBuffer (env : Env) : list Byte.byte :=
  let '(b0, b1, b2) := randomBytes3 env in [b0; b1; b2].

(** ** The model classes' table operations *)

Module RefreshTokens.

(** [RefreshToken.create(values)]; the unique index on [token] makes a
    duplicate throw. *)
Definition create (token : string) (userId expiresAt : Z) (isRevoked : bool)
  : Tx RefreshToken.t :=
  fun db =>
    let rows := refreshTokens db in
    if existsb (fun r => (RefreshToken.token r =? token)%string) rows
    then Thrown "Validation error"
    else
      let row := RefreshToken.mk (freshId (map RefreshToken.id rows))
                                 token userId expiresAt isRevoked in
      Ok row (withRefreshTokens (rows ++ [row]) db).

Definition findOne (where_ : RefreshToken.t -> bool) : Tx (option RefreshToken.t) :=
  fun db => Ok (Sql.findOne where_ (refreshTokens db)) db.

(** [tokenDoc.update({ isRevoked: true })]: the row of that primary key. *)
Definition revokeRow (tokenDoc : RefreshToken.t) : Tx unit :=
  fun db =>
    Ok tt (withRefreshTokens
             (fst (Sql.update RefreshToken.revoke
                     (fun r => RefreshToken.id r =? RefreshToken.id tokenDoc)
                     (refreshTokens db))) db).

(** [RefreshToken.update({ isRevoked: true }, { where })], which resolves
    to the array [[affectedCount]]. *)
Definition revokeWhere (where_ : RefreshToken.t -> bool) : Tx (list Z) :=
  fun db =>
    let (rows, affected) := Sql.update RefreshToken.revoke where_ (refreshTokens db) in
    Ok [affected] (withRefreshTokens rows db).

End RefreshTokens.

Module Otps.

(** [Otp.create(values)], stamped with the instant of creation. *)
Definition create (now : Z) (userId : Z) (otp : string) (expiresAt : Z) (isUsed : bool)
  : Tx Otp.t :=
  fun db =>
    let rows := otps db in
    let row := Otp.mk (freshId (map Otp.id rows)) userId otp expiresAt isUsed now in
    Ok row (withOtps (rows ++ [row]) db).

Definition findNewest (where_ : Otp.t -> bool) : Tx (option Otp.t) :=
  fun db => Ok (Sql.findNewest where_ (otps db)) db.

(** [otpRecord.update({ isUsed: true })]: the row of that primary key. *)
Definition useRow (otpRecord : Otp.t) : Tx unit :=
  fun db =>
    Ok tt (withOtps
             (fst (Sql.update Otp.use
                     (fun r => Otp.id r =? Otp.id otpRecord) (otps db))) db).

(** [Otp.update({ isUsed: true }, { where })], which resolves to the
    array [[affectedCount]]. *)
Definition useWhere (where_ : Otp.t -> bool) : Tx (list Z) :=
  fun db =>
    let (rows, affected) := Sql.update Otp.use where_ (otps db) in
    Ok [affected] (withOtps rows db).

End Otps.

Module Users.
Section WithRuntime.
Context {rt : Runtime}.

(** What the validators of the model leave for the values given, in the
    order of the attributes: [notEmpty] and [len: [3, 50]] on the
    username, [isEmail] on the email, the pattern on the phone.  A
    value left out, or [null], is not validated. *)
Definition usernameItems (username : option string) : list string :=
  match username with
  | None => []
  | Some v =>
      (Validate.check (Validate.notEmpty v) "notEmpty" "username"
       ++ Validate.check (Validate.len 3 50 v) "len" "username")%list
  end.

Definition emailItems (email : option string) : list string :=
  match email with
  | None => []
  | Some v => Validate.check (isEmail v) "isEmail" "email"
  end.

Definition phoneItems (phone : option string) : list string :=
  match phone with
  | None => []
  | Some v => Validate.check (Validate.phone v) "is" "phone"
  end.

(** [User.create(values)]: the instance is validated, then inserted;
    the unique indexes on [username] and [email] make a duplicate throw.
    The [users] table is created by a migration that is not among the
    sources: the values are taken to fit the width of its columns and
    the role to be one the [roles] table holds. *)
Definition create (username email password : string) (phone : option string)
  (roleId : Z) (isActive : bool) : Tx User.t :=
  fun db =>
    let rows := users db in
    match (usernameItems (Some username) ++ emailItems (Some email)
           ++ phoneItems phone)%list with
    | (_ :: _) as items => Thrown (Validate.message items)
    | [] =>
        if existsb (fun u => (User.email u =? email)%string
                             || (User.username u =? username)%string) rows
        then Thrown "Validation error"
        else
          let row := User.mk (freshId (map User.id rows))
                             username email password phone roleId isActive in
          Ok row (withUsers (rows ++ [row]) db)
    end.

Definition findOne (where_ : User.t -> bool) : Tx (option User.t) :=
  fun db => Ok (Sql.findOne where_ (users db)) db.

Definition findByPk (id : Z) : Tx (option User.t) :=
  findOne (fun u => User.id u =? id).

(** Another row holds the username the update asks for. *)
Definition usernameTaken (user : User.t) (upd : User.updates) (rows : list User.t)
  : bool :=
  match User.newUsername upd with
  | None => false
  | Some v =>
      existsb (fun u => negb (User.id u =? User.id user)
                        && (User.username u =? v)%string) rows
  end.

(** [user.update(updates)]: the fields given are validated, then the
    row of that primary key is written, which the unique index on
    [username] refuses when another row holds the new username; the
    instance with the new values is the result. *)
Definition updateRow (user : User.t) (upd : User.updates) : Tx User.t :=
  fun db =>
    match (usernameItems (User.newUsername upd)
           ++ phoneItems (User.newPhone upd))%list with
    | (_ :: _) as items => Thrown (Validate.message items)
    | [] =>
        if usernameTaken user upd (users db)
        then Thrown "Validation error"
        else
          Ok (User.apply upd user)
             (withUsers
                (fst (Sql.update (User.apply upd)
                        (fun u => User.id u =? User.id user) (users db))) db)
    end.

End WithRuntime.
End Users.

Module Roles.

Definition findOne (where_ : Role.t -> bool) : Tx (option Role.t) :=
  fun db => Ok (Sql.findOne where_ (roles db)) db.

End Roles.

(** ** Requests and responses *)

#[warnings="-register-all"]
Inductive Json : Type :=
| JNull
| JStr (s : string)
| JNum (n : Z)
| JBool (b : bool)
| JToken (tok : Jwt.t)
| JObj (fields : list (string * Json)).

(** What a handler does with the request: [res.status(s).json(o)] or
    [next(new ErrorHandler(message, statusCode))]. *)
Inductive Outcome : Type :=
| Respond (status : Z) (json : list (string * Json))
| NextError (message : string) (statusCode : Z).

Definition Handler : Type := Db -> Outcome * Db.

(** How a transaction ends when nothing was thrown. *)
Inductive Finish : Type :=
| Commit (o : Outcome)
| Rollback (o : Outcome).

Definition commit (o : Outcome) : Tx Finish := ret (Commit o).
Definition rollback (o : Outcome) : Tx Finish := ret (Rollback o).

(** [try { transaction = begin(); ... } catch (error) { rollback;
    handleError(next, error.message, 500) }]. *)
Definition transaction (body : Tx Finish) : Handler :=
  fun db =>
    match body db with
    | Ok (Commit o) db' => (o, db')
    | Ok (Rollback o) _ => (o, db)
    | Thrown msg => (NextError msg 500, db)
    end.

(** [req.body], the fields the handlers destructure. *)
Module Body.
Record t := mk {
  username : option string;
  email : option string;
  password : option string;
  phone : option string;
  otp : option string;
  token : option Jwt.encoded;
  newPassword : option string;
  currentPassword : option string;
  refreshToken : option string }.


Definition tokenTruthy (v : option Jwt.encoded) : bool :=
  match v with
  | None => false
  | Some (Jwt.Malformed s) => negb (s =? "")%string
  | Some (Jwt.Signed _) => true
  end.

(** The truthiness of [fields[field]]. *)
Definition has (fields : t) (field : string) : bool :=
  if (field =? "username")%string then Js.truthy (username fields)
  else if (field =? "email")%string then Js.truthy (email fields)
  else if (field =? "password")%string then Js.truthy (password fields)
  else if (field =? "phone")%string then Js.truthy (phone fields)
  else if (field =? "otp")%string then Js.truthy (otp fields)
  else if (field =? "token")%string then tokenTruthy (token fields)
  else if (field =? "newPassword")%string then Js.truthy (newPassword fields)
  else if (field =? "currentPassword")%string then Js.truthy (currentPassword fields)
  else if (field =? "refreshToken")%string then Js.truthy (refreshToken fields)
  else false.

(** The string in a field that was checked to be truthy. *)
Definition str (v : option string) : string :=
  match v with Some s => s | None => "" end.
End Body.

(** ** [BaseController] *)

Module BaseController.
Section WithRuntime.
Context {rt : Runtime}.

Definition userTypes_admin : Z := 1.
Definition userTypes_user : Z := 2.

(** [process.env.JWT_SECRET || 'your-secret-key']. *)
Definition secret : string :=
  match JWT_SECRET with
  | Some s => if (s =? "")%string then "your-secret-key" else s
  | None => "your-secret-key"
  end.

(** [generateToken(id, type, duration = '365d', validationCheck = false)];
    an argument left out is [None]. *)
Definition generateToken (env : Env) (id type : Z) (duration : option string)
  (validationCheck : option bool) : option Jwt.t :=
  Jwt.sign (Jwt.Access id type (Js.orElse validationCheck false))
           secret (Js.orElse duration "365d") (now env).

(** [generatePasswordResetToken(userId, email, duration = '15m')]. *)
Definition generatePasswordResetToken (env : Env) (userId : Z) (email : string)
  (duration : option string) : option Jwt.t :=
  Jwt.sign (Jwt.PasswordReset userId email)
           secret (Js.orElse duration "15m") (now env).

Definition verifyToken (env : Env) (token : Jwt.encoded) : option Jwt.payload :=
  Jwt.verify token secret (now env).

(** A synchronous call that may throw, inside a transaction. *)
Definition orThrow {A : Type} (o : option A) (message : string) : Tx A :=
  match o with
  | Some a => ret a
  | None => throw message
  end.

Definition signed (o : option Jwt.t) : Tx Jwt.t :=
  orThrow o "expiresIn should be a number of seconds or string representing a timespan".

(** [generateRefreshToken(userId, transaction, expiryDays = 7)]. *)
Definition generateRefreshToken (env : Env) (userId : Z) (expiryDays : option Z)
  : Tx string :=
  let refreshToken := Js.toHex (randomBytes40 env) in
  let expiresAt := JsDate.addDays (now env) (Js.orElse expiryDays 7) in
  RefreshTokens.create refreshToken userId expiresAt false ;;;
  ret refreshToken.

Definition verifyRefreshToken (env : Env) (token : string)
  : Tx (option RefreshToken.t) :=
  tokenDoc <- RefreshTokens.findOne
                (fun r => (RefreshToken.token r =? token)%string
                          && negb (RefreshToken.isRevoked r)) ;;
  match tokenDoc with
  | None => ret None
  | Some doc =>
      if RefreshToken.expiresAt doc <? now env then ret None else ret (Some doc)
  end.

Definition revokeRefreshToken (token : string) : Tx bool :=
  tokenDoc <- RefreshTokens.findOne
                (fun r => (RefreshToken.token r =? token)%string) ;;
  match tokenDoc with
  | None => ret false
  | Some doc => RefreshTokens.revokeRow doc ;;; ret true
  end.

Definition revokeAllUserRefreshTokens (userId : Z) : Tx Z :=
  result <- RefreshTokens.revokeWhere
              (fun r => (RefreshToken.userId r =? userId)
                        && negb (RefreshToken.isRevoked r)) ;;
  ret (Js.first result).

(** [createOtp(userId, transaction, expiryMinutes = 5)]. *)
Definition createOtp (env : Env) (userId : Z) (expiryMinutes : option Z)
  : Tx string :=
  let otp := OtpCode.generate (otpBuffer env) in
  let expiresAt := JsDate.addMinutes (now env) (Js.orElse expiryMinutes 5) in
  Otps.create (now env) userId otp expiresAt false ;;;
  ret otp.

Definition verifyOtp (env : Env) (userId : Z) (otp : string) : Tx bool :=
  otpRecord <- Otps.findNewest
                 (fun r => (Otp.userId r =? userId)
                           && (Otp.otp r =? otp)%string
                           && negb (Otp.isUsed r)) ;;
  match otpRecord with
  | None => ret false
  | Some record =>
      if Otp.expiresAt record <? now env
      then Otps.useRow record ;;; ret false
      else Otps.useRow record ;;; ret true
  end.

Definition handleError (message : string) (statusCode : Z) : Outcome :=
  NextError message statusCode.

Definition validateFields (fields : Body.t) (requiredFields : list string) : bool :=
  forallb (Body.has fields) requiredFields.

(** [sendMail] catches whatever the transport throws and only logs it:
    sending never fails the request and writes nothing to the store. *)
Definition sendOtpEmail (email otp username : string) : Tx unit := ret tt.

Definition sendPasswordResetEmail (email : string) (resetToken : Jwt.t)
  (username : string) : Tx unit := ret tt.

End WithRuntime.
End BaseController.

(** ** [UserAuthService] *)

Module UserAuthService.
Section WithRuntime.
Context {rt : Runtime}.

Definition findUserByEmail (email : string) : Tx (option User.t) :=
  Users.findOne (fun u => (User.email u =? email)%string).

Definition findUserById (id : Z) : Tx (option User.t) :=
  Users.findOne (fun u => User.id u =? id).

Definition createUser (env : Env) (username email password : string)
  (phone : option string) (roleId : Z) (isActive : bool) : Tx User.t :=
  let hashed :=
    if Js.truthy (Some password) then bcrypt_hash password 10 (salt env)
    else password in
  Users.create username email hashed phone roleId isActive.

Definition updateUser (env : Env) (userId : Z) (upd : User.updates) : Tx User.t :=
  user <- Users.findByPk userId ;;
  match user with
  | None => throw "User not found"
  | Some u =>
      let upd' :=
        if Js.truthy (User.newPassword upd)
        then User.mkUpdates (User.newUsername upd)
               (Some (bcrypt_hash (Body.str (User.newPassword upd)) 10 (salt env)))
               (User.newPhone upd) (User.newIsActive upd)
        else upd in
      Users.updateRow u upd'
  end.

Definition verifyPassword (plainPassword hashedPassword : string) : bool :=
  bcrypt_compare plainPassword hashedPassword.

(** The [where] clause shared by [hasActiveOtp] and [getOtpTimeRemaining]. *)
Definition activeOtp (env : Env) (userId : Z) (r : Otp.t) : bool :=
  (Otp.userId r =? userId) && negb (Otp.isUsed r) && (now env <? Otp.expiresAt r).

Definition hasActiveOtp (env : Env) (userId : Z) : Tx bool :=
  otp <- Otps.findNewest (activeOtp env userId) ;;
  ret (match otp with Some _ => true | None => false end).

(** [Math.round((expiresAt - now) / 1000)]. *)
Definition getOtpTimeRemaining (env : Env) (userId : Z) : Tx Z :=
  otp <- Otps.findNewest (activeOtp env userId) ;;
  match otp with
  | None => ret 0
  | Some o => ret ((Otp.expiresAt o - now env + 500) / 1000)
  end.

Definition invalidateAllOtps (userId : Z) : Tx (list Z) :=
  Otps.useWhere (fun r => (Otp.userId r =? userId) && negb (Otp.isUsed r)).

End WithRuntime.
End UserAuthService.

(** ** The [isUser] and [isAdmin] middlewares *)

Module Middleware.
Section WithRuntime.
Context {rt : Runtime}.

Definition denied (status : Z) (message : string) : Outcome :=
  Respond status [("error", JBool true); ("message", JStr message)].

(** The [Authorization] header is [None] when it is absent or does not
    start with "Bearer ", otherwise it carries the token after it.
    The result is the response of a refused request or [req.user]. *)
Definition isUser (env : Env) (authorization : option Jwt.encoded) (path : string)
  (db : Db) : Outcome + User.t :=
  match authorization with
  | None => inl (denied 401 "No token, authorization denied")
  | Some token =>
      match BaseController.verifyToken env token with
      | None => inl (denied 401 "Invalid token")
      | Some (Jwt.PasswordReset _ _) => inl (denied 403 "Access denied. User only")
      | Some (Jwt.Access id type _) =>
          if negb (type =? BaseController.userTypes_user)
          then inl (denied 403 "Access denied. User only")
          else
            match Sql.findOne
                    (fun u => (User.id u =? id)
                              && (User.roleId u =? BaseController.userTypes_user))
                    (users db) with
            | None => inl (denied 403 "User not found")
            | Some user =>
                if (path =? "/verify-otp")%string || (path =? "/resend-otp")%string
                then inr user
                else if negb (User.isActive user)
                then inl (denied 403 "Your account is inactive. Please verify your email.")
                else inr user
            end
      end
  end.

Definition isAdmin (env : Env) (authorization : option Jwt.encoded) (db : Db)
  : Outcome + User.t :=
  match authorization with
  | None => inl (denied 401 "No token, authorization denied")
  | Some token =>
      match BaseController.verifyToken env token with
      | None => inl (denied 401 "Token is not valid")
      | Some (Jwt.PasswordReset _ _) => inl (denied 403 "Access denied. Admin only")
      | Some (Jwt.Access id type _) =>
          if negb (type =? 1)
          then inl (denied 403 "Access denied. Admin only")
          else
            match Sql.findOne
                    (fun u => (User.id u =? id) && (User.roleId u =? 1))
                    (users db) with
            | None => inl (denied 403 "Access denied. Admin only")
            | Some admin =>
                if negb (User.isActive admin)
                then inl (denied 403 "Account is locked or inactive")
                else inr admin
            end
      end
  end.

(** [router.post(path, middleware, handler)]. *)
Definition guarded (check : Db -> Outcome + User.t) (handler : User.t -> Handler)
  : Handler :=
  fun db =>
    match check db with
    | inl refused => (refused, db)
    | inr user => handler user db
    end.

End WithRuntime.
End Middleware.

(** ** [UserAuthController] *)

Module UserAuthController.
Section WithRuntime.
Context {rt : Runtime}.

Import BaseController.

Definition userJson (id : Z) (username email : string) (isActive : bool) : Json :=
  JObj [("id", JNum id); ("username", JStr username); ("email", JStr email);
        ("isActive", JBool isActive)].

Definition signup (env : Env) (body : Body.t) : Handler :=
  let username := Body.str (Body.username body) in
  let email := Body.str (Body.email body) in
  let password := Body.str (Body.password body) in
  let phone := Body.phone body in
  if negb (validateFields body ["username"; "email"; "password"])
  then fun db => (handleError "Required fields missing" 400, db)
  else transaction (
    existingUser <- UserAuthService.findUserByEmail email ;;
    match existingUser with
    | Some _ => rollback (handleError "Email already in use" 400)
    | None =>
        user <- UserAuthService.createUser env username email password phone
                  userTypes_user false ;;
        accessToken <- signed (generateToken env (User.id user) userTypes_user
                                 (Some "1h") None) ;;
        refreshToken <- generateRefreshToken env (User.id user) None ;;
        otp <- createOtp env (User.id user) (Some 5) ;;
        sendOtpEmail email otp username ;;;
        commit (Respond 201
          [("error", JBool false);
           ("message", JStr "Registration successful. Verification OTP sent to your email");
           ("accessToken", JToken accessToken);
           ("refreshToken", JStr refreshToken);
           ("user", userJson (User.id user) (User.username user) (User.email user) false)])
    end).

Definition verifyOTP (env : Env) (reqUser : User.t) (body : Body.t) : Handler :=
  let otp := Body.otp body in
  let userId := User.id reqUser in
  if negb (Js.truthy otp)
  then fun db => (handleError "OTP is required" 400, db)
  else transaction (
    isValid <- verifyOtp env userId (Body.str otp) ;;
    if negb isValid
    then rollback (handleError "Invalid or expired OTP" 400)
    else
      UserAuthService.updateUser env userId
        (User.mkUpdates None None None (Some true)) ;;;
      accessToken <- signed (generateToken env userId userTypes_user (Some "1h") None) ;;
      refreshToken <- generateRefreshToken env userId None ;;
      commit (Respond 200
        [("error", JBool false);
         ("message", JStr "OTP verification successful. Your account is now active.");
         ("accessToken", JToken accessToken);
         ("refreshToken", JStr refreshToken);
         ("user", userJson (User.id reqUser) (User.username reqUser)
                    (User.email reqUser) true)])).

Definition resendOtp (env : Env) (reqUser : User.t) : Handler :=
  let userId := User.id reqUser in
  transaction (
    timeRemaining <- UserAuthService.getOtpTimeRemaining env userId ;;
    if 30 <? timeRemaining
    then rollback (Respond 400
      [("error", JBool true);
       ("message", JStr ("Please wait " ++ Js.toString ((timeRemaining + 59) / 60)
                         ++ " minute(s) before requesting a new OTP"));
       ("secondsRemaining", JStr (Js.toString timeRemaining ++ " seconds remaining"))])
    else
      UserAuthService.invalidateAllOtps userId ;;;
      otp <- createOtp env userId (Some 5) ;;
      sendOtpEmail (User.email reqUser) otp (User.username reqUser) ;;;
      commit (Respond 200
        [("error", JBool false); ("message", JStr "New OTP sent to your email")])).

Definition login (env : Env) (body : Body.t) : Handler :=
  let email := Body.str (Body.email body) in
  let password := Body.str (Body.password body) in
  if negb (validateFields body ["email"; "password"])
  then fun db => (handleError "Email and password required" 400, db)
  else transaction (
    found <- UserAuthService.findUserByEmail email ;;
    match found with
    | None => rollback (handleError "Invalid credentials" 400)
    | Some user =>
        if negb (UserAuthService.verifyPassword password (User.password user))
        then rollback (handleError "Invalid credentials" 400)
        else if negb (User.isActive user)
        then
          otp <- createOtp env (User.id user) (Some 5) ;;
          sendOtpEmail (User.email user) otp (User.username user) ;;;
          accessToken <- signed (generateToken env (User.id user) userTypes_user
                                   (Some "1h") None) ;;
          refreshToken <- generateRefreshToken env (User.id user) None ;;
          commit (Respond 200
            [("error", JBool false);
             ("message", JStr "Account not activated. A verification OTP has been sent to your email.");
             ("accessToken", JToken accessToken);
             ("refreshToken", JStr refreshToken);
             ("user", userJson (User.id user) (User.username user) (User.email user) false);
             ("requireVerification", JBool true)])
        else
          accessToken <- signed (generateToken env (User.id user) userTypes_user
                                   (Some "1h") None) ;;
          refreshToken <- generateRefreshToken env (User.id user) None ;;
          commit (Respond 200
            [("error", JBool false);
             ("message", JStr "Login successful");
             ("accessToken", JToken accessToken);
             ("refreshToken", JStr refreshToken);
             ("user", userJson (User.id user) (User.username user) (User.email user)
                        (User.isActive user))])
    end).

Definition genericResetReply : Outcome :=
  Respond 200
    [("error", JBool false);
     ("message", JStr "If your email exists in our system, you will receive a password reset link")].

Definition forgotPassword (env : Env) (body : Body.t) : Handler :=
  let email := Body.email body in
  if negb (Js.truthy email)
  then fun db => (handleError "Email is required" 400, db)
  else transaction (
    found <- UserAuthService.findUserByEmail (Body.str email) ;;
    match found with
    | None => rollback genericResetReply
    | Some user =>
        resetToken <- signed (generatePasswordResetToken env (User.id user)
                                (User.email user) (Some "15m")) ;;
        sendPasswordResetEmail (Body.str email) resetToken (User.username user) ;;;
        commit genericResetReply
    end).

(** The inner [try] of [resetPassword]: the payload of a token that
    verifies and carries the [password_reset] type. *)
Definition decodeResetToken (env : Env) (token : option Jwt.encoded)
  : option (Z * string) :=
  match token with
  | None => None
  | Some t =>
      match verifyToken env t with
      | Some (Jwt.PasswordReset userId email) => Some (userId, email)
      | _ => None
      end
  end.

Definition resetPassword (env : Env) (body : Body.t) : Handler :=
  let token := Body.token body in
  let newPassword := Body.newPassword body in
  if negb (validateFields body ["token"; "newPassword"])
  then fun db => (handleError "Token and new password required" 400, db)
  else transaction (
    match decodeResetToken env token with
    | None => rollback (handleError "Invalid or expired token" 400)
    | Some (userId, email) =>
        found <- UserAuthService.findUserById userId ;;
        match found with
        | None => rollback (handleError "Invalid token" 400)
        | Some user =>
            if negb (User.email user =? email)%string
            then rollback (handleError "Invalid token" 400)
            else
              UserAuthService.updateUser env userId
                (User.mkUpdates None newPassword None None) ;;;
              revokeAllUserRefreshTokens userId ;;;
              commit (Respond 200
                [("error", JBool false); ("message", JStr "Password reset successful")])
        end
    end).

Definition logout (env : Env) (reqUser : User.t) (body : Body.t) : Handler :=
  let refreshToken := Body.refreshToken body in
  let id := User.id reqUser in
  transaction (
    (if Js.truthy refreshToken
     then revokeRefreshToken (Body.str refreshToken) ;;; ret tt
     else revokeAllUserRefreshTokens id ;;; ret tt) ;;;
    commit (Respond 200
      [("error", JBool false); ("message", JStr "Logout successful")])).

Definition refreshToken (env : Env) (body : Body.t) : Handler :=
  let refreshToken := Body.refreshToken body in
  if negb (Js.truthy refreshToken)
  then fun db => (handleError "Refresh token required" 400, db)
  else transaction (
    tokenDoc <- verifyRefreshToken env (Body.str refreshToken) ;;
    match tokenDoc with
    | None => rollback (handleError "Invalid or expired refresh token" 401)
    | Some doc =>
        found <- UserAuthService.findUserById (RefreshToken.userId doc) ;;
        match found with
        | None => rollback (handleError "User not found or inactive" 401)
        | Some user =>
            if negb (User.roleId user =? userTypes_user) || negb (User.isActive user)
            then rollback (handleError "User not found or inactive" 401)
            else
              revokeRefreshToken (Body.str refreshToken) ;;;
              accessToken <- signed (generateToken env (User.id user) userTypes_user
                                       (Some "1h") None) ;;
              newRefreshToken <- generateRefreshToken env (User.id user) None ;;
              commit (Respond 200
                [("error", JBool false);
                 ("message", JStr "Token refreshed");
                 ("accessToken", JToken accessToken);
                 ("refreshToken", JStr newRefreshToken)])
        end
    end).

Definition updatePassword (env : Env) (reqUser : User.t) (body : Body.t) : Handler :=
  let currentPassword := Body.currentPassword body in
  let newPassword := Body.newPassword body in
  let id := User.id reqUser in
  if negb (validateFields body ["currentPassword"; "newPassword"])
  then fun db => (handleError "Current and new password required" 400, db)
  else transaction (
    if negb (UserAuthService.verifyPassword (Body.str currentPassword)
               (User.password reqUser))
    then rollback (handleError "Current password is incorrect" 400)
    else
      UserAuthService.updateUser env id (User.mkUpdates None newPassword None None) ;;;
      commit (Respond 200
        [("error", JBool false); ("message", JStr "Password updated successfully")])).

Definition updateDetails (env : Env) (reqUser : User.t) (body : Body.t) : Handler :=
  let username := Body.username body in
  let phone := Body.phone body in
  let id := User.id reqUser in
  if negb (Js.truthy username) && negb (Js.truthy phone)
  then fun db => (handleError "No fields to update" 400, db)
  else transaction (
    let updates :=
      User.mkUpdates (if Js.truthy username then username else None) None
                     (if Js.truthy phone then phone else None) None in
    updatedUser <- UserAuthService.updateUser env id updates ;;
    commit (Respond 200
      [("error", JBool false);
       ("message", JStr "Profile updated successfully");
       ("user", JObj [("id", JNum (User.id updatedUser));
                      ("username", JStr (User.username updatedUser));
                      ("email", JStr (User.email updatedUser));
                      ("phone", match User.phone updatedUser with
                                | Some p => JStr p
                                | None => JNull
                                end)])])).

End WithRuntime.
End UserAuthController.

(** ** [AdminAuthController] *)

Module AdminAuthController.
Section WithRuntime.
Context {rt : Runtime}.

Import BaseController.

(** [#createDummyAccount], a transaction of its own: committed when it
    returns, rolled back when it throws. *)
Definition createDummyAccount (env : Env) : Tx User.t :=
  adminRole <- Roles.findOne (fun r => Role.id r =? userTypes_admin) ;;
  match adminRole with
  | None => throw "Admin role not found"
  | Some _ =>
      let hashedPassword := bcrypt_hash "123" 10 (salt env) in
      Users.create "Admin Muqeet" "dummy@gmail.com" hashedPassword
        (Some "+923083160159") userTypes_admin true
  end.

Definition adminJson (u : User.t) : Json :=
  JObj [("username", JStr (User.username u)); ("email", JStr (User.email u))].

(** The transaction opened first only reads and is committed on every
    path; the dummy account and its refresh token are written by two
    further transactions. *)
Definition login (env : Env) (body : Body.t) : Handler :=
  let email := Body.str (Body.email body) in
  let password := Body.str (Body.password body) in
  if negb (validateFields body ["email"; "password"])
  then fun db => (handleError "Email and password are required" 400, db)
  else fun db =>
    match Sql.findOne (fun u => (User.email u =? email)%string
                                && (User.roleId u =? userTypes_admin)) (users db) with
    | None =>
        if (email =? "dummy@gmail.com")%string && (password =? "123")%string
        then
          match createDummyAccount env db with
          | Thrown msg => (handleError msg 500, db)
          | Ok dummyAdmin db1 =>
              transaction (
                accessToken <- signed (generateToken env (User.id dummyAdmin)
                                         userTypes_admin (Some "1h") None) ;;
                refreshToken <- generateRefreshToken env (User.id dummyAdmin) None ;;
                commit (Respond 200
                  [("error", JBool false);
                   ("message", JStr "Admin created and logged in successfully");
                   ("accessToken", JToken accessToken);
                   ("refreshToken", JStr refreshToken);
                   ("user", adminJson dummyAdmin)])) db1
          end
        else (handleError "Invalid credentials" 400, db)
    | Some admin =>
        if negb (bcrypt_compare password (User.password admin))
        then (handleError "Invalid credentials" 400, db)
        else if negb (User.isActive admin)
        then (handleError "Your account is inactive" 400, db)
        else
          transaction (
            accessToken <- signed (generateToken env (User.id admin)
                                     userTypes_admin (Some "1h") None) ;;
            refreshToken <- generateRefreshToken env (User.id admin) None ;;
            commit (Respond 200
              [("error", JBool false);
               ("message", JStr "Admin login successful");
               ("accessToken", JToken accessToken);
               ("refreshToken", JStr refreshToken);
               ("user", adminJson admin)])) db
    end.

Definition refreshToken (env : Env) (body : Body.t) : Handler :=
  let refreshToken := Body.refreshToken body in
  if negb (Js.truthy refreshToken)
  then fun db => (handleError "Refresh token is required" 400, db)
  else transaction (
    tokenDoc <- verifyRefreshToken env (Body.str refreshToken) ;;
    match tokenDoc with
    | None => commit (handleError "Invalid or expired refresh token" 401)
    | Some doc =>
        found <- Users.findOne
                   (fun u => (User.id u =? RefreshToken.userId doc)
                             && (User.roleId u =? userTypes_admin)
                             && User.isActive u) ;;
        match found with
        | None => commit (handleError "User not found or not an admin" 401)
        | Some admin =>
            revokeRefreshToken (Body.str refreshToken) ;;;
            accessToken <- signed (generateToken env (User.id admin) userTypes_admin
                                     (Some "1h") None) ;;
            newRefreshToken <- generateRefreshToken env (User.id admin) None ;;
            commit (Respond 200
              [("error", JBool false);
               ("message", JStr "Token refreshed successfully");
               ("accessToken", JToken accessToken);
               ("refreshToken", JStr newRefreshToken)])
        end
    end).

Definition logout (env : Env) (reqUser : User.t) (body : Body.t) : Handler :=
  let refreshToken := Body.refreshToken body in
  transaction (
    (if Js.truthy refreshToken
     then revokeRefreshToken (Body.str refreshToken) ;;; ret tt
     else revokeAllUserRefreshTokens (User.id reqUser) ;;; ret tt) ;;;
    commit (Respond 200
      [("error", JBool false); ("message", JStr "Logged out successfully")])).

End WithRuntime.
End AdminAuthController.

(** ** The routes of [routes/api/v1/user/authRoutes] and
    [routes/api/v1/admin/authRoutes.js] *)

Inductive Request : Type :=
| PostUserSignup (body : Body.t)
| PostUserVerifyOtp (authorization : option Jwt.encoded) (body : Body.t)
| PostUserResendOtp (authorization : option Jwt.encoded)
| PostUserLogin (body : Body.t)
| PostUserForgotPassword (body : Body.t)
| PostUserResetPassword (body : Body.t)
| PostUserRefreshToken (body : Body.t)
| PostUserLogout (authorization : option Jwt.encoded) (body : Body.t)
| PutUserUpdatePassword (authorization : option Jwt.encoded) (body : Body.t)
| PutUserUpdateDetails (authorization : option Jwt.encoded) (body : Body.t)
| PostAdminLogin (body : Body.t)
| PostAdminRefreshToken (authorization : option Jwt.encoded) (body : Body.t)
| PostAdminLogout (authorization : option Jwt.encoded) (body : Body.t).

Section Routes.
Context {rt : Runtime}.

Definition serve (env : Env) (req : Request) : Handler :=
  match req with
  | PostUserSignup body => UserAuthController.signup env body
  | PostUserVerifyOtp auth body =>
      Middleware.guarded (Middleware.isUser env auth "/verify-otp")
        (fun user => UserAuthController.verifyOTP env user body)
  | PostUserResendOtp auth =>
      Middleware.guarded (Middleware.isUser env auth "/resend-otp")
        (fun user => UserAuthController.resendOtp env user)
  | PostUserLogin body => UserAuthController.login env body
  | PostUserForgotPassword body => UserAuthController.forgotPassword env body
  | PostUserResetPassword body => UserAuthController.resetPassword env body
  | PostUserRefreshToken body => UserAuthController.refreshToken env body
  | PostUserLogout auth body =>
      Middleware.guarded (Middleware.isUser env auth "/logout")
        (fun user => UserAuthController.logout env user body)
  | PutUserUpdatePassword auth body =>
      Middleware.guarded (Middleware.isUser env auth "/update-password")
        (fun user => UserAuthController.updatePassword env user body)
  | PutUserUpdateDetails auth body =>
      Middleware.guarded (Middleware.isUser env auth "/update-details")
        (fun user => UserAuthController.updateDetails env user body)
  | PostAdminLogin body => AdminAuthController.login env body
  | PostAdminRefreshToken auth body =>
      Middleware.guarded (Middleware.isAdmin env auth)
        (fun _ => AdminAuthController.refreshToken env body)
  | PostAdminLogout auth body =>
      Middleware.guarded (Middleware.isAdmin env auth)
        (fun admin => AdminAuthController.logout env admin body)
  end.

(** The database after a sequence of requests, each with the
    environment it runs in. *)
Fixpoint serveAll (trace : list (Env * Request)) (db : Db) : Db :=
  match trace with
  | [] => db
  | (env, req) :: rest => serveAll rest (snd (serve env req db))
  end.

(** A sequence of [verifyOtp] calls, each in a transaction of its
    caller: [verifyOTP] commits only when the answer was [true] and
    rolls back otherwise, which leaves the store as the call found it. *)
Fixpoint verifyOtpAll (calls : list (Env * Z * string)) (db : Db) : Db :=
  match calls with
  | [] => db
  | (env, userId, otp) :: rest =>
      match BaseController.verifyOtp env userId otp db with
      | Ok true db' => verifyOtpAll rest db'
      | Ok false _ => verifyOtpAll rest db
      | Thrown _ => verifyOtpAll rest db
      end
  end.

End Routes.

(** ** Vocabulary of the specification *)

(** An unused OTP row of the account. *)
Definition unusedOf (userId : Z) (r : Otp.t) : bool :=
  (Otp.userId r =? userId) && negb (Otp.isUsed r).

(** An unused OTP row of the account that carries [code]. *)
Definition outstanding (userId : Z) (code : string) (r : Otp.t) : bool :=
  unusedOf userId r && (Otp.otp r =? code)%string.

(** Whether [verifyOtp] answers [true]. *)
Definition verifies (env : Env) (userId : Z) (code : string) (db : Db) : bool :=
  match BaseController.verifyOtp env userId code db with
  | Ok b _ => b
  | Thrown _ => false
  end.

(** [r] is a most recently created row among the unused rows of the
    account, whatever their codes. *)
Definition newestUnused (userId : Z) (db : Db) (r : Otp.t) : Prop :=
  In r (otps db) /\ unusedOf userId r = true /\
  forall x, In x (otps db) -> unusedOf userId x = true ->
            Otp.createdAt x <= Otp.createdAt r.

(** [r] is a most recently created row among the unused rows of the
    account that carry [code]. *)
Definition newestOutstanding (userId : Z) (code : string) (db : Db) (r : Otp.t) : Prop :=
  In r (otps db) /\ outstanding userId code r = true /\
  forall x, In x (otps db) -> outstanding userId code x = true ->
            Otp.createdAt x <= Otp.createdAt r.

(** The same, with every other such row strictly older. *)
Definition strictlyNewestOutstanding (userId : Z) (code : string) (db : Db) (r : Otp.t)
  : Prop :=
  In r (otps db) /\ outstanding userId code r = true /\
  forall x, In x (otps db) -> outstanding userId code x = true -> x <> r ->
            Otp.createdAt x < Otp.createdAt r.

(** No unused row of the account carries [code]. *)
Definition noOutstanding (userId : Z) (code : string) (db : Db) : Prop :=
  forall x, In x (otps db) -> outstanding userId code x = false.

(** An environment at the instant [t]. *)
Definition envAt (t : Z) : Env := mkEnv t (Byte.x00, Byte.x00, Byte.x00) [] [].

(** Two codes issued to account 7 a minute apart, both unused. *)
Definition olderRow : Otp.t := Otp.mk 1 7 "111111" 300000 false 0.
Definition newerRow : Otp.t := Otp.mk 2 7 "222222" 360000 false 60000.
Definition twoCodesDb : Db := mkDb [] [] [] [olderRow; newerRow].

(** One unused code for account 7. *)
Definition singleDb : Db := mkDb [] [] [] [olderRow].

(** The [exp - iat] of a token, in seconds. *)
Definition lifetime (tok : Jwt.t) : Z := Jwt.exp tok - Jwt.iat tok.

(** The value of a field of the JSON object a handler responds with. *)
Fixpoint field (name : string) (json : list (string * Json)) : option Json :=
  match json with
  | [] => None
  | (k, v) :: rest => if (k =? name)%string then Some v else field name rest
  end.

(** The [accessToken] of a response, when it carries one. *)
Definition accessTokenOf (o : Outcome) : option Jwt.t :=
  match o with
  | Respond _ json =>
      match field "accessToken" json with
      | Some (JToken tok) => Some tok
      | _ => None
      end
  | NextError _ _ => None
  end.

(** The unique index on [token] holds. *)
Definition wfTokens (db : Db) : Prop :=
  NoDup (map RefreshToken.token (refreshTokens db)).

(** The token string [t] is stored and every row that carries it is
    revoked. *)
Definition dead (t : string) (db : Db) : Prop :=
  In t (map RefreshToken.token (refreshTokens db)) /\
  forall r, In r (refreshTokens db) -> RefreshToken.token r = t ->
            RefreshToken.isRevoked r = true.

(** A computation, or a handler, that keeps [I] true. *)
Definition invariantTx (I : Db -> Prop) {A : Type} (m : Tx A) : Prop :=
  forall db a db', m db = Ok a db' -> I db -> I db'.

Definition invariantHandler (I : Db -> Prop) (h : Handler) : Prop :=
  forall db, I db -> I (snd (h db)).

(** A computation whose result, when it has one, satisfies [Q]. *)
Definition yields {A : Type} (Q : A -> Prop) (m : Tx A) : Prop :=
  forall db a db', m db = Ok a db' -> Q a.

Definition finishOutcome (f : Finish) : Outcome :=
  match f with Commit o => o | Rollback o => o end.

(** The access token of a response, if any, lives one hour. *)
Definition hourToken (o : Outcome) : Prop :=
  forall tok, accessTokenOf o = Some tok -> lifetime tok = 3600.

(** An active account holding one refresh token, and requests on it. *)
Definition ana : User.t :=
  User.mk 7 "ana" "a@x.com" "$2b$10$secret1" None 2 true.

Definition anaToken : RefreshToken.t :=
  RefreshToken.mk 1 "c0ffee" 7 604800000 false.

Definition anaDb : Db := mkDb [ana] [] [anaToken] [].

Definition anaEnv : Env :=
  mkEnv 60000 (Byte.x00, Byte.x00, Byte.x2a) [Byte.x0a; Byte.x0b] [].

Definition refreshBody (t : string) : Body.t :=
  Body.mk None None None None None None None None (Some t).

(** The JSON object of a response. *)
Definition jsonOf (o : Outcome) : list (string * Json) :=
  match o with
  | Respond _ json => json
  | NextError _ _ => []
  end.

(** A password-reset token for [ana], as [forgotPassword] mails it at
    the instant 0, and the request that redeems it. *)
Definition anaResetToken : Jwt.t :=
  Jwt.mk (Jwt.PasswordReset 7 "a@x.com") 0 900 "your-secret-key".

Definition resetBody : Body.t :=
  Body.mk None None None None None (Some (Jwt.Signed anaResetToken))
          (Some "secret2") None None.

(** The password update [updateUser] applies: hashed when truthy. *)
Definition hashedUpdates {rt : Runtime} (env : Env) (upd : User.updates) : User.updates :=
  if Js.truthy (User.newPassword upd)
  then User.mkUpdates (User.newUsername upd)
         (Some (bcrypt_hash (Body.str (User.newPassword upd)) 10 (salt env)))
         (User.newPhone upd) (User.newIsActive upd)
  else upd.

(** [u'] is [u] with, at most, another password hash. *)
Definition sameButPassword (u u' : User.t) : Prop :=
  User.id u' = User.id u /\ User.username u' = User.username u /\
  User.email u' = User.email u /\ User.phone u' = User.phone u /\
  User.roleId u' = User.roleId u /\ User.isActive u' = User.isActive u.

(** An account that has not verified its email yet, and its login. *)
Definition bob : User.t :=
  User.mk 8 "bob" "b@x.com" "$2b$10$secret1" None 2 false.

Definition bobDb : Db := mkDb [ana; bob] [] [anaToken] [].

Definition loginBody (email password : string) : Body.t :=
  Body.mk None (Some email) (Some password) None None None None None None.

Definition passwordBody (current new : string) : Body.t :=
  Body.mk None None None None None None (Some new) (Some current) None.

(** A sign-up, a login before the email is verified, and the first of
    the two codes submitted afterwards. *)
Definition emptyDb : Db := mkDb [] [] [] [].

Definition signupBody : Body.t :=
  Body.mk (Some "cyan") (Some "c@x.com") (Some "secret1") None None None None None None.

Definition otpBody (code : string) : Body.t :=
  Body.mk None None None None (Some code) None None None None.

Definition signupEnv : Env := mkEnv 0 (Byte.x00, Byte.x00, Byte.x01) [Byte.x01] [].
Definition loginEnv : Env := mkEnv 60000 (Byte.x00, Byte.x00, Byte.x02) [Byte.x02] [].
Definition verifyEnv : Env := mkEnv 120000 (Byte.x00, Byte.x00, Byte.x03) [Byte.x03] [].

Definition signupAccessToken : Jwt.t :=
  Jwt.mk (Jwt.Access 1 2 false) 0 3600 "your-secret-key".

Definition statusOf (o : Outcome) : Z :=
  match o with
  | Respond status _ => status
  | NextError _ statusCode => statusCode
  end.

(** A stand-in for [isEmail] on concrete requests. *)
Fixpoint hasAt (s : string) : bool :=
  match s with
  | "" => false
  | String c rest => Ascii.eqb c "@" || hasAt rest
  end.

(** A runtime to run the model on concrete requests: a process in UTC. *)
Definition demoRuntime : Runtime :=
  {| bcrypt_hash := fun data _ _ => "$2b$10$" ++ data;
     bcrypt_compare := fun data hash => (hash =? "$2b$10$" ++ data)%string;
     isEmail := hasAt;
     JWT_SECRET := None;
     LocalTZA := fun _ _ => 0 |}.

(** A process in a zone that leaves daylight saving time at the instant
    [7200000]: four hours behind UTC before it, five hours behind from
    then on, so the local hour that starts at [-10800000] comes twice. *)
Definition fallBackRuntime : Runtime :=
  {| bcrypt_hash := fun data _ _ => "$2b$10$" ++ data;
     bcrypt_compare := fun data hash => (hash =? "$2b$10$" ++ data)%string;
     isEmail := hasAt;
     JWT_SECRET := None;
     LocalTZA := fun t isUTC =>
       if isUTC
       then if t <? 7200000 then -14400000 else -18000000
       else if t <? -7200000 then -14400000 else -18000000 |}.

(** No clock change bears on a span of [span] milliseconds from the
    instant [t]: local time has the same offset at [t] and at the local
    time the span leads to. *)
Definition steadyZone {rt : Runtime} (t span : Z) : Prop :=
  LocalTZA (JsDate.LocalTime t + span) false = LocalTZA t true.

(** ** Further vocabulary *)

(** The primary keys of the three tables are pairwise distinct. *)
Definition wfIds (db : Db) : Prop :=
  NoDup (map User.id (users db)) /\
  NoDup (map RefreshToken.id (refreshTokens db)) /\
  NoDup (map Otp.id (otps db)).

(** The refresh-token row [generateRefreshToken] stores. *)
Definition issuedRow {rt : Runtime} (env : Env) (userId : Z) (db : Db)
  : RefreshToken.t :=
  RefreshToken.mk (freshId (map RefreshToken.id (refreshTokens db)))
                  (Js.toHex (randomBytes40 env)) userId
                  (JsDate.addDays (now env) 7) false.

(** The OTP row [createOtp] stores with the five minutes every caller
    passes. *)
Definition issuedOtp {rt : Runtime} (env : Env) (userId : Z) (db : Db) : Otp.t :=
  Otp.mk (freshId (map Otp.id (otps db))) userId
         (OtpCode.generate (otpBuffer env)) (JsDate.addMinutes (now env) 5) false
         (now env).

(** The unrevoked refresh-token rows of an account. *)
Definition liveOf (userId : Z) (r : RefreshToken.t) : bool :=
  (RefreshToken.userId r =? userId) && negb (RefreshToken.isRevoked r).

(** The routes of [UserAuthController]. *)
Definition isUserRoute (req : Request) : bool :=
  match req with
  | PostAdminLogin _ | PostAdminRefreshToken _ _ | PostAdminLogout _ _ => false
  | _ => true
  end.

(** The request was served: 200, or 201 for a sign-up. *)
Definition served (o : Outcome) : Prop := statusOf o = 200 \/ statusOf o = 201.

(** A transaction that commits only with a served response. *)
Definition commitsServed (f : Finish) : Prop :=
  match f with
  | Commit o => served o
  | Rollback _ => True
  end.

(** [createPath(path = '', name)] of [BaseController], at the instant
    [Date.now()] returns; [replaceAll(' ', '-')] works character by
    character. *)
Module Files.

Fixpoint replaceAll (from to : ascii) (s : string) : string :=
  match s with
  | "" => ""
  | String c rest =>
      String (if Ascii.eqb c from then to else c) (replaceAll from to rest)
  end.

Definition createPath (dateNow : Z) (path : option string) (name : string) : string :=
  let newName := (Js.toString dateNow ++ "-" ++ replaceAll " " "-" name)%string in
  (Js.orElse path "" ++ newName)%string.

Fixpoint contains (c : ascii) (s : string) : bool :=
  match s with
  | "" => false
  | String d rest => Ascii.eqb d c || contains c rest
  end.

End Files.

(** The account row of a primary key. *)
Definition accountOf (id : Z) (db : Db) : option User.t :=
  Sql.findOne (fun u => User.id u =? id) (users db).

(** The account [#createDummyAccount] stores. *)
Definition dummyAdmin {rt : Runtime} (env : Env) (db : Db) : User.t :=
  User.mk (freshId (map User.id (users db))) "Admin Muqeet" "dummy@gmail.com"
          (bcrypt_hash "123" 10 (salt env)) (Some "+923083160159") 1 true.

(** A store that holds the two roles and nothing else. *)
Definition rolesDb : Db :=
  mkDb [] [Role.mk 1 "admin" "Administrator with full system access";
           Role.mk 2 "user" "Regular user"] [] [].

Definition oneRoleDb : Db :=
  mkDb [ana] [Role.mk 1 "admin" "Administrator with full system access"] [anaToken] [].

(** An email some account carries. *)
Definition emailTaken (email : string) (db : Db) : Prop :=
  In email (map User.email (users db)).

(** The OTP row of primary key [i] is stored and used. *)
Definition consumed (i : Z) (db : Db) : Prop :=
  In i (map Otp.id (otps db)) /\
  forall r, In r (otps db) -> Otp.id r = i -> Otp.isUsed r = true.

(** The account of primary key [i] is stored and active. *)
Definition activated (i : Z) (db : Db) : Prop :=
  In i (map User.id (users db)) /\
  forall u, In u (users db) -> User.id u = i -> User.isActive u = true.

(** The account of primary key [i] is stored with this email and role. *)
Definition registered (i : Z) (email : string) (roleId : Z) (db : Db) : Prop :=
  In i (map User.id (users db)) /\
  forall u, In u (users db) -> User.id u = i ->
            User.email u = email /\ User.roleId u = roleId.

(** Every administrator account is the development account of
    [#createDummyAccount]. *)
Definition onlyDummyAdmin (db : Db) : Prop :=
  forall u, In u (users db) -> User.roleId u = BaseController.userTypes_admin ->
            User.email u = "dummy@gmail.com".

(** The account of bob, not verified yet, with the code mailed to it
    and the access token of its sign-up. *)
Definition bobCode : Otp.t := Otp.mk 1 8 "424242" 300000 false 0.
Definition bobCodeDb : Db := mkDb [ana; bob] [] [anaToken] [bobCode].
Definition bobAccessToken : Jwt.t :=
  Jwt.mk (Jwt.Access 8 2 false) 0 3600 "your-secret-key".

(** What [updateDetails] has no business with: the key, the email, the
    password hash, the role and the activation of an account. *)
Definition credentials (u : User.t) : Z * string * string * Z * bool :=
  (User.id u, User.email u, User.password u, User.roleId u, User.isActive u).

Definition detailsBody (username phone : option string) : Body.t :=
  Body.mk username None None phone None None None None None.

(** * Properties *)

(** ** The model at work *)

Example generate_000000 :
  OtpCode.generate [Byte.x00; Byte.x00; Byte.x00] = "000000".
Proof. reflexivity. Qed.

Example generate_0f4240 :
  OtpCode.generate [Byte.x0f; Byte.x42; Byte.x40] = "000000".
Proof. reflexivity. Qed.

Example generate_ffffff :
  OtpCode.generate [Byte.xff; Byte.xff; Byte.xff] = "777215".
Proof. reflexivity. Qed.

Example toHex_bytes : Js.toHex [Byte.x0a; Byte.xff; Byte.x30] = "0aff30".
Proof. reflexivity. Qed.

Example parseInt16_prefix : Js.parseInt16 "1fz9" = Some 31.
Proof. reflexivity. Qed.

Example parseInt16_NaN : Js.parseInt16 "zz" = None.
Proof. reflexivity. Qed.

Example ms_units :
  map Jwt.ms ["1h"; "15m"; "365d"; "7d"; "90"; "h"]
  = [Some 3600000; Some 900000; Some 31536000000; Some 604800000; Some 90; None].
Proof. reflexivity. Qed.

Example phone_pattern :
  map Validate.phone ["+923083160159"; "(030) 012 34567"; "030.012.3456";
                      "0300-1234567"; "12345"; ""]
  = [true; true; true; false; false; false].
Proof. reflexivity. Qed.

Example username_validators :
  Users.usernameItems (Some "cy") = ["Validation len on username failed"] /\
  Users.usernameItems (Some "   ") = ["Validation notEmpty on username failed"] /\
  Users.usernameItems (Some "cyan") = [].
Proof. repeat split. Qed.

(** A sign-up the validators of the model refuse is answered 500 with
    the message of the [ValidationError], and nothing is written. *)
Example signup_short_username :
  UserAuthController.signup (rt := demoRuntime) signupEnv
    (Body.mk (Some "cy") (Some "c@x.com") (Some "secret1") None None None None None None)
    emptyDb
  = (NextError "Validation error: Validation len on username failed" 500, emptyDb).
Proof. reflexivity. Qed.

Example verifyOtp_twoCodes :
  verifies (envAt 120000) 7 "222222" twoCodesDb = true /\
  verifies (envAt 120000) 7 "111111" twoCodesDb = true /\
  verifies (envAt 120000) 7 "333333" twoCodesDb = false /\
  verifies (envAt 330000) 7 "111111" twoCodesDb = false.
Proof. repeat split. Qed.

(** ** Strings of digits *)

Lemma length_append (s t : string) :
  String.length (s ++ t) = (String.length s + String.length t)%nat.
Proof. induction s as [|c s IH]; simpl; [reflexivity | now rewrite IH]. Qed.

Lemma allDigits_append (s t : string) :
  Js.allDigits (s ++ t) = Js.allDigits s && Js.allDigits t.
Proof.
  induction s as [|c s IH]; simpl; [reflexivity|].
  now rewrite IH, andb_assoc.
Qed.

Lemma parseDecFrom_append (s t : string) (acc : Z) :
  Js.parseDecFrom acc (s ++ t) = Js.parseDecFrom (Js.parseDecFrom acc s) t.
Proof. revert acc; induction s as [|c s IH]; intro acc; simpl; auto. Qed.

Lemma N_of_digit (d : Z) :
  0 <= d < 10 -> Z.of_N (N_of_ascii (Js.digit d)) = 48 + d.
Proof.
  intro Hd. unfold Js.digit.
  rewrite N_ascii_embedding by lia. lia.
Qed.

Lemma decval_digit (d : Z) : 0 <= d < 10 -> Js.decval (Js.digit d) = d.
Proof. intro Hd. unfold Js.decval. rewrite N_of_digit by assumption. lia. Qed.

Lemma isDigit_digit (d : Z) : 0 <= d < 10 -> Js.isDigit (Js.digit d) = true.
Proof.
  intro Hd. unfold Js.isDigit. rewrite N_of_digit by assumption.
  apply andb_true_intro; split; apply Z.leb_le; lia.
Qed.

Lemma allDigits_decimal (fuel : nat) (n : Z) :
  0 <= n -> Js.allDigits (Js.decimal fuel n) = true.
Proof.
  revert n; induction fuel as [|fuel IH]; intros n Hn; simpl.
  - rewrite isDigit_digit; [reflexivity | apply Z.mod_pos_bound; lia].
  - destruct (n <? 10) eqn:Hlt; simpl.
    + apply Z.ltb_lt in Hlt. rewrite isDigit_digit by lia. reflexivity.
    + rewrite allDigits_append, IH by (apply Z.div_pos; lia). simpl.
      rewrite isDigit_digit; [reflexivity | apply Z.mod_pos_bound; lia].
Qed.

Lemma length_decimal (fuel : nat) (n : Z) (k : nat) :
  0 <= n < 10 ^ Z.of_nat (S k) -> (String.length (Js.decimal fuel n) <= S k)%nat.
Proof.
  revert n k; induction fuel as [|fuel IH]; intros n k Hn; simpl.
  - lia.
  - destruct (n <? 10) eqn:Hlt; simpl; [lia|].
    apply Z.ltb_ge in Hlt.
    rewrite length_append; simpl.
    destruct k as [|k].
    + change (10 ^ Z.of_nat 1) with 10 in Hn. lia.
    + assert (0 <= n / 10 < 10 ^ Z.of_nat (S k)).
      { split; [apply Z.div_pos; lia|].
        apply Z.div_lt_upper_bound; [lia|].
        replace (Z.of_nat (S (S k))) with (Z.succ (Z.of_nat (S k))) in Hn by lia.
        rewrite Z.pow_succ_r in Hn by lia. lia. }
      specialize (IH (n / 10) k H). lia.
Qed.

Lemma parseDecFrom_decimal (fuel : nat) (n : Z) :
  0 <= n < 2 ^ (Z.of_nat fuel + 1) -> Js.parseDecFrom 0 (Js.decimal fuel n) = n.
Proof.
  revert n; induction fuel as [|fuel IH]; intros n Hn; simpl.
  - change (2 ^ (Z.of_nat 0 + 1)) with 2 in Hn.
    rewrite Z.mod_small by lia. rewrite decval_digit by lia. lia.
  - destruct (n <? 10) eqn:Hlt; simpl.
    + apply Z.ltb_lt in Hlt. rewrite decval_digit by lia. lia.
    + apply Z.ltb_ge in Hlt.
      rewrite parseDecFrom_append, IH; simpl.
      * rewrite decval_digit by (apply Z.mod_pos_bound; lia).
        pose proof (Z.div_mod n 10). lia.
      * split; [apply Z.div_pos; lia|].
        apply Z.div_lt_upper_bound; [lia|].
        replace (Z.of_nat (S fuel) + 1) with (Z.succ (Z.of_nat fuel + 1)) in Hn by lia.
        rewrite Z.pow_succ_r in Hn by lia. lia.
Qed.

Lemma parseDecFrom_toString (n : Z) : 0 <= n -> Js.parseDecFrom 0 (Js.toString n) = n.
Proof.
  intro Hn. unfold Js.toString. apply parseDecFrom_decimal.
  split; [assumption|].
  destruct (Z.eq_dec n 0) as [->|Hnz]; [reflexivity|].
  rewrite Z2Nat.id by apply Z.log2_nonneg.
  apply (Z.log2_spec n). lia.
Qed.

Lemma parseDecFrom_zeros (k : nat) (s : string) :
  Js.parseDecFrom 0 (Js.repeat "0" k ++ s) = Js.parseDecFrom 0 s.
Proof. induction k as [|k IH]; simpl; [reflexivity | exact IH]. Qed.

Lemma length_repeat (c : ascii) (k : nat) : String.length (Js.repeat c k) = k.
Proof. induction k as [|k IH]; simpl; [reflexivity | now rewrite IH]. Qed.

Lemma allDigits_zeros (k : nat) : Js.allDigits (Js.repeat "0" k) = true.
Proof. induction k as [|k IH]; simpl; [reflexivity | exact IH]. Qed.

(** A code read back as a number is the number it stands for. *)
Lemma parseDecFrom_codeOf (n : Z) :
  0 <= n -> Js.parseDecFrom 0 (OtpCode.codeOf n) = n.
Proof.
  intro Hn. unfold OtpCode.codeOf, Js.padStart.
  rewrite parseDecFrom_zeros. now apply parseDecFrom_toString.
Qed.

Lemma codeOf_inj (n m : Z) :
  0 <= n -> 0 <= m -> OtpCode.codeOf n = OtpCode.codeOf m -> n = m.
Proof.
  intros Hn Hm E.
  rewrite <- (parseDecFrom_codeOf n Hn), <- (parseDecFrom_codeOf m Hm).
  now rewrite E.
Qed.

Lemma codeOf_shape (n : Z) :
  0 <= n < 1000000 ->
  String.length (OtpCode.codeOf n) = 6%nat /\ Js.allDigits (OtpCode.codeOf n) = true.
Proof.
  intro Hn. unfold OtpCode.codeOf, Js.padStart, Js.toString.
  pose proof (length_decimal (Z.to_nat (Z.log2 n)) n 5 Hn) as Hlen.
  split.
  - rewrite length_append, length_repeat. lia.
  - rewrite allDigits_append, allDigits_zeros, allDigits_decimal by lia. reflexivity.
Qed.

(** ** [createOtp]: from the random bytes to the code *)

Lemma parseHexFrom_hexbyte (b : Byte.byte) (rest : string) (acc : Z) :
  Js.parseHexFrom acc (Js.hexbyte b ++ rest)
  = Js.parseHexFrom (acc * 256 + Z.of_N (Byte.to_N b)) rest.
Proof. destruct b; simpl; f_equal; lia. Qed.

Lemma parseInt16_hexbyte (b : Byte.byte) (rest : string) :
  Js.parseInt16 (Js.hexbyte b ++ rest)
  = Some (Js.parseHexFrom 0 (Js.hexbyte b ++ rest)).
Proof. destruct b; reflexivity. Qed.

Lemma parseInt16_toHex3 (b0 b1 b2 : Byte.byte) :
  Js.parseInt16 (Js.toHex [b0; b1; b2]) = Some (OtpCode.value [b0; b1; b2]).
Proof.
  cbn [Js.toHex]. rewrite parseInt16_hexbyte.
  rewrite !parseHexFrom_hexbyte. reflexivity.
Qed.

Lemma value_range (b0 b1 b2 : Byte.byte) :
  0 <= OtpCode.value [b0; b1; b2] < OtpCode.draws.
Proof.
  unfold OtpCode.value, OtpCode.draws; cbn [fold_left].
  pose proof (Byte.to_N_bounded b0). pose proof (Byte.to_N_bounded b1).
  pose proof (Byte.to_N_bounded b2). lia.
Qed.

(** The code [createOtp] stores for a buffer. *)
Lemma generate_value (b0 b1 b2 : Byte.byte) :
  OtpCode.generate [b0; b1; b2]
  = OtpCode.codeOf (OtpCode.value [b0; b1; b2] mod 1000000).
Proof. unfold OtpCode.generate. now rewrite parseInt16_toHex3. Qed.

Lemma to_N_byteOf (n : Z) : Z.of_N (Byte.to_N (OtpCode.byteOf n)) = n mod 256.
Proof.
  unfold OtpCode.byteOf.
  pose proof (Z.mod_pos_bound n 256 eq_refl) as Hb.
  destruct (Byte.of_N (Z.to_N (n mod 256))) as [b|] eqn:E.
  - apply Byte.to_of_N in E. rewrite E. lia.
  - apply Byte.of_N_None_iff in E. lia.
Qed.

Lemma value_buffer (v : Z) : 0 <= v < OtpCode.draws -> OtpCode.value (OtpCode.buffer v) = v.
Proof.
  unfold OtpCode.draws, OtpCode.buffer, OtpCode.value; intro Hv; cbn [fold_left].
  rewrite !to_N_byteOf.
  Z.div_mod_to_equations. lia.
Qed.

Lemma generate_buffer (v : Z) :
  0 <= v < OtpCode.draws ->
  OtpCode.generate (OtpCode.buffer v) = OtpCode.codeOf (v mod 1000000).
Proof.
  intro Hv. unfold OtpCode.buffer at 1. rewrite generate_value.
  fold (OtpCode.buffer v). now rewrite value_buffer.
Qed.

(** ** Counting the draws behind a code *)

Lemma countBelow_ext (n : nat) (p q : Z -> bool) :
  (forall v, 0 <= v < Z.of_nat n -> p v = q v) ->
  OtpCode.countBelow n p = OtpCode.countBelow n q.
Proof.
  induction n as [|n IH]; intro Hpq; [reflexivity|].
  cbn [OtpCode.countBelow].
  rewrite Hpq by lia. rewrite IH; [reflexivity|].
  intros v Hv. apply Hpq. lia.
Qed.

Lemma countBelow_residue (n : nat) (m c : Z) :
  0 <= c < m ->
  OtpCode.countBelow n (fun v => v mod m =? c)
  = Z.of_nat n / m + (if c <? Z.of_nat n mod m then 1 else 0).
Proof.
  intro Hc. induction n as [|n IH].
  - cbn [OtpCode.countBelow]. rewrite Z.div_0_l, Z.mod_0_l by lia.
    destruct (c <? 0) eqn:E; [apply Z.ltb_lt in E; lia | reflexivity].
  - cbn [OtpCode.countBelow]. rewrite IH. clear IH.
    replace (Z.of_nat (S n)) with (Z.of_nat n + 1) by lia.
    set (k := Z.of_nat n). assert (0 <= k) by (subst k; lia). clearbody k.
    destruct (k mod m =? c) eqn:E1;
      [apply Z.eqb_eq in E1 | apply Z.eqb_neq in E1];
      destruct (c <? k mod m) eqn:E2;
      [apply Z.ltb_lt in E2 | apply Z.ltb_ge in E2
       | apply Z.ltb_lt in E2 | apply Z.ltb_ge in E2];
      destruct (c <? (k + 1) mod m) eqn:E3;
      [apply Z.ltb_lt in E3 | apply Z.ltb_ge in E3
       | apply Z.ltb_lt in E3 | apply Z.ltb_ge in E3
       | apply Z.ltb_lt in E3 | apply Z.ltb_ge in E3
       | apply Z.ltb_lt in E3 | apply Z.ltb_ge in E3];
      Z.div_mod_to_equations; nia.
Qed.

Lemma frequency_codeOf (c : Z) :
  0 <= c < 1000000 ->
  OtpCode.frequency (OtpCode.codeOf c) = if c <? 777216 then 17 else 16.
Proof.
  intro Hc. unfold OtpCode.frequency.
  rewrite (countBelow_ext _ _ (fun v => v mod 1000000 =? c)).
  - rewrite countBelow_residue by assumption.
    rewrite Z2Nat.id by (unfold OtpCode.draws; lia).
    unfold OtpCode.draws.
    change (16777216 / 1000000) with 16.
    change (16777216 mod 1000000) with 777216.
    destruct (c <? 777216); reflexivity.
  - intros v Hv. rewrite Z2Nat.id in Hv by (unfold OtpCode.draws; lia).
    rewrite generate_buffer by assumption.
    pose proof (Z.mod_pos_bound v 1000000 eq_refl) as Hm.
    destruct (v mod 1000000 =? c) eqn:E.
    + apply Z.eqb_eq in E. rewrite E. apply String.eqb_refl.
    + apply Z.eqb_neq in E. apply String.eqb_neq. intro Heq.
      apply codeOf_inj in Heq; lia.
Qed.

(** ** [Otp.findOne] ordered by [createdAt] *)

Lemma newest_In (rows : list Otp.t) (r : Otp.t) :
  Sql.newest rows = Some r -> In r rows.
Proof.
  revert r; induction rows as [|a rows IH]; intros r; simpl; [discriminate|].
  destruct (Sql.newest rows) as [b|].
  - destruct (Otp.createdAt a <? Otp.createdAt b); intro E; inversion E; subst; auto.
  - intro E; inversion E; auto.
Qed.

Lemma newest_max (rows : list Otp.t) (r : Otp.t) :
  Sql.newest rows = Some r ->
  forall x, In x rows -> Otp.createdAt x <= Otp.createdAt r.
Proof.
  revert r; induction rows as [|a rows IH]; intros r; simpl; [discriminate|].
  destruct (Sql.newest rows) as [b|] eqn:Eb.
  - destruct (Otp.createdAt a <? Otp.createdAt b) eqn:Hlt;
      intros E x [->|Hx]; inversion E; subst;
      try (apply Z.ltb_lt in Hlt); try (apply Z.ltb_ge in Hlt);
      try lia; specialize (IH _ eq_refl x Hx); lia.
  - intros E x [->|Hx]; inversion E; subst; [lia|].
    destruct rows as [|c rows]; [contradiction|]. simpl in Eb.
    destruct (Sql.newest rows) as [d|];
      [destruct (Otp.createdAt c <? Otp.createdAt d)|]; discriminate.
Qed.

Lemma newest_nonempty (a : Otp.t) (rows : list Otp.t) :
  exists r, Sql.newest (a :: rows) = Some r.
Proof.
  simpl. destruct (Sql.newest rows) as [b|]; [|eauto].
  destruct (Otp.createdAt a <? Otp.createdAt b); eauto.
Qed.

Lemma newest_strict (rows : list Otp.t) (r : Otp.t) :
  In r rows ->
  (forall x, In x rows -> x <> r -> Otp.createdAt x < Otp.createdAt r) ->
  Sql.newest rows = Some r.
Proof.
  intros Hin Hstrict.
  destruct rows as [|a rows]; [contradiction|].
  destruct (newest_nonempty a rows) as [b Hb].
  rewrite Hb. f_equal.
  pose proof (newest_In _ _ Hb) as Hbin.
  pose proof (newest_max _ _ Hb r Hin) as Hle.
  destruct (Otp.createdAt b <? Otp.createdAt r) eqn:E.
  - apply Z.ltb_lt in E. lia.
  - apply Z.ltb_ge in E.
    assert (Hnn : ~ b <> r) by (intro Hne; specialize (Hstrict b Hbin Hne); lia).
    destruct b as [i1 u1 o1 e1 s1 c1], r as [i2 u2 o2 e2 s2 c2].
    destruct (Z.eq_dec i1 i2), (Z.eq_dec u1 u2), (string_dec o1 o2),
      (Z.eq_dec e1 e2), (bool_dec s1 s2), (Z.eq_dec c1 c2);
      try (exfalso; apply Hnn; congruence).
    congruence.
Qed.

Lemma findNewest_Some (w : Otp.t -> bool) (rows : list Otp.t) (r : Otp.t) :
  Sql.findNewest w rows = Some r ->
  In r rows /\ w r = true /\
  forall x, In x rows -> w x = true -> Otp.createdAt x <= Otp.createdAt r.
Proof.
  unfold Sql.findNewest; intro E.
  pose proof (newest_In _ _ E) as Hin. apply filter_In in Hin.
  destruct Hin as [Hin Hw]. repeat split; try assumption.
  intros x Hx Hwx. apply (newest_max _ _ E). apply filter_In; auto.
Qed.

Lemma findNewest_None (w : Otp.t -> bool) (rows : list Otp.t) :
  Sql.findNewest w rows = None <-> forall x, In x rows -> w x = false.
Proof.
  unfold Sql.findNewest; split.
  - intros E x Hx. destruct (w x) eqn:Hw; [|reflexivity].
    assert (Hf : In x (filter w rows)) by (apply filter_In; auto).
    destruct (filter w rows) as [|a l]; [contradiction|].
    destruct (newest_nonempty a l) as [b Hb]. congruence.
  - intro Hall.
    assert (Hnil : filter w rows = []).
    { induction rows as [|a rows IH]; [reflexivity|]. simpl.
      rewrite (Hall a) by (left; reflexivity). apply IH.
      intros x Hx. apply Hall. now right. }
    now rewrite Hnil.
Qed.

Lemma findNewest_strict (w : Otp.t -> bool) (rows : list Otp.t) (r : Otp.t) :
  In r rows -> w r = true ->
  (forall x, In x rows -> w x = true -> x <> r -> Otp.createdAt x < Otp.createdAt r) ->
  Sql.findNewest w rows = Some r.
Proof.
  intros Hin Hw Hstrict. unfold Sql.findNewest. apply newest_strict.
  - apply filter_In; auto.
  - intros x Hx. apply filter_In in Hx. destruct Hx. auto.
Qed.

(** The [where] clause of [verifyOtp] is [outstanding]. *)
Lemma verifyOtp_where (userId : Z) (code : string) (r : Otp.t) :
  (Otp.userId r =? userId) && (Otp.otp r =? code)%string && negb (Otp.isUsed r)
  = outstanding userId code r.
Proof.
  unfold outstanding, unusedOf.
  destruct (Otp.userId r =? userId), (Otp.otp r =? code)%string, (Otp.isUsed r);
    reflexivity.
Qed.

(** [verifyOtp] unfolded on the row its query returns. *)
Lemma verifyOtp_eq (env : Env) (userId : Z) (code : string) (db : Db) :
  BaseController.verifyOtp env userId code db =
  match Sql.findNewest (outstanding userId code) (otps db) with
  | None => Ok false db
  | Some record =>
      Ok (negb (Otp.expiresAt record <? now env))
         (withOtps (map (fun r => if Otp.id r =? Otp.id record then Otp.use r else r)
                        (otps db)) db)
  end.
Proof.
  unfold BaseController.verifyOtp, Otps.findNewest, bind, ret.
  unfold Sql.findNewest.
  rewrite (filter_ext _ (outstanding userId code)) by (intro r; apply verifyOtp_where).
  destruct (Sql.newest (filter (outstanding userId code) (otps db))) as [record|];
    [|reflexivity].
  destruct (Otp.expiresAt record <? now env); reflexivity.
Qed.

(** ** [verifyOtp] *)

Lemma outstanding_use (userId : Z) (code : string) (r : Otp.t) :
  outstanding userId code (Otp.use r) = false.
Proof.
  unfold outstanding, unusedOf; simpl.
  now rewrite andb_false_r.
Qed.

Lemma verifyOtp_total (env : Env) (userId : Z) (code : string) (db : Db) :
  exists b db', BaseController.verifyOtp env userId code db = Ok b db'.
Proof.
  rewrite verifyOtp_eq.
  destruct (Sql.findNewest (outstanding userId code) (otps db)); eauto.
Qed.

(** A call of [verifyOtp] only ever turns [isUsed] on. *)
Lemma verifyOtp_keeps_noOutstanding (env : Env) (u u' : Z) (code code' : string)
  (db db' : Db) (b : bool) :
  noOutstanding u code db ->
  BaseController.verifyOtp env u' code' db = Ok b db' ->
  noOutstanding u code db'.
Proof.
  intros Hno. rewrite verifyOtp_eq.
  destruct (Sql.findNewest (outstanding u' code') (otps db)) as [record|];
    intro E; inversion E; subst; [|assumption].
  intros x Hx. simpl in Hx. apply in_map_iff in Hx.
  destruct Hx as [y [<- Hy]].
  destruct (Otp.id y =? Otp.id record); [apply outstanding_use | now apply Hno].
Qed.

Lemma verifyOtpAll_keeps_noOutstanding (calls : list (Env * Z * string)) (u : Z)
  (code : string) (db : Db) :
  noOutstanding u code db -> noOutstanding u code (verifyOtpAll calls db).
Proof.
  revert db; induction calls as [|[[env u'] code'] calls IH]; intros db Hno;
    [assumption|].
  simpl.
  destruct (verifyOtp_total env u' code' db) as [b [db' E]]. rewrite E.
  destruct b; apply IH; [|assumption].
  eapply verifyOtp_keeps_noOutstanding; eauto.
Qed.

Lemma noOutstanding_fails (env : Env) (u : Z) (code : string) (db : Db) :
  noOutstanding u code db -> verifies env u code db = false.
Proof.
  intro Hno. unfold verifies. rewrite verifyOtp_eq.
  apply findNewest_None in Hno. now rewrite Hno.
Qed.

(** What consuming the row [r] leaves behind. *)
Lemma useRow_effect (rows : list Otp.t) (r : Otp.t) :
  In r rows ->
  let rows' := map (fun x => if Otp.id x =? Otp.id r then Otp.use x else x) rows in
  In (Otp.use r) rows' /\
  (forall x, In x rows' -> Otp.id x = Otp.id r -> Otp.isUsed x = true) /\
  (forall x, In x rows' -> Otp.id x <> Otp.id r -> In x rows).
Proof.
  intros Hin rows'. subst rows'. repeat split.
  - apply in_map_iff. exists r. now rewrite Z.eqb_refl.
  - intros x Hx Hid. apply in_map_iff in Hx. destruct Hx as [y [<- Hy]].
    destruct (Otp.id y =? Otp.id r) eqn:E; [reflexivity|].
    apply Z.eqb_neq in E. contradiction.
  - intros x Hx Hid. apply in_map_iff in Hx. destruct Hx as [y [<- Hy]].
    destruct (Otp.id y =? Otp.id r) eqn:E; [|assumption].
    apply Z.eqb_eq in E. simpl in Hid. contradiction.
Qed.

Lemma single_outstanding_found (u : Z) (code : string) (rows : list Otp.t) (r : Otp.t) :
  filter (outstanding u code) rows = [r] ->
  Sql.findNewest (outstanding u code) rows = Some r /\ In r rows /\
  forall x, In x rows -> outstanding u code x = true -> x = r.
Proof.
  intro Hf.
  assert (Hr : In r (filter (outstanding u code) rows)) by (rewrite Hf; now left).
  apply filter_In in Hr. destruct Hr as [Hin Hw].
  assert (Huniq : forall x, In x rows -> outstanding u code x = true -> x = r).
  { intros x Hx Hwx.
    assert (Hx' : In x (filter (outstanding u code) rows)) by (apply filter_In; auto).
    rewrite Hf in Hx'. destruct Hx' as [->|[]]. reflexivity. }
  repeat split; try assumption.
  unfold Sql.findNewest. now rewrite Hf.
Qed.

Lemma single_unused_outstanding (u : Z) (rows : list Otp.t) (r : Otp.t) :
  filter (unusedOf u) rows = [r] ->
  filter (outstanding u (Otp.otp r)) rows = [r].
Proof.
  intro Hf.
  assert (E : filter (outstanding u (Otp.otp r)) rows
              = filter (fun x => (Otp.otp x =? Otp.otp r)%string) (filter (unusedOf u) rows)).
  { clear Hf. induction rows as [|a rows IH]; [reflexivity|].
    simpl. unfold outstanding at 1.
    destruct (unusedOf u a); simpl.
    - destruct (Otp.otp a =? Otp.otp r)%string; now rewrite IH.
    - exact IH. }
  rewrite E, Hf. simpl. now rewrite String.eqb_refl.
Qed.

Lemma consumed_noOutstanding (u : Z) (code : string) (db : Db) (r : Otp.t) :
  (forall x, In x (otps db) -> outstanding u code x = true -> x = r) ->
  noOutstanding u code
    (withOtps (map (fun x => if Otp.id x =? Otp.id r then Otp.use x else x) (otps db)) db).
Proof.
  intros Huniq x Hx. simpl in Hx. apply in_map_iff in Hx.
  destruct Hx as [y [<- Hy]].
  destruct (Otp.id y =? Otp.id r) eqn:E; [apply outstanding_use|].
  destruct (outstanding u code y) eqn:Hw; [|reflexivity].
  apply Huniq in Hw; [|assumption]. subst y. now rewrite Z.eqb_refl in E.
Qed.

(** C1, as the specification states it, fails: [verifyOtp] can answer
    [true] although the submitted code is not the code of the most
    recently created unused row of the account.  In [twoCodesDb] the
    newest unused row carries "222222" and the older code "111111" is
    accepted. *)
Lemma verifyOtp_older_code_accepted :
  ~ (forall (env : Env) (db : Db) (u : Z) (code : string),
       verifies env u code db = true ->
       exists r, newestUnused u db r /\ Otp.otp r = code /\ now env <= Otp.expiresAt r).
Proof.
  intro H.
  destruct (H (envAt 120000) twoCodesDb 7 "111111" eq_refl)
    as [r [[Hin [_ Hmax]] [Hcode _]]].
  simpl in Hin. destruct Hin as [<-|[<-|[]]].
  - specialize (Hmax newerRow (or_intror (or_introl eq_refl)) eq_refl).
    simpl in Hmax. lia.
  - discriminate Hcode.
Qed.

(** C1, amended: the code is part of the query of [verifyOtp], so the
    row that decides is the most recently created one among the unused
    rows of the account that carry the submitted code.  [verifyOtp]
    answers [true] only if such a row is unexpired, and when one row is
    strictly the newest of them the answer is whether that row is
    unexpired, whatever newer rows with other codes the account has. *)
Theorem verifyOtp_newest_row_with_code (env : Env) (db : Db) (u : Z) (code : string) :
  (verifies env u code db = true ->
   exists r, newestOutstanding u code db r /\ now env <= Otp.expiresAt r) /\
  (forall r, strictlyNewestOutstanding u code db r ->
             verifies env u code db = (now env <=? Otp.expiresAt r)).
Proof.
  unfold verifies; rewrite verifyOtp_eq; split.
  - destruct (Sql.findNewest (outstanding u code) (otps db)) as [record|] eqn:E;
      [|discriminate].
    intro Hb. exists record. split.
    + apply findNewest_Some in E. exact E.
    + apply negb_true_iff, Z.ltb_ge in Hb. exact Hb.
  - intros r [Hin [Hw Hstrict]].
    rewrite (findNewest_strict _ _ _ Hin Hw Hstrict).
    symmetry. apply Z.leb_antisym.
Qed.

Lemma verifyOtp_newest_row_with_code_witness :
  strictlyNewestOutstanding 7 "111111" twoCodesDb olderRow /\
  verifies (envAt 120000) 7 "111111" twoCodesDb = true.
Proof.
  assert (H : strictlyNewestOutstanding 7 "111111" twoCodesDb olderRow).
  { split; [left; reflexivity | split; [reflexivity|]].
    intros x [<-|[<-|[]]] Hw Hne; [now elim Hne | discriminate Hw]. }
  split; [exact H|].
  exact (proj2 (verifyOtp_newest_row_with_code (envAt 120000) twoCodesDb 7 "111111")
               olderRow H).
Defined.

(** C3: an account with a single unused OTP row, unexpired, submits its
    code: [verifyOtp] answers [true] and marks the row used, and after
    any further calls of [verifyOtp] a call with the same code for that
    account answers [false]. *)
Theorem otp_accepted_at_most_once (env : Env) (db : Db) (u : Z) (code : string)
  (r : Otp.t) :
  filter (unusedOf u) (otps db) = [r] ->
  Otp.otp r = code ->
  now env <= Otp.expiresAt r ->
  exists db',
    BaseController.verifyOtp env u code db = Ok true db' /\
    In (Otp.use r) (otps db') /\
    (forall x, In x (otps db') -> Otp.id x = Otp.id r -> Otp.isUsed x = true) /\
    forall (calls : list (Env * Z * string)) (env' : Env),
      verifies env' u code (verifyOtpAll calls db') = false.
Proof.
  intros Hsingle <- Hfresh.
  apply single_unused_outstanding in Hsingle.
  destruct (single_outstanding_found _ _ _ _ Hsingle) as [Hfound [Hin Huniq]].
  rewrite verifyOtp_eq, Hfound.
  assert (Hlt : (Otp.expiresAt r <? now env) = false) by (apply Z.ltb_ge; lia).
  rewrite Hlt. simpl negb.
  eexists; split; [reflexivity|].
  destruct (useRow_effect (otps db) r Hin) as [Hused [Hid _]].
  repeat split; try assumption.
  intros calls env'. apply noOutstanding_fails.
  apply verifyOtpAll_keeps_noOutstanding.
  now apply consumed_noOutstanding.
Qed.

(** C5 as it is stated fails: an account that holds an unused,
    unexpired row and submits a code other than that row's is not
    always refused.  In [twoCodesDb] account 7 holds the unexpired row
    of "222222"; the other code "111111" is the code of its older
    unused row, and [verifyOtp] accepts it and consumes that row. *)
Lemma verifyOtp_other_code_consumes :
  ~ (forall (env : Env) (db : Db) (u : Z) (r : Otp.t) (code : string),
       In r (otps db) -> unusedOf u r = true -> now env <= Otp.expiresAt r ->
       code <> Otp.otp r ->
       exists db',
         BaseController.verifyOtp env u code db = Ok false db' /\
         map Otp.isUsed (otps db') = map Otp.isUsed (otps db)).
Proof.
  intro H.
  destruct (H (envAt 120000) twoCodesDb 7 newerRow "111111")
    as [db' [E _]].
  - right. left. reflexivity.
  - reflexivity.
  - simpl. lia.
  - discriminate.
  - vm_compute in E. discriminate E.
Qed.

(** C5, amended: the account holds the unused row [r], the newest with
    its code, and submits a code that none of its unused rows carries:
    [verifyOtp] answers [false] and leaves the database as it was, so
    that the code of [r] submitted at any instant up to its expiry is
    accepted and consumes [r]. *)
Theorem wrong_code_keeps_otp (env : Env) (db : Db) (u : Z) (code : string)
  (r : Otp.t) :
  strictlyNewestOutstanding u (Otp.otp r) db r ->
  (forall x, In x (otps db) -> unusedOf u x = true -> Otp.otp x <> code) ->
  exists db1,
    BaseController.verifyOtp env u code db = Ok false db1 /\
    db1 = db /\
    forall (env' : Env), now env' <= Otp.expiresAt r ->
      exists db2,
        BaseController.verifyOtp env' u (Otp.otp r) db1 = Ok true db2 /\
        In (Otp.use r) (otps db2).
Proof.
  intros [Hin [Hw Hstrict]] Hwrong.
  assert (Hnone : Sql.findNewest (outstanding u code) (otps db) = None).
  { apply findNewest_None. intros x Hx. unfold outstanding.
    destruct (unusedOf u x) eqn:Hu; [|reflexivity]. simpl.
    apply String.eqb_neq. now apply Hwrong. }
  exists db. rewrite verifyOtp_eq, Hnone. repeat split.
  intros env' Hfresh.
  rewrite verifyOtp_eq, (findNewest_strict _ _ _ Hin Hw Hstrict).
  assert (Hlt : (Otp.expiresAt r <? now env') = false) by (apply Z.ltb_ge; lia).
  rewrite Hlt. simpl negb.
  eexists; split; [reflexivity|].
  apply (useRow_effect (otps db) r Hin).
Qed.

Lemma otp_accepted_at_most_once_witness :
  exists db',
    BaseController.verifyOtp (envAt 120000) 7 "111111" singleDb = Ok true db' /\
    In (Otp.use olderRow) (otps db') /\
    (forall x, In x (otps db') -> Otp.id x = Otp.id olderRow -> Otp.isUsed x = true) /\
    forall (calls : list (Env * Z * string)) (env' : Env),
      verifies env' 7 "111111" (verifyOtpAll calls db') = false.
Proof.
  apply (otp_accepted_at_most_once (envAt 120000) singleDb 7 "111111" olderRow).
  - reflexivity.
  - reflexivity.
  - simpl. lia.
Defined.

Lemma wrong_code_keeps_otp_witness :
  exists db1,
    BaseController.verifyOtp (envAt 120000) 7 "333333" twoCodesDb = Ok false db1 /\
    db1 = twoCodesDb /\
    forall (env' : Env), now env' <= 360000 ->
      exists db2,
        BaseController.verifyOtp env' 7 "222222" db1 = Ok true db2 /\
        In (Otp.use newerRow) (otps db2).
Proof.
  apply (wrong_code_keeps_otp (envAt 120000) twoCodesDb 7 "333333" newerRow).
  - split; [right; left; reflexivity | split; [reflexivity|]].
    intros x [<-|[<-|[]]] Hw Hne; [discriminate Hw | now elim Hne].
  - intros x [<-|[<-|[]]] _; discriminate.
Defined.

(** ** Access tokens *)

Lemma ms_365d : Jwt.ms "365d" = Some 31536000000.
Proof. reflexivity. Qed.

Lemma ms_1h : Jwt.ms "1h" = Some 3600000.
Proof. reflexivity. Qed.

Lemma ms_15m : Jwt.ms "15m" = Some 900000.
Proof. reflexivity. Qed.

Section AccessTokens.
Context {rt : Runtime}.

Lemma generateToken_1h (env : Env) (id type : Z) :
  BaseController.generateToken env id type (Some "1h") None
  = Some (Jwt.mk (Jwt.Access id type false) (now env / 1000) (now env / 1000 + 3600)
                 BaseController.secret).
Proof.
  unfold BaseController.generateToken, Jwt.sign. simpl Js.orElse.
  now rewrite ms_1h.
Qed.

Lemma generateToken_default (env : Env) (id type : Z) (validationCheck : option bool) :
  BaseController.generateToken env id type None validationCheck
  = Some (Jwt.mk (Jwt.Access id type (Js.orElse validationCheck false))
                 (now env / 1000) (now env / 1000 + 31536000) BaseController.secret).
Proof.
  unfold BaseController.generateToken, Jwt.sign. simpl Js.orElse.
  now rewrite ms_365d.
Qed.

Lemma generatePasswordResetToken_15m (env : Env) (userId : Z) (email : string) :
  BaseController.generatePasswordResetToken env userId email (Some "15m")
  = Some (Jwt.mk (Jwt.PasswordReset userId email) (now env / 1000)
                 (now env / 1000 + 900) BaseController.secret).
Proof.
  unfold BaseController.generatePasswordResetToken, Jwt.sign. simpl Js.orElse.
  now rewrite ms_15m.
Qed.

End AccessTokens.

(** C8, as the specification states it, fails: with the duration left
    out the token does not expire one hour after it was issued. *)
Lemma generateToken_default_not_one_hour :
  ~ (forall (rt : Runtime) (env : Env) (id type : Z) (tok : Jwt.t),
       BaseController.generateToken env id type None None = Some tok ->
       lifetime tok = 3600).
Proof.
  intro H.
  specialize (H demoRuntime (envAt 0) 7 2 _ (generateToken_default (envAt 0) 7 2 None)).
  discriminate H.
Qed.

(** ** Reasoning about transactions *)

Lemma yields_bind {A B : Type} (Q : B -> Prop) (m : Tx A) (k : A -> Tx B) :
  (forall a, yields Q (k a)) -> yields Q (bind m k).
Proof.
  intros Hk db b db'. unfold bind.
  destruct (m db) as [a db1|msg]; [|discriminate].
  apply Hk.
Qed.

Lemma yields_ret {A : Type} (Q : A -> Prop) (a : A) : Q a -> yields Q (ret a).
Proof. intros HQ db b db' E. inversion E; subst. exact HQ. Qed.

Lemma yields_throw {A : Type} (Q : A -> Prop) (msg : string) : yields Q (throw msg).
Proof. intros db b db' E. discriminate E. Qed.

Lemma hourToken_error (message : string) (statusCode : Z) :
  hourToken (NextError message statusCode).
Proof. intros tok E. discriminate E. Qed.

Lemma transaction_hourToken (body : Tx Finish) (db : Db) :
  yields (fun f => hourToken (finishOutcome f)) body ->
  hourToken (fst (transaction body db)).
Proof.
  intro Hy. unfold transaction.
  destruct (body db) as [[o|o] db'|msg] eqn:E; simpl.
  - apply (Hy _ _ _ E).
  - apply (Hy _ _ _ E).
  - apply hourToken_error.
Qed.

Lemma invariant_bind (I : Db -> Prop) {A B : Type} (m : Tx A) (k : A -> Tx B) :
  invariantTx I m -> (forall a, invariantTx I (k a)) -> invariantTx I (bind m k).
Proof.
  intros Hm Hk db b db'. unfold bind.
  destruct (m db) as [a db1|msg] eqn:E; [|discriminate].
  intros E' HI. eapply Hk; eauto.
Qed.

Lemma invariant_ret (I : Db -> Prop) {A : Type} (a : A) : invariantTx I (ret a).
Proof. intros db b db' E HI. inversion E; subst. exact HI. Qed.

Lemma invariant_throw (I : Db -> Prop) {A : Type} (msg : string) :
  invariantTx I (@throw A msg).
Proof. intros db b db' E. discriminate E. Qed.

Lemma invariant_transaction (I : Db -> Prop) (body : Tx Finish) :
  invariantTx I body -> invariantHandler I (transaction body).
Proof.
  intros Hb db HI. unfold transaction.
  destruct (body db) as [[o|o] db'|msg] eqn:E; simpl; eauto.
Qed.

Lemma invariant_guarded (I : Db -> Prop) (check : Db -> Outcome + User.t)
  (handler : User.t -> Handler) :
  (forall user, invariantHandler I (handler user)) ->
  invariantHandler I (Middleware.guarded check handler).
Proof.
  intros Hh db HI. unfold Middleware.guarded.
  destruct (check db) as [refused|user]; simpl; [assumption | now apply Hh].
Qed.

Lemma invariant_idle (I : Db -> Prop) (o : Outcome) :
  invariantHandler I (fun db => (o, db)).
Proof. intros db HI. exact HI. Qed.

(** ** Invariants of the refresh-token table

    Every write to [refresh_tokens] is a [RefreshToken.create] or turns
    [isRevoked] on in some rows: a property kept by these two, and
    indifferent to the other tables, is kept by every route. *)

(** What a [User.create] and a [user.update] that did not throw have
    written. *)
Lemma users_create_inv {rt : Runtime} (username email password : string)
  (phone : option string) (roleId : Z) (isActive : bool) (db db' : Db) (row : User.t) :
  Users.create username email password phone roleId isActive db = Ok row db' ->
  row = User.mk (freshId (map User.id (users db))) username email password phone
                roleId isActive /\
  db' = withUsers (users db ++ [row]) db /\
  ~ In email (map User.email (users db)).
Proof.
  unfold Users.create.
  destruct (_ ++ _)%list; [|discriminate].
  destruct (existsb _ (users db)) eqn:E; [discriminate|].
  intro H. inversion H; subst; clear H. repeat split.
  intro Hin. apply in_map_iff in Hin. destruct Hin as [u [Hu Huin]].
  assert (Hex : existsb (fun u => (User.email u =? email)%string
                                  || (User.username u =? username)%string)
                        (users db) = true).
  { apply existsb_exists. exists u. split; [exact Huin|].
    rewrite Hu, String.eqb_refl. reflexivity. }
  congruence.
Qed.

(** Values that pass the validators and collide with no row are stored. *)
Lemma users_create_ok {rt : Runtime} (username email password : string)
  (phone : option string) (roleId : Z) (isActive : bool) (db : Db) :
  Validate.notEmpty username = true -> Validate.len 3 50 username = true ->
  isEmail email = true ->
  (forall p, phone = Some p -> Validate.phone p = true) ->
  (forall u, In u (users db) -> User.email u <> email /\ User.username u <> username) ->
  Users.create username email password phone roleId isActive db
  = Ok (User.mk (freshId (map User.id (users db))) username email password phone
                roleId isActive)
       (withUsers
          (users db ++ [User.mk (freshId (map User.id (users db))) username email
                                password phone roleId isActive]) db).
Proof.
  intros Hne Hlen Hmail Hphone Hfree. unfold Users.create.
  unfold Users.usernameItems, Users.emailItems, Users.phoneItems.
  rewrite Hne, Hlen, Hmail. cbn [Validate.check app].
  assert (Hp : match phone with
               | Some v => Validate.check (Validate.phone v) "is" "phone"
               | None => []
               end = []).
  { destruct phone as [p|]; [|reflexivity]. now rewrite (Hphone p eq_refl). }
  rewrite Hp.
  assert (Hex : existsb (fun u => (User.email u =? email)%string
                                  || (User.username u =? username)%string)
                        (users db) = false).
  { destruct (existsb _ (users db)) eqn:E; [|reflexivity].
    apply existsb_exists in E. destruct E as [u [Hu Hw]].
    destruct (Hfree u Hu) as [H1 H2].
    apply String.eqb_neq in H1. apply String.eqb_neq in H2.
    rewrite H1, H2 in Hw. discriminate Hw. }
  now rewrite Hex.
Qed.

Lemma users_updateRow_inv {rt : Runtime} (user : User.t) (upd : User.updates)
  (db db' : Db) (a : User.t) :
  Users.updateRow user upd db = Ok a db' ->
  a = User.apply upd user /\
  db' = withUsers
          (map (fun u => if User.id u =? User.id user then User.apply upd u else u)
               (users db)) db.
Proof.
  unfold Users.updateRow.
  destruct (_ ++ _)%list; [|discriminate].
  destruct (Users.usernameTaken user upd (users db)); [discriminate|].
  intro H. inversion H; subst. split; reflexivity.
Qed.

(** An update that names neither a username nor a phone is not refused. *)
Lemma users_updateRow_plain {rt : Runtime} (user : User.t) (upd : User.updates)
  (db : Db) :
  User.newUsername upd = None -> User.newPhone upd = None ->
  Users.updateRow user upd db
  = Ok (User.apply upd user)
       (withUsers
          (map (fun u => if User.id u =? User.id user then User.apply upd u else u)
               (users db)) db).
Proof.
  intros Hu Hp. unfold Users.updateRow, Users.usernameTaken. now rewrite Hu, Hp.
Qed.

Create HintDb tx.

Section RefreshTokenInvariant.
Context {rt : Runtime}.
Variable I : Db -> Prop.
Hypothesis I_frame :
  forall db db', refreshTokens db' = refreshTokens db -> I db -> I db'.
Hypothesis I_create :
  forall token userId expiresAt isRevoked,
    invariantTx I (RefreshTokens.create token userId expiresAt isRevoked).
Hypothesis I_revoke :
  forall (p : RefreshToken.t -> bool) db,
    I db ->
    I (withRefreshTokens
         (map (fun r => if p r then RefreshToken.revoke r else r) (refreshTokens db)) db).

Ltac framed :=
  let db := fresh "db" in let a := fresh "a" in let db' := fresh "db'" in
  let E := fresh "E" in let HI := fresh "HI" in
  intros db a db' E HI; inversion E; subst; clear E;
  first [exact HI | apply (I_frame db); [reflexivity | exact HI]].

Lemma inv_rt_findOne (w : RefreshToken.t -> bool) : invariantTx I (RefreshTokens.findOne w).
Proof. unfold RefreshTokens.findOne. framed. Qed.

Lemma inv_rt_revokeRow (doc : RefreshToken.t) : invariantTx I (RefreshTokens.revokeRow doc).
Proof.
  intros db a db' E HI. unfold RefreshTokens.revokeRow in E.
  inversion E; subst. simpl. now apply I_revoke.
Qed.

Lemma inv_rt_revokeWhere (w : RefreshToken.t -> bool) :
  invariantTx I (RefreshTokens.revokeWhere w).
Proof.
  intros db a db' E HI. unfold RefreshTokens.revokeWhere, Sql.update in E.
  inversion E; subst. now apply I_revoke.
Qed.

Lemma inv_otp_create (t userId : Z) (otp : string) (expiresAt : Z) (isUsed : bool) :
  invariantTx I (Otps.create t userId otp expiresAt isUsed).
Proof. unfold Otps.create. framed. Qed.

Lemma inv_otp_findNewest (w : Otp.t -> bool) : invariantTx I (Otps.findNewest w).
Proof. unfold Otps.findNewest. framed. Qed.

Lemma inv_otp_useRow (record : Otp.t) : invariantTx I (Otps.useRow record).
Proof. unfold Otps.useRow. framed. Qed.

Lemma inv_otp_useWhere (w : Otp.t -> bool) : invariantTx I (Otps.useWhere w).
Proof. unfold Otps.useWhere, Sql.update. framed. Qed.

Lemma inv_user_create (username email password : string) (phone : option string)
  (roleId : Z) (isActive : bool) :
  invariantTx I (Users.create username email password phone roleId isActive).
Proof.
  intros db a db' E HI. apply users_create_inv in E. destruct E as [_ [-> _]].
  apply (I_frame db); [reflexivity | exact HI].
Qed.

Lemma inv_user_findOne (w : User.t -> bool) : invariantTx I (Users.findOne w).
Proof. unfold Users.findOne. framed. Qed.

Lemma inv_user_updateRow (user : User.t) (upd : User.updates) :
  invariantTx I (Users.updateRow user upd).
Proof.
  intros db a db' E HI. apply users_updateRow_inv in E. destruct E as [_ ->].
  apply (I_frame db); [reflexivity | exact HI].
Qed.

Lemma inv_role_findOne (w : Role.t -> bool) : invariantTx I (Roles.findOne w).
Proof. unfold Roles.findOne. framed. Qed.

Lemma inv_orThrow {A : Type} (o : option A) (msg : string) :
  invariantTx I (BaseController.orThrow o msg).
Proof.
  destruct o; simpl; [apply invariant_ret | apply invariant_throw].
Qed.

#[local] Hint Resolve inv_rt_findOne inv_rt_revokeRow inv_rt_revokeWhere
  inv_otp_create inv_otp_findNewest inv_otp_useRow inv_otp_useWhere
  inv_user_create inv_user_findOne inv_user_updateRow inv_role_findOne
  inv_orThrow I_create : tx.

Ltac inv_step :=
  lazymatch goal with
  | |- invariantTx _ (bind _ _) => apply invariant_bind; [|intro]
  | |- invariantTx _ (ret _) => apply invariant_ret
  | |- invariantTx _ (commit _) => apply invariant_ret
  | |- invariantTx _ (rollback _) => apply invariant_ret
  | |- invariantTx _ (throw _) => apply invariant_throw
  | |- invariantTx _ (match ?x with _ => _ end) => destruct x
  | |- invariantTx _ _ => solve [auto with tx]
  end.

Ltac inv_tx := cbv zeta; repeat inv_step.

Lemma inv_generateRefreshToken (env : Env) (userId : Z) (expiryDays : option Z) :
  invariantTx I (BaseController.generateRefreshToken env userId expiryDays).
Proof. unfold BaseController.generateRefreshToken. inv_tx. Qed.

Lemma inv_verifyRefreshToken (env : Env) (token : string) :
  invariantTx I (BaseController.verifyRefreshToken env token).
Proof. unfold BaseController.verifyRefreshToken. inv_tx. Qed.

Lemma inv_revokeRefreshToken (token : string) :
  invariantTx I (BaseController.revokeRefreshToken token).
Proof. unfold BaseController.revokeRefreshToken. inv_tx. Qed.

Lemma inv_revokeAllUserRefreshTokens (userId : Z) :
  invariantTx I (BaseController.revokeAllUserRefreshTokens userId).
Proof. unfold BaseController.revokeAllUserRefreshTokens. inv_tx. Qed.

Lemma inv_createOtp (env : Env) (userId : Z) (expiryMinutes : option Z) :
  invariantTx I (BaseController.createOtp env userId expiryMinutes).
Proof. unfold BaseController.createOtp. inv_tx. Qed.

Lemma inv_verifyOtp (env : Env) (userId : Z) (otp : string) :
  invariantTx I (BaseController.verifyOtp env userId otp).
Proof. unfold BaseController.verifyOtp. inv_tx. Qed.

Lemma inv_signed (o : option Jwt.t) : invariantTx I (BaseController.signed o).
Proof. unfold BaseController.signed. inv_tx. Qed.

Lemma inv_sendOtpEmail (email otp username : string) :
  invariantTx I (BaseController.sendOtpEmail email otp username).
Proof. unfold BaseController.sendOtpEmail. inv_tx. Qed.

Lemma inv_sendPasswordResetEmail (email : string) (tok : Jwt.t) (username : string) :
  invariantTx I (BaseController.sendPasswordResetEmail email tok username).
Proof. unfold BaseController.sendPasswordResetEmail. inv_tx. Qed.

Lemma inv_findUserByEmail (email : string) :
  invariantTx I (UserAuthService.findUserByEmail email).
Proof. unfold UserAuthService.findUserByEmail. inv_tx. Qed.

Lemma inv_findUserById (id : Z) : invariantTx I (UserAuthService.findUserById id).
Proof. unfold UserAuthService.findUserById. inv_tx. Qed.

Lemma inv_createUser (env : Env) (username email password : string)
  (phone : option string) (roleId : Z) (isActive : bool) :
  invariantTx I (UserAuthService.createUser env username email password phone
                   roleId isActive).
Proof. unfold UserAuthService.createUser. inv_tx. Qed.

Lemma inv_updateUser (env : Env) (userId : Z) (upd : User.updates) :
  invariantTx I (UserAuthService.updateUser env userId upd).
Proof. unfold UserAuthService.updateUser, Users.findByPk. inv_tx. Qed.

Lemma inv_getOtpTimeRemaining (env : Env) (userId : Z) :
  invariantTx I (UserAuthService.getOtpTimeRemaining env userId).
Proof. unfold UserAuthService.getOtpTimeRemaining. inv_tx. Qed.

Lemma inv_invalidateAllOtps (userId : Z) :
  invariantTx I (UserAuthService.invalidateAllOtps userId).
Proof. unfold UserAuthService.invalidateAllOtps. inv_tx. Qed.

#[local] Hint Resolve inv_generateRefreshToken inv_verifyRefreshToken
  inv_revokeRefreshToken inv_revokeAllUserRefreshTokens inv_createOtp inv_verifyOtp
  inv_signed inv_sendOtpEmail inv_sendPasswordResetEmail inv_findUserByEmail
  inv_findUserById inv_createUser inv_updateUser inv_getOtpTimeRemaining
  inv_invalidateAllOtps : tx.

Ltac inv_handler :=
  cbv zeta;
  lazymatch goal with
  | |- invariantHandler _ (if ?b then _ else _) =>
      destruct b; [apply invariant_idle | apply invariant_transaction; inv_tx]
  | |- invariantHandler _ (transaction _) => apply invariant_transaction; inv_tx
  end.

Lemma inv_signup (env : Env) (body : Body.t) :
  invariantHandler I (UserAuthController.signup env body).
Proof. unfold UserAuthController.signup. inv_handler. Qed.

Lemma inv_verifyOTP (env : Env) (reqUser : User.t) (body : Body.t) :
  invariantHandler I (UserAuthController.verifyOTP env reqUser body).
Proof. unfold UserAuthController.verifyOTP. inv_handler. Qed.

Lemma inv_resendOtp (env : Env) (reqUser : User.t) :
  invariantHandler I (UserAuthController.resendOtp env reqUser).
Proof. unfold UserAuthController.resendOtp. inv_handler. Qed.

Lemma inv_login (env : Env) (body : Body.t) :
  invariantHandler I (UserAuthController.login env body).
Proof. unfold UserAuthController.login. inv_handler. Qed.

Lemma inv_forgotPassword (env : Env) (body : Body.t) :
  invariantHandler I (UserAuthController.forgotPassword env body).
Proof. unfold UserAuthController.forgotPassword. inv_handler. Qed.

Lemma inv_resetPassword (env : Env) (body : Body.t) :
  invariantHandler I (UserAuthController.resetPassword env body).
Proof. unfold UserAuthController.resetPassword. inv_handler. Qed.

Lemma inv_logout (env : Env) (reqUser : User.t) (body : Body.t) :
  invariantHandler I (UserAuthController.logout env reqUser body).
Proof. unfold UserAuthController.logout. inv_handler. Qed.

Lemma inv_refreshToken (env : Env) (body : Body.t) :
  invariantHandler I (UserAuthController.refreshToken env body).
Proof. unfold UserAuthController.refreshToken. inv_handler. Qed.

Lemma inv_updatePassword (env : Env) (reqUser : User.t) (body : Body.t) :
  invariantHandler I (UserAuthController.updatePassword env reqUser body).
Proof. unfold UserAuthController.updatePassword. inv_handler. Qed.

Lemma inv_updateDetails (env : Env) (reqUser : User.t) (body : Body.t) :
  invariantHandler I (UserAuthController.updateDetails env reqUser body).
Proof. unfold UserAuthController.updateDetails. inv_handler. Qed.

Lemma inv_createDummyAccount (env : Env) :
  invariantTx I (AdminAuthController.createDummyAccount env).
Proof. unfold AdminAuthController.createDummyAccount. inv_tx. Qed.

Lemma inv_adminLogin (env : Env) (body : Body.t) :
  invariantHandler I (AdminAuthController.login env body).
Proof.
  unfold AdminAuthController.login. cbv zeta.
  destruct (negb _); [apply invariant_idle|].
  intros db HI.
  destruct (Sql.findOne _ (users db)) as [admin|].
  - destruct (negb (bcrypt_compare _ _)); [exact HI|].
    destruct (negb (User.isActive admin)); [exact HI|].
    revert db HI. apply invariant_transaction. inv_tx.
  - destruct (_ && _); [|exact HI].
    destruct (AdminAuthController.createDummyAccount env db) as [dummy db1|msg] eqn:E;
      [|exact HI].
    pose proof (inv_createDummyAccount env db dummy db1 E HI) as HI1.
    revert db1 HI1 E. intros db1 HI1 _. revert db1 HI1.
    apply invariant_transaction. inv_tx.
Qed.

Lemma inv_adminRefreshToken (env : Env) (body : Body.t) :
  invariantHandler I (AdminAuthController.refreshToken env body).
Proof. unfold AdminAuthController.refreshToken. inv_handler. Qed.

Lemma inv_adminLogout (env : Env) (reqUser : User.t) (body : Body.t) :
  invariantHandler I (AdminAuthController.logout env reqUser body).
Proof. unfold AdminAuthController.logout. inv_handler. Qed.

(** Every route keeps the invariant, and so does every sequence of
    requests. *)
Lemma inv_serve (env : Env) (req : Request) : invariantHandler I (serve env req).
Proof.
  destruct req; simpl;
    try (apply invariant_guarded; intro);
    auto using inv_signup, inv_verifyOTP, inv_resendOtp, inv_login,
      inv_forgotPassword, inv_resetPassword, inv_logout, inv_refreshToken,
      inv_updatePassword, inv_updateDetails, inv_adminLogin,
      inv_adminRefreshToken, inv_adminLogout.
Qed.

Lemma inv_serveAll (trace : list (Env * Request)) (db : Db) :
  I db -> I (serveAll trace db).
Proof.
  revert db; induction trace as [|[env req] trace IH]; intros db HI; simpl.
  - exact HI.
  - apply IH. now apply inv_serve.
Qed.

End RefreshTokenInvariant.

(** ** The refresh-token operations, unfolded *)

Lemma find_none_iff {A : Type} (f : A -> bool) (l : list A) :
  find f l = None <-> forall x, In x l -> f x = false.
Proof.
  split; [apply find_none|].
  induction l as [|a l IH]; intro H; [reflexivity|]. simpl.
  rewrite (H a) by (left; reflexivity). apply IH.
  intros x Hx. apply H. now right.
Qed.

Lemma existsb_token (t : string) (rows : list RefreshToken.t) :
  existsb (fun r => (RefreshToken.token r =? t)%string) rows = true
  <-> In t (map RefreshToken.token rows).
Proof.
  rewrite existsb_exists, in_map_iff. split.
  - intros [r [Hin E]]. apply String.eqb_eq in E. eauto.
  - intros [r [E Hin]]. exists r. split; [assumption|]. now apply String.eqb_eq.
Qed.

Lemma verifyRefreshToken_eq (env : Env) (t : string) (db : Db) :
  BaseController.verifyRefreshToken env t db =
  Ok (match Sql.findOne (fun r => (RefreshToken.token r =? t)%string
                                  && negb (RefreshToken.isRevoked r))
                        (refreshTokens db) with
      | None => None
      | Some doc => if RefreshToken.expiresAt doc <? now env then None else Some doc
      end) db.
Proof.
  unfold BaseController.verifyRefreshToken, RefreshTokens.findOne, bind, ret.
  destruct (Sql.findOne _ (refreshTokens db)) as [doc|]; [|reflexivity].
  destruct (RefreshToken.expiresAt doc <? now env); reflexivity.
Qed.

Lemma revokeRefreshToken_eq (t : string) (db : Db) :
  BaseController.revokeRefreshToken t db =
  match Sql.findOne (fun r => (RefreshToken.token r =? t)%string) (refreshTokens db) with
  | None => Ok false db
  | Some doc =>
      Ok true (withRefreshTokens
                 (map (fun r => if RefreshToken.id r =? RefreshToken.id doc
                                then RefreshToken.revoke r else r)
                      (refreshTokens db)) db)
  end.
Proof.
  unfold BaseController.revokeRefreshToken, RefreshTokens.findOne, bind, ret.
  destruct (Sql.findOne _ (refreshTokens db)); reflexivity.
Qed.

Lemma generateRefreshToken_eq {rt : Runtime} (env : Env) (userId : Z) (db : Db) :
  BaseController.generateRefreshToken env userId None db =
  let t := Js.toHex (randomBytes40 env) in
  if existsb (fun r => (RefreshToken.token r =? t)%string) (refreshTokens db)
  then Thrown "Validation error"
  else Ok t (withRefreshTokens
               (refreshTokens db ++
                [RefreshToken.mk (freshId (map RefreshToken.id (refreshTokens db)))
                                 t userId (JsDate.addDays (now env) 7) false])%list db).
Proof.
  unfold BaseController.generateRefreshToken, RefreshTokens.create, bind, ret.
  cbv zeta. destruct (existsb _ (refreshTokens db)); reflexivity.
Qed.

Lemma revokeAllUserRefreshTokens_eq (userId : Z) (db : Db) :
  exists n,
    BaseController.revokeAllUserRefreshTokens userId db =
    Ok n (withRefreshTokens
            (map (fun r => if (RefreshToken.userId r =? userId)
                              && negb (RefreshToken.isRevoked r)
                           then RefreshToken.revoke r else r)
                 (refreshTokens db)) db).
Proof.
  unfold BaseController.revokeAllUserRefreshTokens, RefreshTokens.revokeWhere,
    Sql.update, bind, ret.
  eexists. reflexivity.
Qed.

Lemma createOtp_eq {rt : Runtime} (env : Env) (userId : Z) (db : Db) :
  BaseController.createOtp env userId (Some 5) db =
  Ok (OtpCode.generate (otpBuffer env))
     (withOtps (otps db ++
                [Otp.mk (freshId (map Otp.id (otps db))) userId
                        (OtpCode.generate (otpBuffer env))
                        (JsDate.addMinutes (now env) 5) false (now env)])%list db).
Proof. reflexivity. Qed.

(** ** The two invariants *)

Lemma tokens_revoked (p : RefreshToken.t -> bool) (rows : list RefreshToken.t) :
  map RefreshToken.token (map (fun r => if p r then RefreshToken.revoke r else r) rows)
  = map RefreshToken.token rows.
Proof.
  rewrite map_map. apply map_ext. intro r. now destruct (p r).
Qed.

Lemma create_inv (t : string) (userId expiresAt : Z) (isRevoked : bool)
  (db db' : Db) (row : RefreshToken.t) :
  RefreshTokens.create t userId expiresAt isRevoked db = Ok row db' ->
  ~ In t (map RefreshToken.token (refreshTokens db)) /\
  RefreshToken.token row = t /\
  refreshTokens db' = (refreshTokens db ++ [row])%list.
Proof.
  unfold RefreshTokens.create.
  destruct (existsb _ (refreshTokens db)) eqn:E; [discriminate|].
  intro H; inversion H; subst; clear H. simpl. repeat split.
  intro Hin. apply existsb_token in Hin. congruence.
Qed.

Lemma truthy_Some (s : string) : s <> "" -> Js.truthy (Some s) = true.
Proof. intro H. unfold Js.truthy. apply String.eqb_neq in H. now rewrite H. Qed.

Lemma truthy_inv (v : option string) :
  Js.truthy v = true -> exists s, v = Some s /\ s <> "".
Proof.
  destruct v as [s|]; [|discriminate]. unfold Js.truthy.
  intro H. exists s. split; [reflexivity|].
  apply negb_true_iff in H. now apply String.eqb_neq.
Qed.

Lemma NoDup_snoc {A : Type} (x : A) (l : list A) :
  ~ In x l -> NoDup l -> NoDup (l ++ [x]).
Proof.
  induction l as [|a l IH]; intros Hx Hl; simpl.
  - constructor; [intros []| constructor].
  - inversion Hl; subst. constructor.
    + intro Hin. apply in_app_or in Hin. destruct Hin as [Hin|[->|[]]].
      * contradiction.
      * apply Hx. now left.
    + apply IH; [|assumption]. intro Hin. apply Hx. now right.
Qed.

Section TokenInvariants.
Context {rt : Runtime}.

Lemma dead_serveAll (t : string) (trace : list (Env * Request)) (db : Db) :
  dead t db -> dead t (serveAll trace db).
Proof.
  apply inv_serveAll.
  - intros d d' E. unfold dead. now rewrite E.
  - intros token userId expiresAt isRevoked d row d' E [Hin Hrev].
    apply create_inv in E. destruct E as [Hfresh [Htok Hrows]].
    unfold dead. rewrite Hrows, map_app. split.
    + apply in_or_app. now left.
    + intros r Hr Hrt. apply in_app_or in Hr. destruct Hr as [Hr|[<-|[]]].
      * now apply Hrev.
      * exfalso. apply Hfresh. congruence.
  - intros p d [Hin Hrev]. unfold dead. simpl. rewrite tokens_revoked.
    split; [assumption|].
    intros r Hr Hrt. apply in_map_iff in Hr. destruct Hr as [y [<- Hy]].
    destruct (p y); [reflexivity | now apply Hrev].
Qed.

Lemma wfTokens_serveAll (trace : list (Env * Request)) (db : Db) :
  wfTokens db -> wfTokens (serveAll trace db).
Proof.
  apply inv_serveAll.
  - intros d d' E. unfold wfTokens. now rewrite E.
  - intros token userId expiresAt isRevoked d row d' E Hwf.
    apply create_inv in E. destruct E as [Hfresh [Htok Hrows]].
    unfold wfTokens. rewrite Hrows, map_app. simpl.
    apply NoDup_snoc; [rewrite Htok; exact Hfresh | exact Hwf].
  - intros p d Hwf. unfold wfTokens. simpl. now rewrite tokens_revoked.
Qed.

(** A dead token is refused by the refresh route. *)
Lemma dead_refused (t : string) (env : Env) (body : Body.t) (db : Db) :
  dead t db -> Body.refreshToken body = Some t -> t <> "" ->
  UserAuthController.refreshToken env body db
  = (NextError "Invalid or expired refresh token" 401, db).
Proof.
  intros [_ Hrev] Hbody Hne.
  unfold UserAuthController.refreshToken. cbv zeta.
  rewrite Hbody, (truthy_Some t Hne). cbn [negb].
  change (Body.str (Some t)) with t.
  unfold transaction, bind. cbv beta. rewrite verifyRefreshToken_eq.
  assert (Hnone : Sql.findOne (fun r => (RefreshToken.token r =? t)%string
                                        && negb (RefreshToken.isRevoked r))
                              (refreshTokens db) = None).
  { apply find_none_iff. intros r Hr.
    destruct (RefreshToken.token r =? t)%string eqn:E; [|reflexivity].
    apply String.eqb_eq in E. now rewrite (Hrev r Hr E). }
  rewrite Hnone. reflexivity.
Qed.

End TokenInvariants.

(** ** Rotation of refresh tokens *)

Lemma findUserById_eq (id : Z) (db : Db) :
  UserAuthService.findUserById id db
  = Ok (Sql.findOne (fun u => User.id u =? id) (users db)) db.
Proof. reflexivity. Qed.

Lemma findUserByEmail_eq (email : string) (db : Db) :
  UserAuthService.findUserByEmail email db
  = Ok (Sql.findOne (fun u => (User.email u =? email)%string) (users db)) db.
Proof. reflexivity. Qed.

Lemma token_unique (rows : list RefreshToken.t) (x y : RefreshToken.t) :
  NoDup (map RefreshToken.token rows) -> In x rows -> In y rows ->
  RefreshToken.token x = RefreshToken.token y -> x = y.
Proof.
  induction rows as [|a rows IH]; intros Hnd Hx Hy E; [contradiction|].
  simpl in Hnd. inversion Hnd as [|? ? Hnotin Hnd']; subst.
  destruct Hx as [->|Hx], Hy as [->|Hy].
  - reflexivity.
  - exfalso. apply Hnotin. rewrite E. now apply in_map.
  - exfalso. apply Hnotin. rewrite <- E. now apply in_map.
  - now apply IH.
Qed.

(** Revoking the row found for [t] leaves [t] dead when tokens are unique. *)
Lemma revoked_dead (t : string) (db : Db) (first : RefreshToken.t) :
  wfTokens db ->
  Sql.findOne (fun r => (RefreshToken.token r =? t)%string) (refreshTokens db)
  = Some first ->
  dead t (withRefreshTokens
            (map (fun r => if RefreshToken.id r =? RefreshToken.id first
                           then RefreshToken.revoke r else r)
                 (refreshTokens db)) db).
Proof.
  intros Hwf Hfind. apply find_some in Hfind. destruct Hfind as [Hin Ht].
  apply String.eqb_eq in Ht.
  unfold dead. simpl. rewrite tokens_revoked. split.
  - rewrite <- Ht. now apply in_map.
  - intros r Hr Hrt. apply in_map_iff in Hr. destruct Hr as [y [<- Hy]].
    assert (y = first).
    { apply (token_unique (refreshTokens db)); try assumption.
      destruct (RefreshToken.id y =? RefreshToken.id first); simpl in Hrt; congruence. }
    subst y. now rewrite Z.eqb_refl.
Qed.

Lemma find_app_none {A : Type} (f : A -> bool) (l l' : list A) :
  find f l = None -> find f (l ++ l') = find f l'.
Proof.
  induction l as [|a l IH]; simpl; [reflexivity|].
  destruct (f a); [discriminate | exact IH].
Qed.

Lemma ids_revoked (p : RefreshToken.t -> bool) (rows : list RefreshToken.t) :
  map RefreshToken.id (map (fun r => if p r then RefreshToken.revoke r else r) rows)
  = map RefreshToken.id rows.
Proof.
  rewrite map_map. apply map_ext. intro r. now destruct (p r).
Qed.

(** The row [revokeRefreshToken] updates by primary key is the row that
    carries the string. *)
(** A token appended to a table that did not hold its string verifies
    exactly up to its expiry. *)
Lemma verify_appended (env : Env) (rows : list RefreshToken.t) (row : RefreshToken.t)
  (db : Db) :
  ~ In (RefreshToken.token row) (map RefreshToken.token rows) ->
  RefreshToken.isRevoked row = false ->
  BaseController.verifyRefreshToken env (RefreshToken.token row)
    (withRefreshTokens (rows ++ [row]) db)
  = Ok (if now env <=? RefreshToken.expiresAt row then Some row else None)
       (withRefreshTokens (rows ++ [row]) db).
Proof.
  intros Hfresh Hlive. rewrite verifyRefreshToken_eq.
  cbn [refreshTokens withRefreshTokens]. unfold Sql.findOne. rewrite find_app_none.
  - cbn [find]. rewrite String.eqb_refl, Hlive. cbn [negb andb].
    rewrite Z.leb_antisym. now destruct (RefreshToken.expiresAt row <? now env).
  - apply find_none_iff. intros r Hr.
    destruct (RefreshToken.token r =? RefreshToken.token row)%string eqn:E;
      [|reflexivity].
    exfalso. apply Hfresh. apply String.eqb_eq in E. rewrite <- E. now apply in_map.
Qed.

Section Rotation.
Context {rt : Runtime}.

(** What a 200 of the refresh route tells about the request. *)
Lemma refreshToken_success (env : Env) (body : Body.t) (db db' : Db)
  (status : Z) (json : list (string * Json)) :
  UserAuthController.refreshToken env body db = (Respond status json, db') ->
  exists t doc first user,
    Body.refreshToken body = Some t /\ t <> "" /\
    Sql.findOne (fun r => (RefreshToken.token r =? t)%string
                          && negb (RefreshToken.isRevoked r)) (refreshTokens db)
      = Some doc /\
    (RefreshToken.expiresAt doc <? now env) = false /\
    Sql.findOne (fun u => User.id u =? RefreshToken.userId doc) (users db) = Some user /\
    User.roleId user = 2 /\ User.isActive user = true /\
    Sql.findOne (fun r => (RefreshToken.token r =? t)%string) (refreshTokens db)
      = Some first /\
    BaseController.generateRefreshToken env (User.id user) None
      (withRefreshTokens
         (map (fun r => if RefreshToken.id r =? RefreshToken.id first
                        then RefreshToken.revoke r else r)
              (refreshTokens db)) db)
      = Ok (Js.toHex (randomBytes40 env)) db' /\
    status = 200 /\
    json = [("error", JBool false);
            ("message", JStr "Token refreshed");
            ("accessToken",
             JToken (Jwt.mk (Jwt.Access (User.id user) 2 false) (now env / 1000)
                            (now env / 1000 + 3600) BaseController.secret));
            ("refreshToken", JStr (Js.toHex (randomBytes40 env)))].
Proof.
  unfold UserAuthController.refreshToken. cbv zeta.
  destruct (Js.truthy (Body.refreshToken body)) eqn:Ht; cbn [negb];
    [|intro H; discriminate H].
  apply truthy_inv in Ht. destruct Ht as [t [Hbody Hne]]. rewrite Hbody.
  change (Body.str (Some t)) with t.
  unfold transaction, bind, rollback, commit, BaseController.handleError.
  cbv beta. rewrite verifyRefreshToken_eq.
  destruct (Sql.findOne _ (refreshTokens db)) as [doc|] eqn:Edoc;
    [destruct (RefreshToken.expiresAt doc <? now env) eqn:Eexp|];
    cbv beta iota; try (intro H; discriminate H).
  rewrite findUserById_eq.
  destruct (Sql.findOne _ (users db)) as [user|] eqn:Euser;
    cbv beta iota; try (intro H; discriminate H).
  destruct (negb _ || negb _) eqn:Eguard;
    cbv beta iota; try (intro H; discriminate H).
  apply orb_false_iff in Eguard. destruct Eguard as [Erole Eactive].
  apply negb_false_iff in Erole. apply Z.eqb_eq in Erole.
  apply negb_false_iff in Eactive.
  rewrite revokeRefreshToken_eq.
  destruct (Sql.findOne (fun r => (RefreshToken.token r =? t)%string) (refreshTokens db))
    as [first|] eqn:Efirst.
  2:{ exfalso. apply find_some in Edoc. destruct Edoc as [Hin Hw].
      apply andb_prop in Hw. destruct Hw as [Hw _].
      pose proof (find_none _ _ Efirst doc Hin) as Hn. cbv beta in Hn. congruence. }
  rewrite generateToken_1h. cbn [BaseController.signed BaseController.orThrow].
  unfold ret at 1. cbv beta iota.
  destruct (BaseController.generateRefreshToken env (User.id user) None _)
    as [newT db2|msg] eqn:Egen; cbv beta iota; [|intro H; discriminate H].
  unfold ret. intro H. inversion H; subst; clear H.
  assert (HnewT : newT = Js.toHex (randomBytes40 env)).
  { rewrite generateRefreshToken_eq in Egen. cbv zeta in Egen.
    destruct (existsb _ _); [discriminate Egen|]. now inversion Egen. }
  subst newT.
  exists t, doc, first, user.
  split; [reflexivity|]. split; [exact Hne|]. split; [exact Edoc|].
  split; [exact Eexp|]. split; [exact Euser|]. split; [exact Erole|].
  split; [exact Eactive|]. split; [exact Efirst|]. split; [exact Egen|].
  split; reflexivity.
Qed.

Lemma generate_keeps_dead (t : string) (env : Env) (userId : Z) (db db' : Db)
  (newT : string) :
  dead t db ->
  BaseController.generateRefreshToken env userId None db = Ok newT db' ->
  dead t db' /\ newT <> t /\
  db' = withRefreshTokens (refreshTokens db ++ [issuedRow env userId db]) db /\
  ~ In newT (map RefreshToken.token (refreshTokens db)).
Proof.
  intros [Hin Hrev] E. rewrite generateRefreshToken_eq in E. cbv zeta in E.
  destruct (existsb _ (refreshTokens db)) eqn:Ex; [discriminate E|].
  inversion E; subst; clear E.
  assert (Hfresh : ~ In (Js.toHex (randomBytes40 env))
                        (map RefreshToken.token (refreshTokens db))).
  { intro Hc. apply existsb_token in Hc. congruence. }
  assert (Hne : Js.toHex (randomBytes40 env) <> t) by congruence.
  split; [|split; [exact Hne|split; [reflexivity|exact Hfresh]]].
  split.
  - simpl. rewrite map_app. apply in_or_app. now left.
  - simpl. intros r Hr Hrt. apply in_app_or in Hr. destruct Hr as [Hr|[<-|[]]].
    + now apply Hrev.
    + simpl in Hrt. contradiction.
Qed.

End Rotation.

(** C2: a refresh call that succeeds was given the string of a stored
    token, unrevoked and unexpired, of an active user account.  It
    revokes that row and answers 200 with a new pair: an access token
    signed at the instant of the call for that account, of type user
    and valid one hour, and a refresh-token string other than the one
    presented, stored for that same account in a new unrevoked row,
    which verifies from then on up to its expiry.  After any sequence of
    requests on any route, a refresh call with the presented string is
    answered with the error "Invalid or expired refresh token" (401)
    and changes nothing. *)
Theorem refresh_token_single_use {rt : Runtime} (env : Env) (body : Body.t)
  (db db' : Db) (status : Z) (json : list (string * Json)) (t : string) :
  wfTokens db ->
  Body.refreshToken body = Some t ->
  UserAuthController.refreshToken env body db = (Respond status json, db') ->
  dead t db' /\
  (exists old owner,
     In old (refreshTokens db) /\ RefreshToken.token old = t /\
     RefreshToken.isRevoked old = false /\ now env <= RefreshToken.expiresAt old /\
     accountOf (RefreshToken.userId old) db = Some owner /\
     User.roleId owner = 2 /\ User.isActive owner = true /\
     status = 200 /\
     json = [("error", JBool false);
             ("message", JStr "Token refreshed");
             ("accessToken",
              JToken (Jwt.mk (Jwt.Access (User.id owner) 2 false) (now env / 1000)
                             (now env / 1000 + 3600) BaseController.secret));
             ("refreshToken", JStr (Js.toHex (randomBytes40 env)))] /\
     Js.toHex (randomBytes40 env) <> t /\
     db' = withRefreshTokens
             (map (fun r => if RefreshToken.id r =? RefreshToken.id old
                            then RefreshToken.revoke r else r) (refreshTokens db)
              ++ [issuedRow env (User.id owner) db]) db /\
     forall env' : Env,
       BaseController.verifyRefreshToken env' (Js.toHex (randomBytes40 env)) db'
       = Ok (if now env' <=? JsDate.addDays (now env) 7
             then Some (issuedRow env (User.id owner) db) else None) db') /\
  forall (trace : list (Env * Request)) (env' : Env) (body' : Body.t),
    Body.refreshToken body' = Some t ->
    UserAuthController.refreshToken env' body' (serveAll trace db')
    = (NextError "Invalid or expired refresh token" 401, serveAll trace db').
Proof.
  intros Hwf Hbody Hok.
  apply refreshToken_success in Hok.
  destruct Hok as [t' [doc [first [user [Hb [Hne [Hdoc [Hexp [Huser [Hrole [Hactive
                    [Hfirst [Hgen [Hstatus Hjson]]]]]]]]]]]]]].
  assert (t' = t) by congruence. subst t'.
  pose proof (revoked_dead t db first Hwf Hfirst) as Hdead1.
  destruct (generate_keeps_dead _ _ _ _ _ _ Hdead1 Hgen)
    as [Hdead [Hnew [Hdb Hfresh]]].
  pose proof (find_some _ _ Hdoc) as [Hdin Hdw].
  apply andb_prop in Hdw. destruct Hdw as [Hdt Hdr].
  apply String.eqb_eq in Hdt. apply negb_true_iff in Hdr.
  pose proof (find_some _ _ Hfirst) as [Hfin Hft]. apply String.eqb_eq in Hft.
  assert (Hsame : first = doc).
  { apply (token_unique (refreshTokens db)); try assumption. congruence. }
  subst first.
  assert (Hrow : issuedRow env (User.id user)
                   (withRefreshTokens
                      (map (fun r => if RefreshToken.id r =? RefreshToken.id doc
                                     then RefreshToken.revoke r else r)
                           (refreshTokens db)) db)
                 = issuedRow env (User.id user) db).
  { unfold issuedRow. cbn [refreshTokens withRefreshTokens]. now rewrite ids_revoked. }
  rewrite Hrow in Hdb. cbn [refreshTokens withRefreshTokens] in Hdb, Hfresh.
  split; [exact Hdead|]. split.
  - exists doc, user.
    split; [exact Hdin|]. split; [exact Hdt|]. split; [exact Hdr|].
    split; [apply Z.ltb_ge in Hexp; exact Hexp|]. split; [exact Huser|].
    split; [exact Hrole|]. split; [exact Hactive|]. split; [exact Hstatus|].
    split; [exact Hjson|]. split; [exact Hnew|].
    split; [rewrite Hdb; reflexivity|].
    intro env'. rewrite Hdb.
    exact (verify_appended env' _ (issuedRow env (User.id user) db)
             (withRefreshTokens
                (map (fun r => if RefreshToken.id r =? RefreshToken.id doc
                               then RefreshToken.revoke r else r)
                     (refreshTokens db)) db) Hfresh eq_refl).
  - intros trace env' body' Hb'. apply (dead_refused t); try assumption.
    now apply dead_serveAll.
Qed.

Lemma refresh_token_single_use_witness :
  dead "c0ffee"
       (snd (UserAuthController.refreshToken (rt := demoRuntime) anaEnv
               (refreshBody "c0ffee") anaDb)) /\
  refreshTokens (snd (UserAuthController.refreshToken (rt := demoRuntime) anaEnv
                        (refreshBody "c0ffee") anaDb))
  = [RefreshToken.revoke anaToken; issuedRow (rt := demoRuntime) anaEnv 7 anaDb] /\
  BaseController.verifyRefreshToken verifyEnv "0a0b"
    (snd (UserAuthController.refreshToken (rt := demoRuntime) anaEnv
            (refreshBody "c0ffee") anaDb))
  = Ok (Some (issuedRow (rt := demoRuntime) anaEnv 7 anaDb))
       (snd (UserAuthController.refreshToken (rt := demoRuntime) anaEnv
               (refreshBody "c0ffee") anaDb)).
Proof.
  destruct (refresh_token_single_use (rt := demoRuntime) anaEnv
              (refreshBody "c0ffee") anaDb
              (snd (UserAuthController.refreshToken (rt := demoRuntime) anaEnv
                      (refreshBody "c0ffee") anaDb))
              200
              (jsonOf (fst (UserAuthController.refreshToken (rt := demoRuntime)
                              anaEnv (refreshBody "c0ffee") anaDb)))
              "c0ffee")
    as [Hdead _].
  - unfold wfTokens. simpl. constructor; [intros []| constructor].
  - reflexivity.
  - vm_compute. reflexivity.
  - split; [exact Hdead|]. split; [reflexivity|]. reflexivity.
Defined.

(** ** Password reset *)

Section Reset.
Context {rt : Runtime}.

Lemma updateUser_run (env : Env) (userId : Z) (upd : User.updates) (db : Db) :
  UserAuthService.updateUser env userId upd db =
  match Sql.findOne (fun u => User.id u =? userId) (users db) with
  | None => Thrown "User not found"
  | Some u => Users.updateRow u (hashedUpdates env upd) db
  end.
Proof.
  unfold UserAuthService.updateUser, Users.findByPk, Users.findOne, bind.
  destruct (Sql.findOne _ (users db)) as [u|]; reflexivity.
Qed.

(** The updates of the password and of the activation carry neither a
    username nor a phone: nothing is validated and nothing collides. *)
Lemma updateUser_eq (env : Env) (userId : Z) (upd : User.updates) (db : Db) :
  User.newUsername upd = None -> User.newPhone upd = None ->
  UserAuthService.updateUser env userId upd db =
  match Sql.findOne (fun u => User.id u =? userId) (users db) with
  | None => Thrown "User not found"
  | Some u =>
      Ok (User.apply (hashedUpdates env upd) u)
         (withUsers
            (map (fun x => if User.id x =? User.id u
                           then User.apply (hashedUpdates env upd) x else x)
                 (users db)) db)
  end.
Proof.
  intros Hu Hp. rewrite updateUser_run.
  destruct (Sql.findOne _ (users db)) as [u|]; [|reflexivity].
  apply users_updateRow_plain; unfold hashedUpdates;
    destruct (Js.truthy (User.newPassword upd)); assumption.
Qed.

(** What a 200 of the reset route tells about the database it leaves. *)
Lemma resetPassword_success (env : Env) (body : Body.t) (db db' : Db)
  (status : Z) (json : list (string * Json)) (userId : Z) (email : string) :
  UserAuthController.decodeResetToken env (Body.token body) = Some (userId, email) ->
  UserAuthController.resetPassword env body db = (Respond status json, db') ->
  refreshTokens db' =
    map (fun r => if (RefreshToken.userId r =? userId) && negb (RefreshToken.isRevoked r)
                  then RefreshToken.revoke r else r)
        (refreshTokens db)
  /\ otps db' = otps db
  /\ status = 200.
Proof.
  intro Hdec.
  unfold UserAuthController.resetPassword. cbv zeta.
  destruct (negb (BaseController.validateFields body ["token"; "newPassword"]));
    [intro H; discriminate H|].
  rewrite Hdec.
  unfold transaction, bind, rollback, commit, BaseController.handleError.
  cbv beta. rewrite findUserById_eq.
  destruct (Sql.findOne _ (users db)) as [user|] eqn:Euser;
    cbv beta iota; try (intro H; discriminate H).
  destruct (negb (User.email user =? email)%string);
    cbv beta iota; try (intro H; discriminate H).
  rewrite updateUser_eq by reflexivity. rewrite Euser. cbv beta iota.
  destruct (revokeAllUserRefreshTokens_eq userId
              (withUsers
                 (map (fun x => if User.id x =? User.id user
                                then User.apply
                                       (hashedUpdates env
                                          (User.mkUpdates None (Body.newPassword body)
                                             None None)) x
                                else x) (users db)) db)) as [n Hn].
  rewrite Hn. cbv beta iota. unfold ret.
  intro H. inversion H; subst; clear H. repeat split.
Qed.

End Reset.

(** C6: a password reset that succeeds for the account named by the
    reset token leaves every refresh-token row of that account revoked;
    after any sequence of requests on any route, a refresh call with a
    token the account held before the reset is answered with the error
    "Invalid or expired refresh token" (401). *)
Theorem resetPassword_revokes_all {rt : Runtime} (env : Env) (body : Body.t)
  (db db' : Db) (status : Z) (json : list (string * Json))
  (userId : Z) (email : string) :
  wfTokens db ->
  UserAuthController.decodeResetToken env (Body.token body) = Some (userId, email) ->
  UserAuthController.resetPassword env body db = (Respond status json, db') ->
  (forall r, In r (refreshTokens db') -> RefreshToken.userId r = userId ->
             RefreshToken.isRevoked r = true) /\
  forall (r0 : RefreshToken.t) (t : string),
    In r0 (refreshTokens db) -> RefreshToken.userId r0 = userId ->
    RefreshToken.token r0 = t -> t <> "" ->
    forall (trace : list (Env * Request)) (env' : Env) (body' : Body.t),
      Body.refreshToken body' = Some t ->
      UserAuthController.refreshToken env' body' (serveAll trace db')
      = (NextError "Invalid or expired refresh token" 401, serveAll trace db').
Proof.
  intros Hwf Hdec Hok.
  destruct (resetPassword_success _ _ _ _ _ _ _ _ Hdec Hok) as [Hrows [_ _]].
  assert (Hall : forall r, In r (refreshTokens db') -> RefreshToken.userId r = userId ->
                           RefreshToken.isRevoked r = true).
  { intros r Hr Hu. rewrite Hrows in Hr. apply in_map_iff in Hr.
    destruct Hr as [y [<- Hy]].
    destruct (RefreshToken.userId y =? userId) eqn:E1; simpl in *.
    - destruct (RefreshToken.isRevoked y) eqn:E2; simpl; [assumption | reflexivity].
    - apply Z.eqb_neq in E1. contradiction. }
  split; [exact Hall|].
  intros r0 t Hr0 Hu Ht Hne trace env' body' Hb.
  apply (dead_refused t); try assumption.
  apply dead_serveAll.
  split.
  - rewrite Hrows, tokens_revoked, <- Ht. now apply in_map.
  - intros r Hr Hrt. apply Hall; [assumption|].
    rewrite Hrows in Hr. apply in_map_iff in Hr. destruct Hr as [y [Hy Hyin]].
    assert (RefreshToken.token y = t).
    { rewrite <- Hrt, <- Hy. now destruct (_ && _). }
    assert (y = r0)
      by (apply (token_unique (refreshTokens db));
          [exact Hwf | assumption | assumption | congruence]).
    subst y. rewrite <- Hy. now destruct (_ && _).
Qed.

Lemma resetPassword_revokes_all_witness :
  UserAuthController.refreshToken (rt := demoRuntime) verifyEnv (refreshBody "c0ffee")
    (snd (UserAuthController.resetPassword (rt := demoRuntime) anaEnv resetBody anaDb))
  = (NextError "Invalid or expired refresh token" 401,
     snd (UserAuthController.resetPassword (rt := demoRuntime) anaEnv resetBody anaDb)).
Proof.
  refine (proj2 (resetPassword_revokes_all (rt := demoRuntime) anaEnv resetBody anaDb
                   (snd (UserAuthController.resetPassword (rt := demoRuntime) anaEnv
                           resetBody anaDb))
                   200
                   (jsonOf (fst (UserAuthController.resetPassword (rt := demoRuntime)
                                   anaEnv resetBody anaDb)))
                   7 "a@x.com" _ _ _)
                anaToken "c0ffee" _ _ _ _ [] verifyEnv (refreshBody "c0ffee") _).
  - unfold wfTokens. simpl. constructor; [intros []| constructor].
  - reflexivity.
  - vm_compute. reflexivity.
  - left. reflexivity.
  - reflexivity.
  - reflexivity.
  - discriminate.
  - reflexivity.
Defined.

(** ** The distribution of the generated codes *)

(** C9, as the specification states it, fails: the 1,000,000 codes are
    not produced with equal probability.  Of the 2^24 equally likely
    draws 17 give "000000" and 16 give "999999". *)
Lemma createOtp_modulo_bias :
  OtpCode.frequency "000000" = 17 /\
  OtpCode.frequency "999999" = 16 /\
  OtpCode.frequency "000000" <> OtpCode.frequency "999999".
Proof.
  assert (H0 : OtpCode.frequency "000000" = 17).
  { replace "000000" with (OtpCode.codeOf 0) by reflexivity.
    rewrite frequency_codeOf by lia. reflexivity. }
  assert (H9 : OtpCode.frequency "999999" = 16).
  { replace "999999" with (OtpCode.codeOf 999999) by reflexivity.
    rewrite frequency_codeOf by lia. reflexivity. }
  split; [exact H0|]. split; [exact H9|].
  rewrite H0, H9. discriminate.
Qed.

(** C9, amended: for every 3-byte draw the reduction of [createOtp]
    yields a string of 6 decimal digits, the code of the draw's value
    modulo 1,000,000; of the 2^24 draws, 17 produce each code below
    777216 and 16 produce each code from 777216 on. *)
Theorem createOtp_code_distribution :
  (forall b0 b1 b2 : Byte.byte,
     String.length (OtpCode.generate [b0; b1; b2]) = 6%nat /\
     Js.allDigits (OtpCode.generate [b0; b1; b2]) = true /\
     exists c, 0 <= c < 1000000 /\ OtpCode.generate [b0; b1; b2] = OtpCode.codeOf c) /\
  (forall c, 0 <= c < 1000000 ->
     OtpCode.frequency (OtpCode.codeOf c) = if c <? 777216 then 17 else 16).
Proof.
  split.
  - intros b0 b1 b2. rewrite generate_value.
    pose proof (Z.mod_pos_bound (OtpCode.value [b0; b1; b2]) 1000000 eq_refl) as Hm.
    destruct (codeOf_shape _ Hm) as [Hlen Hdig].
    repeat split; try assumption. eauto.
  - exact frequency_codeOf.
Qed.

Lemma createOtp_code_distribution_witness :
  0 <= 42 < 1000000 /\ OtpCode.frequency (OtpCode.codeOf 42) = 17.
Proof.
  split; [lia|].
  exact (proj2 createOtp_code_distribution 42 ltac:(lia)).
Defined.

(** ** Login of an account that is not active yet *)

(** C7: the credentials match an account whose [isActive] is false and
    the refresh token drawn is not stored yet (a stored one makes
    [RefreshToken.create] throw): the login route answers 200 with
    [requireVerification: true], an access token of one hour and the
    new refresh token, and commits a new OTP row and the refresh-token
    row for the account. *)
Theorem login_inactive_account {rt : Runtime} (env : Env) (body : Body.t) (db : Db)
  (user : User.t) (email password : string) :
  Body.email body = Some email -> email <> "" ->
  Body.password body = Some password -> password <> "" ->
  Sql.findOne (fun u => (User.email u =? email)%string) (users db) = Some user ->
  bcrypt_compare password (User.password user) = true ->
  User.isActive user = false ->
  ~ In (Js.toHex (randomBytes40 env)) (map RefreshToken.token (refreshTokens db)) ->
  exists db',
    UserAuthController.login env body db =
    (Respond 200
       [("error", JBool false);
        ("message",
         JStr "Account not activated. A verification OTP has been sent to your email.");
        ("accessToken",
         JToken (Jwt.mk (Jwt.Access (User.id user) 2 false) (now env / 1000)
                        (now env / 1000 + 3600) BaseController.secret));
        ("refreshToken", JStr (Js.toHex (randomBytes40 env)));
        ("user", UserAuthController.userJson (User.id user) (User.username user)
                   (User.email user) false);
        ("requireVerification", JBool true)], db') /\
    users db' = users db /\
    otps db' =
      (otps db ++ [Otp.mk (freshId (map Otp.id (otps db))) (User.id user)
                          (OtpCode.generate (otpBuffer env))
                          (JsDate.addMinutes (now env) 5) false (now env)])%list /\
    refreshTokens db' =
      (refreshTokens db ++
       [RefreshToken.mk (freshId (map RefreshToken.id (refreshTokens db)))
                        (Js.toHex (randomBytes40 env)) (User.id user)
                        (JsDate.addDays (now env) 7) false])%list.
Proof.
  intros He Hene Hp Hpne Hfound Hpw Hinactive Hfresh.
  unfold UserAuthController.login. cbv zeta.
  assert (Hvalid : BaseController.validateFields body ["email"; "password"] = true).
  { unfold BaseController.validateFields. cbn [forallb].
    change (Body.has body "email") with (Js.truthy (Body.email body)).
    change (Body.has body "password") with (Js.truthy (Body.password body)).
    now rewrite He, Hp, !truthy_Some. }
  rewrite Hvalid, He, Hp. cbn [negb Body.str].
  unfold transaction, bind, rollback, commit, BaseController.handleError.
  cbv beta. rewrite findUserByEmail_eq, Hfound. cbv beta iota.
  unfold UserAuthService.verifyPassword. rewrite Hpw, Hinactive. cbn [negb].
  rewrite createOtp_eq. cbv beta iota.
  unfold BaseController.sendOtpEmail, ret at 1. cbv beta iota.
  rewrite generateToken_1h. cbn [BaseController.signed BaseController.orThrow].
  unfold ret at 1. cbv beta iota.
  rewrite generateRefreshToken_eq. cbv zeta.
  assert (Hex : existsb (fun r => (RefreshToken.token r =? Js.toHex (randomBytes40 env))%string)
                        (refreshTokens
                           (withOtps
                              (otps db ++
                               [Otp.mk (freshId (map Otp.id (otps db))) (User.id user)
                                       (OtpCode.generate (otpBuffer env))
                                       (JsDate.addMinutes (now env) 5) false (now env)]) db))
                = false).
  { simpl refreshTokens. destruct (existsb _ (refreshTokens db)) eqn:E; [|reflexivity].
    apply existsb_token in E. contradiction. }
  rewrite Hex. unfold ret. cbv beta iota.
  eexists. split; [reflexivity|]. repeat split.
Qed.

Lemma login_inactive_account_witness :
  exists db',
    fst (UserAuthController.login (rt := demoRuntime) anaEnv
           (loginBody "b@x.com" "secret1") bobDb)
    = Respond 200
       [("error", JBool false);
        ("message",
         JStr "Account not activated. A verification OTP has been sent to your email.");
        ("accessToken",
         JToken (Jwt.mk (Jwt.Access 8 2 false) 60 3660 "your-secret-key"));
        ("refreshToken", JStr "0a0b");
        ("user", UserAuthController.userJson 8 "bob" "b@x.com" false);
        ("requireVerification", JBool true)] /\
    otps db' = [Otp.mk 1 8 "000042" 360000 false 60000].
Proof.
  destruct (login_inactive_account (rt := demoRuntime) anaEnv
              (loginBody "b@x.com" "secret1") bobDb bob "b@x.com" "secret1")
    as [db' [Hlogin [_ [Hotps _]]]].
  - reflexivity.
  - discriminate.
  - reflexivity.
  - discriminate.
  - reflexivity.
  - reflexivity.
  - reflexivity.
  - simpl. intros [H|[]]. discriminate H.
  - exists db'. split.
    + rewrite Hlogin. reflexivity.
    + rewrite Hotps. reflexivity.
Defined.

(** ** Password change *)

Lemma find_map_id (f : User.t -> User.t) (i : Z) (rows : list User.t) :
  (forall u, User.id (f u) = User.id u) ->
  Sql.findOne (fun u => User.id u =? i) (map f rows)
  = option_map f (Sql.findOne (fun u => User.id u =? i) rows).
Proof.
  intro Hid. unfold Sql.findOne.
  induction rows as [|a rows IH]; [reflexivity|]. simpl.
  rewrite Hid. destruct (User.id a =? i); [reflexivity | exact IH].
Qed.

Lemma refreshTokens_withUsers (rows : list User.t) (db : Db) :
  refreshTokens (withUsers rows db) = refreshTokens db.
Proof. reflexivity. Qed.

Lemma users_withUsers (rows : list User.t) (db : Db) : users (withUsers rows db) = rows.
Proof. reflexivity. Qed.

Lemma refreshTokens_withRefreshTokens (rows : list RefreshToken.t) (db : Db) :
  refreshTokens (withRefreshTokens rows db) = rows.
Proof. reflexivity. Qed.

Section PasswordChange.
Context {rt : Runtime}.

Lemma hashed_password_only (env : Env) (newPassword : option string) (u : User.t) :
  sameButPassword u
    (User.apply (hashedUpdates env (User.mkUpdates None newPassword None None)) u).
Proof.
  unfold hashedUpdates. simpl User.newPassword.
  destruct (Js.truthy newPassword); repeat split.
Qed.

(** What a 200 of the password route tells about the database it leaves. *)
Lemma updatePassword_success (env : Env) (reqUser : User.t) (body : Body.t)
  (db db' : Db) (status : Z) (json : list (string * Json)) :
  UserAuthController.updatePassword env reqUser body db = (Respond status json, db') ->
  exists u,
    Sql.findOne (fun x => User.id x =? User.id reqUser) (users db) = Some u /\
    status = 200 /\
    db' = withUsers
            (map (fun x => if User.id x =? User.id u
                           then User.apply
                                  (hashedUpdates env
                                     (User.mkUpdates None (Body.newPassword body) None None))
                                  x
                           else x) (users db)) db.
Proof.
  unfold UserAuthController.updatePassword. cbv zeta.
  destruct (negb (BaseController.validateFields body _)); [intro H; discriminate H|].
  unfold transaction, bind, rollback, commit, BaseController.handleError.
  destruct (negb (UserAuthService.verifyPassword _ _));
    cbv beta iota; [intro H; discriminate H|].
  rewrite updateUser_eq by reflexivity.
  destruct (Sql.findOne _ (users db)) as [u|]; cbv beta iota;
    [|intro H; discriminate H].
  unfold ret. intro H. inversion H; subst; clear H.
  exists u. repeat split.
Qed.

(** The refresh route answers alike on two databases that differ in
    password hashes only. *)
Lemma refreshToken_same_outcome (env : Env) (body : Body.t) (db : Db)
  (f : User.t -> User.t) :
  (forall u, sameButPassword u (f u)) ->
  fst (UserAuthController.refreshToken env body (withUsers (map f (users db)) db))
  = fst (UserAuthController.refreshToken env body db).
Proof.
  intro Hf.
  assert (Hid : forall u, User.id (f u) = User.id u) by (intro u; apply Hf).
  unfold UserAuthController.refreshToken. cbv zeta.
  destruct (negb (Js.truthy (Body.refreshToken body))); [reflexivity|].
  unfold transaction, bind, rollback, commit, BaseController.handleError.
  cbv beta. rewrite !verifyRefreshToken_eq, refreshTokens_withUsers.
  destruct (Sql.findOne _ (refreshTokens db)) as [doc|];
    [destruct (RefreshToken.expiresAt doc <? now env)|];
    cbv beta iota; try reflexivity.
  rewrite !findUserById_eq, users_withUsers, (find_map_id f _ _ Hid).
  destruct (Sql.findOne _ (users db)) as [user|]; cbn [option_map];
    cbv beta iota; [|reflexivity].
  destruct (Hf user) as [Hi [_ [_ [_ [Hr Ha]]]]]. rewrite Hr, Ha, Hi.
  destruct (negb _ || negb _); cbv beta iota; [reflexivity|].
  rewrite !revokeRefreshToken_eq, refreshTokens_withUsers.
  destruct (Sql.findOne _ (refreshTokens db)) as [first|]; cbv beta iota;
    rewrite !generateToken_1h; cbn [BaseController.signed BaseController.orThrow];
    unfold ret; cbv beta iota;
    rewrite !generateRefreshToken_eq; cbv zeta;
    rewrite ?refreshTokens_withRefreshTokens, ?refreshTokens_withUsers;
    destruct (existsb _ _); reflexivity.
Qed.

End PasswordChange.

(** C10: a password change that succeeds leaves the refresh-token and
    OTP tables as they were and every account row as it was but for the
    password hash of the caller's row, so the refresh route answers any
    request as it would have before the change: the refresh tokens
    issued before it stay usable. *)
Theorem updatePassword_keeps_refresh_tokens {rt : Runtime} (env : Env)
  (reqUser : User.t) (body : Body.t) (db db' : Db)
  (status : Z) (json : list (string * Json)) :
  UserAuthController.updatePassword env reqUser body db = (Respond status json, db') ->
  status = 200 /\
  refreshTokens db' = refreshTokens db /\
  otps db' = otps db /\
  roles db' = roles db /\
  Forall2 sameButPassword (users db) (users db') /\
  (forall u', In u' (users db') -> User.id u' <> User.id reqUser -> In u' (users db)) /\
  forall (env' : Env) (body' : Body.t),
    fst (UserAuthController.refreshToken env' body' db')
    = fst (UserAuthController.refreshToken env' body' db).
Proof.
  intro Hok. apply updatePassword_success in Hok.
  destruct Hok as [u [Hu [Hstatus Hdb]]].
  set (upd := hashedUpdates env (User.mkUpdates None (Body.newPassword body) None None))
    in Hdb.
  set (f := fun x => if User.id x =? User.id u then User.apply upd x else x) in Hdb.
  assert (Hf : forall x, sameButPassword x (f x)).
  { intro x. unfold f. destruct (User.id x =? User.id u).
    - apply hashed_password_only.
    - repeat split. }
  assert (Hidu : User.id u = User.id reqUser).
  { apply find_some in Hu. destruct Hu as [_ E]. now apply Z.eqb_eq in E. }
  subst db'. repeat split; try assumption.
  - simpl. generalize (users db). intro l.
    induction l as [|a l IH]; simpl; constructor; [apply Hf | exact IH].
  - simpl. intros u' Hin Hne. apply in_map_iff in Hin.
    destruct Hin as [y [<- Hy]]. unfold f in *.
    destruct (User.id y =? User.id u) eqn:E; [|assumption].
    apply Z.eqb_eq in E. exfalso. apply Hne.
    destruct (Hf y) as [Hi _]. simpl. congruence.
  - intros env' body'. now apply refreshToken_same_outcome.
Qed.

Lemma updatePassword_keeps_refresh_tokens_witness :
  refreshTokens
    (snd (UserAuthController.updatePassword (rt := demoRuntime) anaEnv ana
            (passwordBody "secret1" "secret2") anaDb))
  = [anaToken].
Proof.
  refine (proj1 (proj2 (updatePassword_keeps_refresh_tokens (rt := demoRuntime)
                          anaEnv ana (passwordBody "secret1" "secret2") anaDb
                          (snd (UserAuthController.updatePassword (rt := demoRuntime)
                                  anaEnv ana (passwordBody "secret1" "secret2") anaDb))
                          200
                          (jsonOf (fst (UserAuthController.updatePassword
                                          (rt := demoRuntime) anaEnv ana
                                          (passwordBody "secret1" "secret2") anaDb)))
                          _))).
  vm_compute. reflexivity.
Defined.

(** ** The lifetime of the access tokens the routes hand out *)

Lemma yields_bind_ret {A B : Type} (Q : B -> Prop) (a : A) (k : A -> Tx B) :
  yields Q (k a) -> yields Q (bind (ret a) k).
Proof. intros Hk db b db' E. exact (Hk db b db' E). Qed.

Lemma hourToken_respond (status : Z) (json : list (string * Json)) :
  (forall tok, field "accessToken" json = Some (JToken tok) -> lifetime tok = 3600) ->
  hourToken (Respond status json).
Proof.
  intros H tok E. unfold accessTokenOf in E.
  destruct (field "accessToken" json) as [[| | | |tok'|]|] eqn:F; try discriminate E.
  inversion E; subst. now apply H.
Qed.

Section Lifetimes.
Context {rt : Runtime}.

Ltac hour_leaf :=
  first
    [ apply hourToken_error
    | apply hourToken_respond; let tok := fresh "tok" in let E := fresh "E" in
      intros tok E; cbn in E;
      first [discriminate E | inversion E; subst; unfold lifetime; cbn; lia] ].

Ltac hour_step :=
  lazymatch goal with
  | |- yields _ (bind (BaseController.signed
                         (BaseController.generateToken _ _ _ (Some "1h") None)) _) =>
      rewrite generateToken_1h;
      cbn [BaseController.signed BaseController.orThrow];
      apply yields_bind_ret
  | |- yields _ (bind _ _) => apply yields_bind; intro
  | |- yields _ (ret _) => apply yields_ret; cbn [finishOutcome]; hour_leaf
  | |- yields _ (commit _) => apply yields_ret; cbn [finishOutcome]; hour_leaf
  | |- yields _ (rollback _) => apply yields_ret; cbn [finishOutcome]; hour_leaf
  | |- yields _ (throw _) => apply yields_throw
  | |- yields _ (match ?x with _ => _ end) => destruct x
  end.

Ltac hour_handler :=
  cbv zeta; unfold BaseController.handleError;
  lazymatch goal with
  | |- hourToken (fst ((if ?b then _ else _) _)) =>
      destruct b; [apply hourToken_error | apply transaction_hourToken; repeat hour_step]
  | |- hourToken (fst (transaction _ _)) =>
      apply transaction_hourToken; repeat hour_step
  end.

Lemma hour_signup (env : Env) (body : Body.t) (db : Db) :
  hourToken (fst (UserAuthController.signup env body db)).
Proof. unfold UserAuthController.signup. hour_handler. Qed.

Lemma hour_verifyOTP (env : Env) (reqUser : User.t) (body : Body.t) (db : Db) :
  hourToken (fst (UserAuthController.verifyOTP env reqUser body db)).
Proof. unfold UserAuthController.verifyOTP. hour_handler. Qed.

Lemma hour_resendOtp (env : Env) (reqUser : User.t) (db : Db) :
  hourToken (fst (UserAuthController.resendOtp env reqUser db)).
Proof. unfold UserAuthController.resendOtp. hour_handler. Qed.

Lemma hour_login (env : Env) (body : Body.t) (db : Db) :
  hourToken (fst (UserAuthController.login env body db)).
Proof. unfold UserAuthController.login. hour_handler. Qed.

Lemma hour_forgotPassword (env : Env) (body : Body.t) (db : Db) :
  hourToken (fst (UserAuthController.forgotPassword env body db)).
Proof.
  unfold UserAuthController.forgotPassword, UserAuthController.genericResetReply.
  hour_handler.
Qed.

Lemma hour_resetPassword (env : Env) (body : Body.t) (db : Db) :
  hourToken (fst (UserAuthController.resetPassword env body db)).
Proof. unfold UserAuthController.resetPassword. hour_handler. Qed.

Lemma hour_logout (env : Env) (reqUser : User.t) (body : Body.t) (db : Db) :
  hourToken (fst (UserAuthController.logout env reqUser body db)).
Proof. unfold UserAuthController.logout. hour_handler. Qed.

Lemma hour_refreshToken (env : Env) (body : Body.t) (db : Db) :
  hourToken (fst (UserAuthController.refreshToken env body db)).
Proof. unfold UserAuthController.refreshToken. hour_handler. Qed.

Lemma hour_updatePassword (env : Env) (reqUser : User.t) (body : Body.t) (db : Db) :
  hourToken (fst (UserAuthController.updatePassword env reqUser body db)).
Proof. unfold UserAuthController.updatePassword. hour_handler. Qed.

Lemma hour_updateDetails (env : Env) (reqUser : User.t) (body : Body.t) (db : Db) :
  hourToken (fst (UserAuthController.updateDetails env reqUser body db)).
Proof. unfold UserAuthController.updateDetails. hour_handler. Qed.

Lemma hour_adminLogin (env : Env) (body : Body.t) (db : Db) :
  hourToken (fst (AdminAuthController.login env body db)).
Proof.
  unfold AdminAuthController.login. cbv zeta. unfold BaseController.handleError.
  destruct (negb _); [apply hourToken_error|].
  destruct (Sql.findOne _ (users db)) as [admin|].
  - destruct (negb (bcrypt_compare _ _)); [apply hourToken_error|].
    destruct (negb (User.isActive admin)); [apply hourToken_error|].
    apply transaction_hourToken; repeat hour_step.
  - destruct (_ && _); [|apply hourToken_error].
    destruct (AdminAuthController.createDummyAccount env db) as [dummy db1|msg];
      [|apply hourToken_error].
    apply transaction_hourToken; repeat hour_step.
Qed.

Lemma hour_adminRefreshToken (env : Env) (body : Body.t) (db : Db) :
  hourToken (fst (AdminAuthController.refreshToken env body db)).
Proof. unfold AdminAuthController.refreshToken. hour_handler. Qed.

Lemma hour_adminLogout (env : Env) (reqUser : User.t) (body : Body.t) (db : Db) :
  hourToken (fst (AdminAuthController.logout env reqUser body db)).
Proof. unfold AdminAuthController.logout. hour_handler. Qed.

Lemma hour_guarded (check : Db -> Outcome + User.t) (handler : User.t -> Handler)
  (db : Db) :
  (forall refused, check db = inl refused -> hourToken refused) ->
  (forall user, hourToken (fst (handler user db))) ->
  hourToken (fst (Middleware.guarded check handler db)).
Proof.
  intros Hc Hh. unfold Middleware.guarded.
  destruct (check db) as [refused|user] eqn:E; simpl; [now apply Hc | apply Hh].
Qed.

Lemma hour_denied (status : Z) (message : string) :
  hourToken (Middleware.denied status message).
Proof. unfold Middleware.denied. hour_leaf. Qed.

Lemma hour_isUser (env : Env) (auth : option Jwt.encoded) (path : string) (db : Db)
  (refused : Outcome) :
  Middleware.isUser env auth path db = inl refused -> hourToken refused.
Proof.
  unfold Middleware.isUser.
  repeat match goal with
         | |- context [match ?x with _ => _ end] => destruct x
         end;
    intro E; inversion E; subst; apply hour_denied.
Qed.

Lemma hour_isAdmin (env : Env) (auth : option Jwt.encoded) (db : Db)
  (refused : Outcome) :
  Middleware.isAdmin env auth db = inl refused -> hourToken refused.
Proof.
  unfold Middleware.isAdmin.
  repeat match goal with
         | |- context [match ?x with _ => _ end] => destruct x
         end;
    intro E; inversion E; subst; apply hour_denied.
Qed.

Lemma hour_serve (env : Env) (req : Request) (db : Db) :
  hourToken (fst (serve env req db)).
Proof.
  destruct req; cbv beta iota delta [serve];
    try (apply hour_guarded;
         [intros refused E;
          first [eapply hour_isUser; exact E | eapply hour_isAdmin; exact E]
         |intro]);
    auto using hour_signup, hour_verifyOTP, hour_resendOtp, hour_login,
      hour_forgotPassword, hour_resetPassword, hour_logout, hour_refreshToken,
      hour_updatePassword, hour_updateDetails, hour_adminLogin,
      hour_adminRefreshToken, hour_adminLogout.
Qed.

End Lifetimes.

(** C8, amended: with the duration left out [generateToken] signs a
    token that expires 365 days after it was issued; with '1h' the token
    expires one hour after it was issued, and every call site passes
    '1h', so every access token a route hands out lives one hour. *)
Theorem access_token_lifetimes {rt : Runtime} :
  (forall env id type validationCheck,
     exists tok,
       BaseController.generateToken env id type None validationCheck = Some tok /\
       Jwt.iat tok = now env / 1000 /\ lifetime tok = 365 * 86400) /\
  (forall env id type,
     exists tok,
       BaseController.generateToken env id type (Some "1h") None = Some tok /\
       Jwt.iat tok = now env / 1000 /\ lifetime tok = 3600) /\
  (forall env req db tok,
     accessTokenOf (fst (serve env req db)) = Some tok -> lifetime tok = 3600).
Proof.
  repeat split.
  - intros env id type validationCheck. eexists.
    split; [apply generateToken_default|]. split; [reflexivity|].
    unfold lifetime. simpl. lia.
  - intros env id type. eexists.
    split; [apply generateToken_1h|]. split; [reflexivity|].
    unfold lifetime. simpl. lia.
  - intros env req db. apply hour_serve.
Qed.

Lemma access_token_lifetimes_witness :
  lifetime (Jwt.mk (Jwt.Access 7 2 false) 60 3660 "your-secret-key") = 3600.
Proof.
  refine (proj2 (proj2 (access_token_lifetimes (rt := demoRuntime)))
            anaEnv (PostUserLogin (loginBody "a@x.com" "secret1")) anaDb _ _).
  vm_compute. reflexivity.
Defined.

(** ** The OTP route, [POST /verify-otp] *)

(** The two codes of an account that signed up and then logged in
    before verifying are both outstanding, and the route accepts the
    older one. *)
Example older_code_accepted_by_route :
  let db := serveAll (rt := demoRuntime)
              [(signupEnv, PostUserSignup signupBody);
               (loginEnv, PostUserLogin (loginBody "c@x.com" "secret1"))] emptyDb in
  map Otp.otp (filter (unusedOf 1) (otps db)) = ["000001"; "000002"] /\
  statusOf (fst (serve (rt := demoRuntime) verifyEnv
                   (PostUserVerifyOtp (Some (Jwt.Signed signupAccessToken))
                      (otpBody "000001")) db)) = 200.
Proof. vm_compute. split; reflexivity. Qed.

Section OtpRoute.
Context {rt : Runtime}.

(** On the route the failure of [verifyOtp] rolls the transaction back:
    an expired code is refused at every instant past its expiry, and
    the row is left as it was. *)
Lemma verifyOTP_expired_refused (env : Env) (reqUser : User.t) (body : Body.t)
  (db : Db) (code : string) (r : Otp.t) :
  Body.otp body = Some code -> code <> "" ->
  filter (outstanding (User.id reqUser) code) (otps db) = [r] ->
  Otp.expiresAt r < now env ->
  UserAuthController.verifyOTP env reqUser body db
  = (NextError "Invalid or expired OTP" 400, db).
Proof.
  intros Hb Hne Hsingle Hexp.
  destruct (single_outstanding_found _ _ _ _ Hsingle) as [Hfound _].
  unfold UserAuthController.verifyOTP. cbv zeta.
  rewrite Hb, (truthy_Some code Hne). cbn [negb Body.str].
  unfold transaction, bind, rollback, BaseController.handleError.
  cbv beta. rewrite verifyOtp_eq, Hfound.
  assert (Hlt : (Otp.expiresAt r <? now env) = true) by (apply Z.ltb_lt; lia).
  rewrite Hlt. reflexivity.
Qed.

(** On the route a code is accepted once: the request that presents
    the single unused code of the account is answered 200 and the same
    request sent again is refused. *)
Lemma verifyOTP_accepted_once (env : Env) (reqUser : User.t) (body : Body.t)
  (db : Db) (code : string) (r : Otp.t) (u : User.t) :
  Body.otp body = Some code -> code <> "" ->
  filter (unusedOf (User.id reqUser)) (otps db) = [r] ->
  Otp.otp r = code ->
  now env <= Otp.expiresAt r ->
  Sql.findOne (fun x => User.id x =? User.id reqUser) (users db) = Some u ->
  ~ In (Js.toHex (randomBytes40 env)) (map RefreshToken.token (refreshTokens db)) ->
  exists json db',
    UserAuthController.verifyOTP env reqUser body db = (Respond 200 json, db') /\
    forall env',
      UserAuthController.verifyOTP env' reqUser body db'
      = (NextError "Invalid or expired OTP" 400, db').
Proof.
  intros Hb Hne Hsingle <- Hfresh Hu Htok.
  apply single_unused_outstanding in Hsingle.
  destruct (single_outstanding_found _ _ _ _ Hsingle) as [Hfound [Hin Huniq]].
  pose proof (consumed_noOutstanding _ _ db r Huniq) as Hno.
  unfold UserAuthController.verifyOTP. cbv zeta.
  rewrite Hb, (truthy_Some _ Hne). cbn [negb Body.str].
  unfold transaction, bind, rollback, commit, BaseController.handleError.
  cbv beta. rewrite verifyOtp_eq, Hfound.
  assert (Hlt : (Otp.expiresAt r <? now env) = false) by (apply Z.ltb_ge; lia).
  rewrite Hlt. cbn [negb]. cbv beta iota.
  rewrite updateUser_eq by reflexivity. cbn [users withOtps]. rewrite Hu. cbv beta iota.
  rewrite generateToken_1h. cbn [BaseController.signed BaseController.orThrow].
  unfold ret at 1. cbv beta iota.
  rewrite generateRefreshToken_eq. cbv zeta. cbn [refreshTokens withUsers withOtps].
  destruct (existsb _ (refreshTokens db)) eqn:E;
    [apply existsb_token in E; contradiction|].
  unfold ret. cbv beta iota.
  eexists _, _. split; [reflexivity|].
  intro env'. rewrite verifyOtp_eq.
  cbn [otps withRefreshTokens withUsers withOtps].
  assert (Hnone : Sql.findNewest (outstanding (User.id reqUser) (Otp.otp r))
                    (map (fun x => if Otp.id x =? Otp.id r then Otp.use x else x)
                         (otps db)) = None).
  { apply findNewest_None. exact Hno. }
  rewrite Hnone. reflexivity.
Qed.

End OtpRoute.

(** C4: the account's unused row with the submitted code is past its
    expiry.  [verifyOtp] writes [isUsed] on that row and answers
    [false], but [verifyOTP], the one caller of [verifyOtp], answers
    that [false] with [transaction.rollback()]: the request gets
    "Invalid or expired OTP" (400) and the store is as it was, the row
    still unused.  The row is not burned; the code is refused again
    only for as long as the clock is past its expiry. *)
Theorem expired_otp_burn_rolled_back {rt : Runtime} (env : Env) (reqUser : User.t)
  (body : Body.t) (db : Db) (code : string) (r : Otp.t) :
  Body.otp body = Some code -> code <> "" ->
  filter (outstanding (User.id reqUser) code) (otps db) = [r] ->
  Otp.expiresAt r < now env ->
  (exists db1,
     BaseController.verifyOtp env (User.id reqUser) code db = Ok false db1 /\
     In (Otp.use r) (otps db1) /\
     forall x, In x (otps db1) -> Otp.id x = Otp.id r -> Otp.isUsed x = true) /\
  UserAuthController.verifyOTP env reqUser body db
  = (NextError "Invalid or expired OTP" 400, db) /\
  In r (otps db) /\ Otp.isUsed r = false /\
  forall env' : Env,
    now env' <= Otp.expiresAt r ->
    verifies env' (User.id reqUser) code
      (snd (UserAuthController.verifyOTP env reqUser body db)) = true.
Proof.
  intros Hb Hne Hsingle Hexpired.
  destruct (single_outstanding_found _ _ _ _ Hsingle) as [Hfound [Hin Huniq]].
  assert (Hr : outstanding (User.id reqUser) code r = true).
  { assert (Hf : In r (filter (outstanding (User.id reqUser) code) (otps db)))
      by (rewrite Hsingle; now left).
    apply filter_In in Hf. now destruct Hf. }
  pose proof (verifyOTP_expired_refused env reqUser body db code r Hb Hne Hsingle
                Hexpired) as Hroute.
  split; [|split; [exact Hroute|split; [exact Hin|split]]].
  - rewrite verifyOtp_eq, Hfound.
    assert (Hlt : (Otp.expiresAt r <? now env) = true) by (apply Z.ltb_lt; lia).
    rewrite Hlt. cbn [negb]. eexists. split; [reflexivity|].
    destruct (useRow_effect (otps db) r Hin) as [Hused [Hid _]].
    split; assumption.
  - unfold outstanding, unusedOf in Hr.
    apply andb_prop in Hr. destruct Hr as [Hr _].
    apply andb_prop in Hr. destruct Hr as [_ Hr]. now apply negb_true_iff in Hr.
  - intros env' Hearly. rewrite Hroute. cbn [snd].
    unfold verifies. rewrite verifyOtp_eq, Hfound.
    assert (Hlt : (Otp.expiresAt r <? now env') = false) by (apply Z.ltb_ge; lia).
    now rewrite Hlt.
Qed.

(** The request of account 8 with its expired code "424242", through
    [isUser] and the handler: refused, and the row is in the store as
    it was, unused. *)
Lemma expired_otp_burn_rolled_back_witness :
  serve (rt := demoRuntime) (envAt 400000)
    (PostUserVerifyOtp (Some (Jwt.Signed bobAccessToken)) (otpBody "424242")) bobCodeDb
  = (NextError "Invalid or expired OTP" 400, bobCodeDb) /\
  otps bobCodeDb = [bobCode] /\ Otp.isUsed bobCode = false /\
  verifies (envAt 200000) 8 "424242" bobCodeDb = true.
Proof.
  pose proof (expired_otp_burn_rolled_back (rt := demoRuntime) (envAt 400000) bob
                (otpBody "424242") bobCodeDb "424242" bobCode eq_refl
                ltac:(discriminate) eq_refl ltac:(simpl; lia))
    as [_ [Hroute [_ [Hunused Hlater]]]].
  split; [|split; [reflexivity|split; [exact Hunused|]]].
  - transitivity (UserAuthController.verifyOTP (rt := demoRuntime) (envAt 400000) bob
                    (otpBody "424242") bobCodeDb); [reflexivity | exact Hroute].
  - specialize (Hlater (envAt 200000) ltac:(simpl; lia)).
    rewrite Hroute in Hlater. exact Hlater.
Defined.

(** ** Reachable databases *)

(** The unique index holds in every database the routes can build from
    an empty one, so the hypothesis [wfTokens] of the theorems above is
    met wherever the service has run. *)
Lemma reachable_wfTokens {rt : Runtime} (trace : list (Env * Request)) :
  wfTokens (serveAll trace emptyDb).
Proof. apply wfTokens_serveAll. constructor. Qed.

(** * Further properties of the session code *)

(** ** Refresh tokens: lookup, issue, revoke *)

Lemma freshId_above (ids : list Z) (i : Z) : In i ids -> i < freshId ids.
Proof.
  unfold freshId. induction ids as [|a ids IH]; cbn [fold_right In]; [intros []|].
  intros [->|Hin]; [lia | specialize (IH Hin); lia].
Qed.

Lemma freshId_fresh (ids : list Z) : ~ In (freshId ids) ids.
Proof. intro H. apply freshId_above in H. lia. Qed.

Lemma find_unique {A : Type} (f : A -> bool) (l : list A) (x : A) :
  In x l -> f x = true -> (forall y, In y l -> f y = true -> y = x) ->
  find f l = Some x.
Proof.
  intros Hin Hf Huniq.
  destruct (find f l) as [y|] eqn:E.
  - apply find_some in E. destruct E as [Hy Hfy]. f_equal. now apply Huniq.
  - pose proof (find_none _ _ E x Hin). congruence.
Qed.

Lemma map_id_when {A : Type} (p : A -> bool) (g : A -> A) (l : list A) :
  (forall x, In x l -> p x = false) ->
  map (fun x => if p x then g x else x) l = l.
Proof.
  induction l as [|a l IH]; intro H; simpl; [reflexivity|].
  rewrite (H a) by (left; reflexivity). f_equal. apply IH.
  intros x Hx. apply H. now right.
Qed.

Lemma filter_nil_when {A : Type} (p : A -> bool) (l : list A) :
  (forall x, In x l -> p x = false) -> filter p l = [].
Proof.
  induction l as [|a l IH]; intro H; simpl; [reflexivity|].
  rewrite (H a) by (left; reflexivity). apply IH.
  intros x Hx. apply H. now right.
Qed.

Lemma withRefreshTokens_same (db : Db) : withRefreshTokens (refreshTokens db) db = db.
Proof. now destruct db. Qed.

Lemma withOtps_same (db : Db) : withOtps (otps db) db = db.
Proof. now destruct db. Qed.

Lemma withUsers_same (db : Db) : withUsers (users db) db = db.
Proof. now destruct db. Qed.

(** X1: while token strings are unique, [verifyRefreshToken] returns a
    row exactly when that row is stored with the presented string, is
    not revoked and is not past its expiry; it never writes. *)
Theorem verifyRefreshToken_exact (env : Env) (t : string) (db : Db)
  (doc : RefreshToken.t) :
  wfTokens db ->
  (BaseController.verifyRefreshToken env t db = Ok (Some doc) db <->
   In doc (refreshTokens db) /\ RefreshToken.token doc = t /\
   RefreshToken.isRevoked doc = false /\ now env <= RefreshToken.expiresAt doc) /\
  exists found, BaseController.verifyRefreshToken env t db = Ok found db.
Proof.
  intro Hwf. rewrite verifyRefreshToken_eq. split; [|eauto]. split.
  - destruct (Sql.findOne _ (refreshTokens db)) as [d|] eqn:E; [|discriminate].
    destruct (RefreshToken.expiresAt d <? now env) eqn:Eexp; [discriminate|].
    intro H. inversion H; subst d.
    apply find_some in E. destruct E as [Hin Hw].
    apply andb_prop in Hw. destruct Hw as [Ht Hr].
    apply String.eqb_eq in Ht. apply negb_true_iff in Hr. apply Z.ltb_ge in Eexp.
    auto.
  - intros [Hin [Ht [Hr Hexp]]].
    unfold Sql.findOne. rewrite (find_unique _ _ doc Hin).
    + assert (E : (RefreshToken.expiresAt doc <? now env) = false)
        by (apply Z.ltb_ge; lia).
      now rewrite E.
    + rewrite Ht, String.eqb_refl, Hr. reflexivity.
    + intros y Hy Hw. apply andb_prop in Hw. destruct Hw as [Hyt _].
      apply String.eqb_eq in Hyt.
      apply (token_unique (refreshTokens db)); [exact Hwf | | | congruence];
        assumption.
Qed.

Lemma verifyRefreshToken_exact_witness :
  BaseController.verifyRefreshToken anaEnv "c0ffee" anaDb = Ok (Some anaToken) anaDb.
Proof.
  refine (proj2 (proj1 (verifyRefreshToken_exact anaEnv "c0ffee" anaDb anaToken _)) _).
  - unfold wfTokens. simpl. constructor; [intros []| constructor].
  - repeat split; [left; reflexivity | simpl; lia].
Defined.

(** Where no clock change bears on the span, the calendar arithmetic of
    [setDate] and [setMinutes] adds the span to the instant. *)
Lemma addDays_steady {rt : Runtime} (t days : Z) :
  steadyZone t (days * 86400000) -> JsDate.addDays t days = t + days * 86400000.
Proof.
  unfold steadyZone, JsDate.addDays, JsDate.UTC, JsDate.msPerDay. intros ->.
  unfold JsDate.LocalTime. lia.
Qed.

Lemma addMinutes_steady {rt : Runtime} (t minutes : Z) :
  steadyZone t (minutes * 60000) -> JsDate.addMinutes t minutes = t + minutes * 60000.
Proof.
  unfold steadyZone, JsDate.addMinutes, JsDate.UTC, JsDate.msPerMinute. intros ->.
  unfold JsDate.LocalTime. lia.
Qed.

(** Across the end of daylight saving time seven calendar days are an
    hour more than seven times 24 hours, and in the hour that comes
    twice [setMinutes] can move a date backwards. *)
Example addDays_across_clock_change :
  JsDate.addDays (rt := fallBackRuntime) 0 7 = 604800000 + 3600000.
Proof. reflexivity. Qed.

Example addMinutes_in_repeated_hour :
  JsDate.addMinutes (rt := fallBackRuntime) 9000000 5 = 9000000 - 3300000.
Proof. reflexivity. Qed.

(** X2: the string [generateRefreshToken] returns verifies, as the row
    just stored for that account, at every instant up to the expiry
    that [setDate(getDate() + 7)] gave the row and at no later one;
    where no clock change of the process's time zone bears on those
    seven days, the expiry is 604800000 milliseconds after the issue. *)
Theorem generateRefreshToken_then_verify {rt : Runtime} (env : Env) (userId : Z)
  (db db' : Db) (t : string) :
  BaseController.generateRefreshToken env userId None db = Ok t db' ->
  refreshTokens db' = (refreshTokens db ++ [issuedRow env userId db])%list /\
  RefreshToken.token (issuedRow env userId db) = t /\
  RefreshToken.userId (issuedRow env userId db) = userId /\
  (forall env',
     BaseController.verifyRefreshToken env' t db'
     = Ok (if now env' <=? JsDate.addDays (now env) 7
           then Some (issuedRow env userId db) else None) db') /\
  (steadyZone (now env) 604800000 ->
   RefreshToken.expiresAt (issuedRow env userId db) = now env + 604800000).
Proof.
  rewrite generateRefreshToken_eq. cbv zeta.
  destruct (existsb _ (refreshTokens db)) eqn:Ex; [discriminate|].
  intro H. inversion H; subst; clear H.
  split; [reflexivity|]. split; [reflexivity|]. split; [reflexivity|]. split.
  - intro env'.
    rewrite verifyRefreshToken_eq. cbn [refreshTokens withRefreshTokens].
    unfold Sql.findOne. rewrite find_app_none.
    + cbn [find]. fold (issuedRow env userId db).
      change (RefreshToken.token (issuedRow env userId db))
        with (Js.toHex (randomBytes40 env)).
      change (RefreshToken.isRevoked (issuedRow env userId db)) with false.
      change (RefreshToken.expiresAt (issuedRow env userId db))
        with (JsDate.addDays (now env) 7).
      rewrite String.eqb_refl. cbn [negb andb].
      rewrite Z.leb_antisym.
      change (RefreshToken.expiresAt (issuedRow env userId db))
        with (JsDate.addDays (now env) 7).
      now destruct (JsDate.addDays (now env) 7 <? now env').
    + apply find_none_iff. intros r Hr.
      destruct (RefreshToken.token r =? Js.toHex (randomBytes40 env))%string eqn:E;
        [|reflexivity].
      exfalso. assert (Hex : existsb (fun r => (RefreshToken.token r
                                                =? Js.toHex (randomBytes40 env))%string)
                                     (refreshTokens db) = true).
      { apply existsb_exists. eauto. }
      congruence.
  - intro Hsteady.
    change (RefreshToken.expiresAt (issuedRow env userId db))
      with (JsDate.addDays (now env) 7).
    now rewrite (addDays_steady (now env) 7 Hsteady).
Qed.

Lemma generateRefreshToken_then_verify_witness :
  BaseController.verifyRefreshToken verifyEnv "0a0b"
    (withRefreshTokens
       (refreshTokens anaDb ++ [issuedRow (rt := demoRuntime) anaEnv 7 anaDb]) anaDb)
  = Ok (Some (issuedRow (rt := demoRuntime) anaEnv 7 anaDb))
       (withRefreshTokens
          (refreshTokens anaDb ++ [issuedRow (rt := demoRuntime) anaEnv 7 anaDb]) anaDb)
  /\ RefreshToken.expiresAt (issuedRow (rt := demoRuntime) anaEnv 7 anaDb)
     = now anaEnv + 604800000.
Proof.
  pose proof (generateRefreshToken_then_verify (rt := demoRuntime) anaEnv 7 anaDb _
                "0a0b" eq_refl) as [_ [_ [_ [Hverify Hweek]]]].
  split; [exact (Hverify verifyEnv) | apply Hweek; reflexivity].
Defined.

Lemma refreshId_unique (rows : list RefreshToken.t) (x y : RefreshToken.t) :
  NoDup (map RefreshToken.id rows) -> In x rows -> In y rows ->
  RefreshToken.id x = RefreshToken.id y -> x = y.
Proof.
  induction rows as [|a rows IH]; intros Hnd Hx Hy E; [contradiction|].
  simpl in Hnd. inversion Hnd as [|? ? Hnotin Hnd']; subst.
  destruct Hx as [->|Hx], Hy as [->|Hy].
  - reflexivity.
  - exfalso. apply Hnotin. rewrite E. now apply in_map.
  - exfalso. apply Hnotin. rewrite <- E. now apply in_map.
  - now apply IH.
Qed.

Lemma revoke_twice (p : RefreshToken.t -> bool) (rows : list RefreshToken.t) :
  (forall r, p (RefreshToken.revoke r) = p r) ->
  map (fun r => if p r then RefreshToken.revoke r else r)
      (map (fun r => if p r then RefreshToken.revoke r else r) rows)
  = map (fun r => if p r then RefreshToken.revoke r else r) rows.
Proof.
  intro Hp. rewrite map_map. apply map_ext. intro r.
  destruct (p r) eqn:E; [|now rewrite E].
  now rewrite Hp, E.
Qed.

Lemma revokeRefreshToken_rows (t : string) (db : Db) :
  NoDup (map RefreshToken.token (refreshTokens db)) ->
  NoDup (map RefreshToken.id (refreshTokens db)) ->
  exists found,
    BaseController.revokeRefreshToken t db
    = Ok found
         (withRefreshTokens
            (map (fun r => if (RefreshToken.token r =? t)%string
                           then RefreshToken.revoke r else r) (refreshTokens db)) db) /\
    (found = true <-> In t (map RefreshToken.token (refreshTokens db))).
Proof.
  intros Hwf Hids. rewrite revokeRefreshToken_eq.
  destruct (Sql.findOne _ (refreshTokens db)) as [first|] eqn:Ef.
  - exists true. apply find_some in Ef. destruct Ef as [Hin Ht].
    apply String.eqb_eq in Ht. split.
    + do 2 f_equal. apply map_ext_in. intros x Hx.
      destruct (RefreshToken.id x =? RefreshToken.id first) eqn:E1.
      * apply Z.eqb_eq in E1.
        assert (x = first) by (now apply (refreshId_unique (refreshTokens db))).
        subst x. now rewrite Ht, String.eqb_refl.
      * destruct (RefreshToken.token x =? t)%string eqn:E2; [|reflexivity].
        apply String.eqb_eq in E2.
        assert (x = first)
          by (apply (token_unique (refreshTokens db));
              [exact Hwf | assumption | assumption | congruence]).
        subst x. now rewrite Z.eqb_refl in E1.
    + split; [|reflexivity]. intros _. rewrite <- Ht. now apply in_map.
  - exists false. pose proof (find_none _ _ Ef) as Hn. split.
    + rewrite map_id_when by exact Hn. now rewrite withRefreshTokens_same.
    + split; [discriminate|].
      intro Hin. apply in_map_iff in Hin. destruct Hin as [r [Hr Hrin]].
      specialize (Hn r Hrin). cbv beta in Hn. rewrite Hr, String.eqb_refl in Hn.
      discriminate Hn.
Qed.

(** X3: while token strings and primary keys are unique,
    [revokeRefreshToken] answers whether the string is stored, revokes
    the row that carries it and no other, leaves the other tables
    alone, makes the string fail [verifyRefreshToken] at every instant,
    and changes nothing when it is called again. *)
Theorem revokeRefreshToken_effect (t : string) (db : Db) :
  wfTokens db -> wfIds db ->
  exists found db',
    BaseController.revokeRefreshToken t db = Ok found db' /\
    (found = true <-> In t (map RefreshToken.token (refreshTokens db))) /\
    refreshTokens db' =
      map (fun r => if (RefreshToken.token r =? t)%string
                    then RefreshToken.revoke r else r) (refreshTokens db) /\
    users db' = users db /\ otps db' = otps db /\
    (forall env', BaseController.verifyRefreshToken env' t db' = Ok None db') /\
    BaseController.revokeRefreshToken t db' = Ok found db'.
Proof.
  intros Hwf [_ [Hids _]].
  destruct (revokeRefreshToken_rows t db Hwf Hids) as [found [Hrun Hfound]].
  set (F := fun r => if (RefreshToken.token r =? t)%string
                     then RefreshToken.revoke r else r) in *.
  exists found, (withRefreshTokens (map F (refreshTokens db)) db).
  split; [exact Hrun|]. split; [exact Hfound|].
  cbn [refreshTokens users otps withRefreshTokens]. repeat split.
  - intro env'. rewrite verifyRefreshToken_eq. cbn [refreshTokens withRefreshTokens].
    assert (Hnone : Sql.findOne (fun r => (RefreshToken.token r =? t)%string
                                          && negb (RefreshToken.isRevoked r))
                                (map F (refreshTokens db)) = None).
    { apply find_none_iff. intros r Hr. apply in_map_iff in Hr.
      destruct Hr as [y [<- _]]. unfold F.
      destruct (RefreshToken.token y =? t)%string eqn:E; simpl.
      - now rewrite andb_false_r.
      - now rewrite E. }
    now rewrite Hnone.
  - destruct (revokeRefreshToken_rows t
                (withRefreshTokens (map F (refreshTokens db)) db))
      as [found' [Hrun' Hfound']].
    + cbn [refreshTokens withRefreshTokens]. unfold F. now rewrite tokens_revoked.
    + cbn [refreshTokens withRefreshTokens]. unfold F. now rewrite ids_revoked.
    + cbn [refreshTokens withRefreshTokens] in Hrun', Hfound'.
      unfold F in Hfound'. rewrite tokens_revoked in Hfound'.
      assert (found' = found).
      { destruct found, found'; try reflexivity.
        - apply (proj2 Hfound'), (proj1 Hfound). reflexivity.
        - symmetry. apply (proj2 Hfound), (proj1 Hfound'). reflexivity. }
      subst found'. rewrite Hrun'. f_equal.
      unfold F. rewrite revoke_twice by reflexivity.
      now destruct db.
Qed.

Lemma revokeRefreshToken_effect_witness :
  exists found db',
    BaseController.revokeRefreshToken "c0ffee" anaDb = Ok found db' /\
    (found = true <-> In "c0ffee" (map RefreshToken.token (refreshTokens anaDb))) /\
    refreshTokens db' =
      map (fun r => if (RefreshToken.token r =? "c0ffee")%string
                    then RefreshToken.revoke r else r) (refreshTokens anaDb) /\
    users db' = users anaDb /\ otps db' = otps anaDb /\
    (forall env', BaseController.verifyRefreshToken env' "c0ffee" db' = Ok None db') /\
    BaseController.revokeRefreshToken "c0ffee" db' = Ok found db'.
Proof.
  apply (revokeRefreshToken_effect "c0ffee" anaDb).
  - unfold wfTokens. simpl. constructor; [intros []| constructor].
  - unfold wfIds. simpl. repeat split; repeat constructor; intros [].
Defined.

Lemma revokeAllUserRefreshTokens_count (userId : Z) (db : Db) :
  BaseController.revokeAllUserRefreshTokens userId db
  = Ok (Z.of_nat (List.length (filter (liveOf userId) (refreshTokens db))))
       (withRefreshTokens
          (map (fun r => if liveOf userId r then RefreshToken.revoke r else r)
               (refreshTokens db)) db).
Proof. reflexivity. Qed.

(** X4: [revokeAllUserRefreshTokens] returns how many unrevoked rows
    the account had, leaves every row of the account revoked and every
    other row as it was, and a second call affects no row. *)
Theorem revokeAllUserRefreshTokens_effect (userId : Z) (db : Db) :
  exists db',
    BaseController.revokeAllUserRefreshTokens userId db
    = Ok (Z.of_nat (List.length (filter (liveOf userId) (refreshTokens db)))) db' /\
    (forall r, In r (refreshTokens db') -> RefreshToken.userId r = userId ->
               RefreshToken.isRevoked r = true) /\
    (forall r, RefreshToken.userId r <> userId ->
               (In r (refreshTokens db') <-> In r (refreshTokens db))) /\
    map RefreshToken.token (refreshTokens db') = map RefreshToken.token (refreshTokens db) /\
    users db' = users db /\ otps db' = otps db /\
    BaseController.revokeAllUserRefreshTokens userId db' = Ok 0 db'.
Proof.
  rewrite revokeAllUserRefreshTokens_count. eexists. split; [reflexivity|].
  cbn [refreshTokens users otps withRefreshTokens].
  assert (Hnone : forall x,
             In x (map (fun r => if liveOf userId r then RefreshToken.revoke r else r)
                       (refreshTokens db)) -> liveOf userId x = false).
  { intros x Hx. apply in_map_iff in Hx. destruct Hx as [y [<- _]].
    destruct (liveOf userId y) eqn:E; [|exact E].
    unfold liveOf. simpl. now rewrite andb_false_r. }
  repeat split.
  - intros r Hr Hu. specialize (Hnone r Hr). unfold liveOf in Hnone.
    rewrite Hu, Z.eqb_refl in Hnone. simpl in Hnone.
    now apply negb_false_iff in Hnone.
  - intro Hr. apply in_map_iff in Hr. destruct Hr as [y [Hy Hyin]].
    destruct (liveOf userId y) eqn:E; [|now subst].
    exfalso. subst r. simpl in H. unfold liveOf in E.
    apply andb_prop in E. destruct E as [E _]. apply Z.eqb_eq in E. contradiction.
  - intro Hr. apply in_map_iff. exists r. split; [|assumption].
    unfold liveOf. apply Z.eqb_neq in H. now rewrite H.
  - apply tokens_revoked.
  - rewrite revokeAllUserRefreshTokens_count.
    cbn [refreshTokens withRefreshTokens].
    rewrite (filter_nil_when _ _ Hnone), (map_id_when _ _ _ Hnone).
    destruct db; reflexivity.
Qed.

(** ** Access tokens and the two gates *)

Section Tokens.
Context {rt : Runtime}.

Lemma verifyToken_wrong_kind_user (env : Env) (token : Jwt.encoded) (path : string)
  (db : Db) (userId : Z) (email : string) :
  BaseController.verifyToken env token = Some (Jwt.PasswordReset userId email) ->
  Middleware.isUser env (Some token) path db
  = inl (Middleware.denied 403 "Access denied. User only").
Proof. intro H. unfold Middleware.isUser. now rewrite H. Qed.

End Tokens.

(** X5: a token of [generateToken] with '1h' verifies to its payload at
    every instant whose second lies less than 3600 after the second of
    issue and throws from then on; a token of
    [generatePasswordResetToken] with '15m' does so for 900 seconds; a
    token signed with another secret never verifies. *)
Theorem token_round_trip {rt : Runtime} (env env' : Env) (id type : Z)
  (email : string) :
  (exists tok,
     BaseController.generateToken env id type (Some "1h") None = Some tok /\
     BaseController.verifyToken env' (Jwt.Signed tok)
     = if now env' / 1000 <? now env / 1000 + 3600
       then Some (Jwt.Access id type false) else None) /\
  (exists tok,
     BaseController.generatePasswordResetToken env id email (Some "15m") = Some tok /\
     BaseController.verifyToken env' (Jwt.Signed tok)
     = if now env' / 1000 <? now env / 1000 + 900
       then Some (Jwt.PasswordReset id email) else None) /\
  (forall tok, Jwt.key tok <> BaseController.secret ->
               BaseController.verifyToken env' (Jwt.Signed tok) = None).
Proof.
  repeat split.
  - eexists. split; [apply generateToken_1h|].
    unfold BaseController.verifyToken, Jwt.verify. cbn [Jwt.key Jwt.exp Jwt.claims].
    now rewrite String.eqb_refl.
  - eexists. split; [apply generatePasswordResetToken_15m|].
    unfold BaseController.verifyToken, Jwt.verify. cbn [Jwt.key Jwt.exp Jwt.claims].
    now rewrite String.eqb_refl.
  - intros tok Hkey. unfold BaseController.verifyToken, Jwt.verify.
    apply String.eqb_neq in Hkey. now rewrite Hkey.
Qed.

Lemma token_round_trip_witness :
  BaseController.verifyToken (rt := demoRuntime) verifyEnv
    (Jwt.Signed (Jwt.mk (Jwt.Access 7 2 false) 0 3600 "forged-key")) = None.
Proof.
  refine (proj2 (proj2 (token_round_trip (rt := demoRuntime) signupEnv verifyEnv 7 2
                          "a@x.com")) _ _).
  discriminate.
Defined.

(** X6: the two kinds of token do not stand in for one another.  A
    token that verifies as a password-reset token is refused with 403 by
    both gates on every path; a token that verifies as an access token
    is refused by the reset route with "Invalid or expired token" (400)
    and the database is left as it was. *)
Theorem token_kinds_are_separate {rt : Runtime} (env : Env) (token : Jwt.encoded)
  (db : Db) :
  (forall userId email path,
     BaseController.verifyToken env token = Some (Jwt.PasswordReset userId email) ->
     Middleware.isUser env (Some token) path db
     = inl (Middleware.denied 403 "Access denied. User only") /\
     Middleware.isAdmin env (Some token) db
     = inl (Middleware.denied 403 "Access denied. Admin only")) /\
  (forall id type validationCheck body,
     BaseController.verifyToken env token = Some (Jwt.Access id type validationCheck) ->
     Body.token body = Some token ->
     UserAuthController.resetPassword env body db
     = (NextError "Invalid or expired token" 400, db) \/
     UserAuthController.resetPassword env body db
     = (NextError "Token and new password required" 400, db)).
Proof.
  split.
  - intros userId email path H. split.
    + now apply verifyToken_wrong_kind_user with (userId := userId) (email := email).
    + unfold Middleware.isAdmin. now rewrite H.
  - intros id type validationCheck body H Hb.
    unfold UserAuthController.resetPassword. cbv zeta.
    destruct (negb (BaseController.validateFields body ["token"; "newPassword"]));
      [right; reflexivity|].
    left. unfold UserAuthController.decodeResetToken. rewrite Hb, H. reflexivity.
Qed.

Lemma token_kinds_are_separate_witness :
  Middleware.isUser (rt := demoRuntime) anaEnv (Some (Jwt.Signed anaResetToken))
    "/logout" anaDb
  = inl (Middleware.denied 403 "Access denied. User only").
Proof.
  exact (proj1 (proj1 (token_kinds_are_separate (rt := demoRuntime) anaEnv
                         (Jwt.Signed anaResetToken) anaDb)
                  7 "a@x.com" "/logout" eq_refl)).
Defined.

(** X7: whoever [isUser] lets through is an account of the store with
    the user role, named by an access token of type user that verifies,
    and is active unless the path is one of the two OTP paths; whoever
    [isAdmin] lets through is an active account of the store with the
    admin role. *)
Theorem gates_let_through {rt : Runtime} (env : Env) (authorization : option Jwt.encoded)
  (path : string) (db : Db) (user : User.t) :
  (Middleware.isUser env authorization path db = inr user ->
   In user (users db) /\ User.roleId user = 2 /\
   (exists token validationCheck,
      authorization = Some token /\
      BaseController.verifyToken env token
      = Some (Jwt.Access (User.id user) 2 validationCheck)) /\
   (User.isActive user = true \/ path = "/verify-otp" \/ path = "/resend-otp")) /\
  (Middleware.isAdmin env authorization db = inr user ->
   In user (users db) /\ User.roleId user = 1 /\ User.isActive user = true /\
   exists token validationCheck,
     authorization = Some token /\
     BaseController.verifyToken env token
     = Some (Jwt.Access (User.id user) 1 validationCheck)).
Proof.
  split.
  - unfold Middleware.isUser.
    destruct authorization as [token|]; [|discriminate].
    destruct (BaseController.verifyToken env token) as [[id type vc|]|] eqn:Ev;
      try discriminate.
    destruct (negb (type =? BaseController.userTypes_user)) eqn:Et; [discriminate|].
    apply negb_false_iff, Z.eqb_eq in Et. subst type.
    destruct (Sql.findOne _ (users db)) as [u|] eqn:Eu; [|discriminate].
    apply find_some in Eu. destruct Eu as [Hin Hw].
    apply andb_prop in Hw. destruct Hw as [Hid Hrole].
    apply Z.eqb_eq in Hid. apply Z.eqb_eq in Hrole.
    destruct ((path =? "/verify-otp")%string || (path =? "/resend-otp")%string) eqn:Ep.
    + intro H. inversion H; subst u. repeat split; try assumption.
      * exists token, vc. split; [reflexivity|]. now rewrite Hid.
      * right. apply orb_prop in Ep.
        destruct Ep as [Ep|Ep]; apply String.eqb_eq in Ep; auto.
    + destruct (negb (User.isActive u)) eqn:Ea; [discriminate|].
      intro H. inversion H; subst u. repeat split; try assumption.
      * exists token, vc. split; [reflexivity|]. now rewrite Hid.
      * left. now apply negb_false_iff in Ea.
  - unfold Middleware.isAdmin.
    destruct authorization as [token|]; [|discriminate].
    destruct (BaseController.verifyToken env token) as [[id type vc|]|] eqn:Ev;
      try discriminate.
    destruct (negb (type =? 1)) eqn:Et; [discriminate|].
    apply negb_false_iff, Z.eqb_eq in Et. subst type.
    destruct (Sql.findOne _ (users db)) as [u|] eqn:Eu; [|discriminate].
    apply find_some in Eu. destruct Eu as [Hin Hw].
    apply andb_prop in Hw. destruct Hw as [Hid Hrole].
    apply Z.eqb_eq in Hid. apply Z.eqb_eq in Hrole.
    destruct (negb (User.isActive u)) eqn:Ea; [discriminate|].
    intro H. inversion H; subst u. repeat split; try assumption.
    + now apply negb_false_iff in Ea.
    + exists token, vc. split; [reflexivity|]. now rewrite Hid.
Qed.

Lemma gates_let_through_witness :
  In bob (users bobDb) /\ User.roleId bob = 2 /\
  (exists token validationCheck,
     Some (Jwt.Signed (Jwt.mk (Jwt.Access 8 2 false) 0 3600 "your-secret-key"))
     = Some token /\
     BaseController.verifyToken (rt := demoRuntime) anaEnv token
     = Some (Jwt.Access (User.id bob) 2 validationCheck)) /\
  (User.isActive bob = true \/ "/verify-otp" = "/verify-otp" \/
   "/verify-otp" = "/resend-otp").
Proof.
  exact (proj1 (gates_let_through (rt := demoRuntime) anaEnv
                  (Some (Jwt.Signed (Jwt.mk (Jwt.Access 8 2 false) 0 3600
                                            "your-secret-key")))
                  "/verify-otp" bobDb bob) eq_refl).
Defined.



(** ** Transactions: what a refused request leaves behind *)

Lemma transaction_rolls_back (body : Tx Finish) (db : Db) :
  yields commitsServed body ->
  ~ served (fst (transaction body db)) -> snd (transaction body db) = db.
Proof.
  intros Hy. unfold transaction.
  destruct (body db) as [[o|o] db'|msg] eqn:E; simpl; intro Hn; try reflexivity.
  exfalso. apply Hn. exact (Hy _ _ _ E).
Qed.

Section Quiet.
Context {rt : Runtime}.

Ltac served_leaf :=
  cbn [commitsServed];
  first [exact I | left; reflexivity | right; reflexivity].

Ltac served_step :=
  lazymatch goal with
  | |- yields _ (bind _ _) => apply yields_bind; intro
  | |- yields _ (ret _) => apply yields_ret; served_leaf
  | |- yields _ (commit _) => apply yields_ret; served_leaf
  | |- yields _ (rollback _) => apply yields_ret; served_leaf
  | |- yields _ (throw _) => apply yields_throw
  | |- yields _ (match ?x with _ => _ end) => destruct x
  end.

Ltac quiet_handler :=
  cbv zeta; unfold UserAuthController.genericResetReply;
  lazymatch goal with
  | |- _ -> snd ((if ?b then _ else _) _) = _ =>
      destruct b; [reflexivity | apply transaction_rolls_back; repeat served_step]
  | |- _ -> snd (transaction _ _) = _ =>
      apply transaction_rolls_back; repeat served_step
  end.

Lemma quiet_signup (env : Env) (body : Body.t) (db : Db) :
  ~ served (fst (UserAuthController.signup env body db)) ->
  snd (UserAuthController.signup env body db) = db.
Proof. unfold UserAuthController.signup. quiet_handler. Qed.

Lemma quiet_verifyOTP (env : Env) (reqUser : User.t) (body : Body.t) (db : Db) :
  ~ served (fst (UserAuthController.verifyOTP env reqUser body db)) ->
  snd (UserAuthController.verifyOTP env reqUser body db) = db.
Proof. unfold UserAuthController.verifyOTP. quiet_handler. Qed.

Lemma quiet_resendOtp (env : Env) (reqUser : User.t) (db : Db) :
  ~ served (fst (UserAuthController.resendOtp env reqUser db)) ->
  snd (UserAuthController.resendOtp env reqUser db) = db.
Proof. unfold UserAuthController.resendOtp. quiet_handler. Qed.

Lemma quiet_login (env : Env) (body : Body.t) (db : Db) :
  ~ served (fst (UserAuthController.login env body db)) ->
  snd (UserAuthController.login env body db) = db.
Proof. unfold UserAuthController.login. quiet_handler. Qed.

Lemma quiet_forgotPassword (env : Env) (body : Body.t) (db : Db) :
  ~ served (fst (UserAuthController.forgotPassword env body db)) ->
  snd (UserAuthController.forgotPassword env body db) = db.
Proof. unfold UserAuthController.forgotPassword. quiet_handler. Qed.

Lemma quiet_resetPassword (env : Env) (body : Body.t) (db : Db) :
  ~ served (fst (UserAuthController.resetPassword env body db)) ->
  snd (UserAuthController.resetPassword env body db) = db.
Proof. unfold UserAuthController.resetPassword. quiet_handler. Qed.

Lemma quiet_logout (env : Env) (reqUser : User.t) (body : Body.t) (db : Db) :
  ~ served (fst (UserAuthController.logout env reqUser body db)) ->
  snd (UserAuthController.logout env reqUser body db) = db.
Proof. unfold UserAuthController.logout. quiet_handler. Qed.

Lemma quiet_refreshToken (env : Env) (body : Body.t) (db : Db) :
  ~ served (fst (UserAuthController.refreshToken env body db)) ->
  snd (UserAuthController.refreshToken env body db) = db.
Proof. unfold UserAuthController.refreshToken. quiet_handler. Qed.

Lemma quiet_updatePassword (env : Env) (reqUser : User.t) (body : Body.t) (db : Db) :
  ~ served (fst (UserAuthController.updatePassword env reqUser body db)) ->
  snd (UserAuthController.updatePassword env reqUser body db) = db.
Proof. unfold UserAuthController.updatePassword. quiet_handler. Qed.

Lemma quiet_updateDetails (env : Env) (reqUser : User.t) (body : Body.t) (db : Db) :
  ~ served (fst (UserAuthController.updateDetails env reqUser body db)) ->
  snd (UserAuthController.updateDetails env reqUser body db) = db.
Proof. unfold UserAuthController.updateDetails. quiet_handler. Qed.

Lemma quiet_guarded (check : Db -> Outcome + User.t) (handler : User.t -> Handler)
  (db : Db) :
  (forall user, ~ served (fst (handler user db)) -> snd (handler user db) = db) ->
  ~ served (fst (Middleware.guarded check handler db)) ->
  snd (Middleware.guarded check handler db) = db.
Proof.
  intros Hh. unfold Middleware.guarded.
  destruct (check db) as [refused|user]; simpl; [reflexivity | apply Hh].
Qed.

End Quiet.

(** X9: a request to a user route that is not served (any answer other
    than 200, or 201 for a sign-up) leaves the database exactly as it
    was: every refusal and every thrown error is rolled back. *)
Theorem refused_user_request_writes_nothing {rt : Runtime} (env : Env)
  (req : Request) (db : Db) :
  isUserRoute req = true ->
  ~ served (fst (serve env req db)) ->
  snd (serve env req db) = db.
Proof.
  destruct req; cbv beta iota delta [serve isUserRoute]; intro Hroute;
    try discriminate Hroute;
    try (apply quiet_guarded; intro);
    auto using quiet_signup, quiet_verifyOTP, quiet_resendOtp, quiet_login,
      quiet_forgotPassword, quiet_resetPassword, quiet_logout, quiet_refreshToken,
      quiet_updatePassword, quiet_updateDetails.
Qed.

Lemma refused_user_request_writes_nothing_witness :
  snd (serve (rt := demoRuntime) anaEnv (PostUserLogin (loginBody "a@x.com" "wrong"))
         anaDb) = anaDb.
Proof.
  refine (refused_user_request_writes_nothing (rt := demoRuntime) anaEnv
            (PostUserLogin (loginBody "a@x.com" "wrong")) anaDb eq_refl _).
  vm_compute. intros [H|H]; discriminate H.
Defined.

(** ** The development bootstrap of the admin login *)

(** X10: when no account carries the email "dummy@gmail.com" or the
    username "Admin Muqeet" and the admin role exists, a login with
    "dummy@gmail.com" and "123" creates an active admin account in a
    transaction of its own.  With a refresh token not stored yet the
    answer is 200 with both tokens; with one already stored the answer
    is a 500, and the new admin account stays committed all the same. *)
Theorem admin_dummy_bootstrap {rt : Runtime} (env : Env) (body : Body.t) (db : Db) :
  isEmail "dummy@gmail.com" = true ->
  Body.email body = Some "dummy@gmail.com" ->
  Body.password body = Some "123" ->
  (forall u, In u (users db) ->
             User.email u <> "dummy@gmail.com" /\ User.username u <> "Admin Muqeet") ->
  (exists r, In r (roles db) /\ Role.id r = 1) ->
  let db1 := withUsers (users db ++ [dummyAdmin env db]) db in
  (~ In (Js.toHex (randomBytes40 env)) (map RefreshToken.token (refreshTokens db)) ->
   AdminAuthController.login env body db
   = (Respond 200
        [("error", JBool false);
         ("message", JStr "Admin created and logged in successfully");
         ("accessToken",
          JToken (Jwt.mk (Jwt.Access (User.id (dummyAdmin env db)) 1 false)
                         (now env / 1000) (now env / 1000 + 3600)
                         BaseController.secret));
         ("refreshToken", JStr (Js.toHex (randomBytes40 env)));
         ("user", JObj [("username", JStr "Admin Muqeet");
                        ("email", JStr "dummy@gmail.com")])],
      withRefreshTokens
        (refreshTokens db ++ [issuedRow env (User.id (dummyAdmin env db)) db]) db1)) /\
  (In (Js.toHex (randomBytes40 env)) (map RefreshToken.token (refreshTokens db)) ->
   AdminAuthController.login env body db = (NextError "Validation error" 500, db1)).
Proof.
  intros Hmail He Hp Hnone [role [Hrole Hrid]] db1.
  assert (Hlogin :
    AdminAuthController.login env body db
    = transaction (
        accessToken <- BaseController.signed
                         (BaseController.generateToken env (User.id (dummyAdmin env db))
                            BaseController.userTypes_admin (Some "1h") None) ;;
        refreshToken <- BaseController.generateRefreshToken env
                          (User.id (dummyAdmin env db)) None ;;
        commit (Respond 200
          [("error", JBool false);
           ("message", JStr "Admin created and logged in successfully");
           ("accessToken", JToken accessToken);
           ("refreshToken", JStr refreshToken);
           ("user", AdminAuthController.adminJson (dummyAdmin env db))])) db1).
  { unfold AdminAuthController.login. cbv zeta.
    assert (Hvalid : BaseController.validateFields body ["email"; "password"] = true).
    { unfold BaseController.validateFields. cbn [forallb].
      change (Body.has body "email") with (Js.truthy (Body.email body)).
      change (Body.has body "password") with (Js.truthy (Body.password body)).
      rewrite He, Hp. reflexivity. }
    rewrite Hvalid, He, Hp. cbn [negb Body.str].
    assert (Hfind : Sql.findOne
                      (fun u => (User.email u =? "dummy@gmail.com")%string
                                && (User.roleId u =? BaseController.userTypes_admin))
                      (users db) = None).
    { apply find_none_iff. intros u Hu. destruct (Hnone u Hu) as [Hne _].
      apply String.eqb_neq in Hne. now rewrite Hne. }
    rewrite Hfind. cbn [String.eqb Ascii.eqb Bool.eqb andb].
    unfold AdminAuthController.createDummyAccount, bind, Roles.findOne.
    destruct (Sql.findOne (fun r => Role.id r =? BaseController.userTypes_admin)
                          (roles db)) as [r|] eqn:Er.
    2:{ exfalso. pose proof (find_none _ _ Er role Hrole) as Hn. cbv beta in Hn.
        rewrite Hrid in Hn. discriminate Hn. }
    rewrite users_create_ok; [reflexivity | reflexivity | reflexivity | exact Hmail | |
                              exact Hnone].
    intros p Hphone. injection Hphone as <-. reflexivity. }
  rewrite Hlogin. unfold transaction, bind, commit.
  rewrite generateToken_1h. cbn [BaseController.signed BaseController.orThrow].
  unfold ret. cbv beta iota.
  rewrite generateRefreshToken_eq. cbv zeta.
  change (refreshTokens db1) with (refreshTokens db).
  split; intro Htok.
  - destruct (existsb _ (refreshTokens db)) eqn:E;
      [apply existsb_token in E; contradiction|].
    reflexivity.
  - apply existsb_token in Htok. rewrite Htok. reflexivity.
Qed.

Lemma admin_dummy_bootstrap_witness :
  AdminAuthController.login (rt := demoRuntime) anaEnv (loginBody "dummy@gmail.com" "123")
    (withRefreshTokens [RefreshToken.mk 1 "0a0b" 7 604800000 false] oneRoleDb)
  = (NextError "Validation error" 500,
     withUsers (users oneRoleDb
                ++ [dummyAdmin (rt := demoRuntime) anaEnv oneRoleDb])
       (withRefreshTokens [RefreshToken.mk 1 "0a0b" 7 604800000 false] oneRoleDb)).
Proof.
  refine (proj2 (admin_dummy_bootstrap (rt := demoRuntime) anaEnv
                   (loginBody "dummy@gmail.com" "123")
                   (withRefreshTokens [RefreshToken.mk 1 "0a0b" 7 604800000 false]
                      oneRoleDb) eq_refl eq_refl eq_refl _ _) _).
  - intros u [<-|[]]. split; discriminate.
  - eexists. split; [left; reflexivity | reflexivity].
  - left. reflexivity.
Defined.

(** ** Invariants of the whole store

    The routes write through six operations only: [create] on the three
    tables, turning [isRevoked] on, turning [isUsed] on, and
    [user.update] with values that never carry [isActive: false].  A
    property kept by these six is kept by every route. *)

Create HintDb store.

Section StoreInvariant.
Context {rt : Runtime}.
Variable I : Db -> Prop.
Hypothesis I_token_create :
  forall token userId expiresAt isRevoked,
    invariantTx I (RefreshTokens.create token userId expiresAt isRevoked).
Hypothesis I_token_revoke :
  forall (p : RefreshToken.t -> bool) db,
    I db ->
    I (withRefreshTokens
         (map (fun r => if p r then RefreshToken.revoke r else r) (refreshTokens db)) db).
Hypothesis I_otp_create :
  forall t userId otp expiresAt isUsed,
    invariantTx I (Otps.create t userId otp expiresAt isUsed).
Hypothesis I_otp_use :
  forall (p : Otp.t -> bool) db,
    I db ->
    I (withOtps (map (fun r => if p r then Otp.use r else r) (otps db)) db).
Hypothesis I_user_create :
  forall username email password phone roleId isActive,
    roleId = BaseController.userTypes_user /\ isActive = false \/
    roleId = BaseController.userTypes_admin /\ email = "dummy@gmail.com" ->
    invariantTx I (Users.create username email password phone roleId isActive).
Hypothesis I_user_update :
  forall (p : User.t -> bool) (upd : User.updates) db,
    User.newIsActive upd <> Some false ->
    I db ->
    I (withUsers (map (fun u => if p u then User.apply upd u else u) (users db)) db).

Ltac readonly :=
  let db := fresh "db" in let a := fresh "a" in let db' := fresh "db'" in
  let E := fresh "E" in let HI := fresh "HI" in
  intros db a db' E HI; inversion E; subst; clear E; exact HI.

Lemma st_rt_findOne (w : RefreshToken.t -> bool) : invariantTx I (RefreshTokens.findOne w).
Proof. unfold RefreshTokens.findOne. readonly. Qed.

Lemma st_rt_revokeRow (doc : RefreshToken.t) : invariantTx I (RefreshTokens.revokeRow doc).
Proof.
  intros db a db' E HI. unfold RefreshTokens.revokeRow in E.
  inversion E; subst. simpl. now apply I_token_revoke.
Qed.

Lemma st_rt_revokeWhere (w : RefreshToken.t -> bool) :
  invariantTx I (RefreshTokens.revokeWhere w).
Proof.
  intros db a db' E HI. unfold RefreshTokens.revokeWhere, Sql.update in E.
  inversion E; subst. now apply I_token_revoke.
Qed.

Lemma st_otp_findNewest (w : Otp.t -> bool) : invariantTx I (Otps.findNewest w).
Proof. unfold Otps.findNewest. readonly. Qed.

Lemma st_otp_useRow (record : Otp.t) : invariantTx I (Otps.useRow record).
Proof.
  intros db a db' E HI. unfold Otps.useRow in E.
  inversion E; subst. simpl. now apply I_otp_use.
Qed.

Lemma st_otp_useWhere (w : Otp.t -> bool) : invariantTx I (Otps.useWhere w).
Proof.
  intros db a db' E HI. unfold Otps.useWhere, Sql.update in E.
  inversion E; subst. now apply I_otp_use.
Qed.

Lemma st_user_findOne (w : User.t -> bool) : invariantTx I (Users.findOne w).
Proof. unfold Users.findOne. readonly. Qed.

Lemma st_user_updateRow (user : User.t) (upd : User.updates) :
  User.newIsActive upd <> Some false -> invariantTx I (Users.updateRow user upd).
Proof.
  intros Hupd db a db' E HI. apply users_updateRow_inv in E. destruct E as [_ ->].
  now apply I_user_update.
Qed.

Lemma st_role_findOne (w : Role.t -> bool) : invariantTx I (Roles.findOne w).
Proof. unfold Roles.findOne. readonly. Qed.

Lemma st_orThrow {A : Type} (o : option A) (msg : string) :
  invariantTx I (BaseController.orThrow o msg).
Proof.
  destruct o; simpl; [apply invariant_ret | apply invariant_throw].
Qed.

#[local] Hint Resolve st_rt_findOne st_rt_revokeRow st_rt_revokeWhere
  st_otp_findNewest st_otp_useRow st_otp_useWhere st_user_findOne st_role_findOne
  st_orThrow I_token_create I_otp_create : store.

#[local] Hint Extern 1 (invariantTx _ (Users.create _ _ _ _ _ _)) =>
  apply I_user_create; first [left; split; reflexivity | right; split; reflexivity]
  : store.

Ltac st_step :=
  lazymatch goal with
  | |- invariantTx _ (bind _ _) => apply invariant_bind; [|intro]
  | |- invariantTx _ (ret _) => apply invariant_ret
  | |- invariantTx _ (commit _) => apply invariant_ret
  | |- invariantTx _ (rollback _) => apply invariant_ret
  | |- invariantTx _ (throw _) => apply invariant_throw
  | |- invariantTx _ (match ?x with _ => _ end) => destruct x
  | |- invariantTx _ _ => solve [auto with store]
  end.

Ltac st_tx := cbv zeta; repeat st_step.

Lemma st_updateUser (env : Env) (userId : Z) (upd : User.updates) :
  User.newIsActive upd <> Some false ->
  invariantTx I (UserAuthService.updateUser env userId upd).
Proof.
  intro Hupd. unfold UserAuthService.updateUser, Users.findByPk.
  apply invariant_bind; [auto with store|]. intros [u|]; [|apply invariant_throw].
  apply st_user_updateRow. now destruct (Js.truthy (User.newPassword upd)).
Qed.

Lemma st_generateRefreshToken (env : Env) (userId : Z) (expiryDays : option Z) :
  invariantTx I (BaseController.generateRefreshToken env userId expiryDays).
Proof. unfold BaseController.generateRefreshToken. st_tx. Qed.

Lemma st_verifyRefreshToken (env : Env) (token : string) :
  invariantTx I (BaseController.verifyRefreshToken env token).
Proof. unfold BaseController.verifyRefreshToken. st_tx. Qed.

Lemma st_revokeRefreshToken (token : string) :
  invariantTx I (BaseController.revokeRefreshToken token).
Proof. unfold BaseController.revokeRefreshToken. st_tx. Qed.

Lemma st_revokeAllUserRefreshTokens (userId : Z) :
  invariantTx I (BaseController.revokeAllUserRefreshTokens userId).
Proof. unfold BaseController.revokeAllUserRefreshTokens. st_tx. Qed.

Lemma st_createOtp (env : Env) (userId : Z) (expiryMinutes : option Z) :
  invariantTx I (BaseController.createOtp env userId expiryMinutes).
Proof. unfold BaseController.createOtp. st_tx. Qed.

Lemma st_verifyOtp (env : Env) (userId : Z) (otp : string) :
  invariantTx I (BaseController.verifyOtp env userId otp).
Proof. unfold BaseController.verifyOtp. st_tx. Qed.

Lemma st_signed (o : option Jwt.t) : invariantTx I (BaseController.signed o).
Proof. unfold BaseController.signed. st_tx. Qed.

Lemma st_sendOtpEmail (email otp username : string) :
  invariantTx I (BaseController.sendOtpEmail email otp username).
Proof. unfold BaseController.sendOtpEmail. st_tx. Qed.

Lemma st_sendPasswordResetEmail (email : string) (tok : Jwt.t) (username : string) :
  invariantTx I (BaseController.sendPasswordResetEmail email tok username).
Proof. unfold BaseController.sendPasswordResetEmail. st_tx. Qed.

Lemma st_findUserByEmail (email : string) :
  invariantTx I (UserAuthService.findUserByEmail email).
Proof. unfold UserAuthService.findUserByEmail. st_tx. Qed.

Lemma st_findUserById (id : Z) : invariantTx I (UserAuthService.findUserById id).
Proof. unfold UserAuthService.findUserById. st_tx. Qed.

Lemma st_createUser (env : Env) (username email password : string)
  (phone : option string) :
  invariantTx I (UserAuthService.createUser env username email password phone
                   BaseController.userTypes_user false).
Proof. unfold UserAuthService.createUser. st_tx. Qed.

Lemma st_getOtpTimeRemaining (env : Env) (userId : Z) :
  invariantTx I (UserAuthService.getOtpTimeRemaining env userId).
Proof. unfold UserAuthService.getOtpTimeRemaining. st_tx. Qed.

Lemma st_invalidateAllOtps (userId : Z) :
  invariantTx I (UserAuthService.invalidateAllOtps userId).
Proof. unfold UserAuthService.invalidateAllOtps. st_tx. Qed.

#[local] Hint Resolve st_generateRefreshToken st_verifyRefreshToken
  st_revokeRefreshToken st_revokeAllUserRefreshTokens st_createOtp st_verifyOtp
  st_signed st_sendOtpEmail st_sendPasswordResetEmail st_findUserByEmail
  st_findUserById st_createUser st_getOtpTimeRemaining st_invalidateAllOtps : store.

#[local] Hint Extern 1 (invariantTx _ (UserAuthService.updateUser _ _ _)) =>
  apply st_updateUser; cbn; first [discriminate | destruct (Js.truthy _); discriminate]
  : store.

Ltac st_handler :=
  cbv zeta;
  lazymatch goal with
  | |- invariantHandler _ (if ?b then _ else _) =>
      destruct b; [apply invariant_idle | apply invariant_transaction; st_tx]
  | |- invariantHandler _ (transaction _) => apply invariant_transaction; st_tx
  end.

Lemma st_signup (env : Env) (body : Body.t) :
  invariantHandler I (UserAuthController.signup env body).
Proof. unfold UserAuthController.signup. st_handler. Qed.

Lemma st_verifyOTP (env : Env) (reqUser : User.t) (body : Body.t) :
  invariantHandler I (UserAuthController.verifyOTP env reqUser body).
Proof. unfold UserAuthController.verifyOTP. st_handler. Qed.

Lemma st_resendOtp (env : Env) (reqUser : User.t) :
  invariantHandler I (UserAuthController.resendOtp env reqUser).
Proof. unfold UserAuthController.resendOtp. st_handler. Qed.

Lemma st_login (env : Env) (body : Body.t) :
  invariantHandler I (UserAuthController.login env body).
Proof. unfold UserAuthController.login. st_handler. Qed.

Lemma st_forgotPassword (env : Env) (body : Body.t) :
  invariantHandler I (UserAuthController.forgotPassword env body).
Proof. unfold UserAuthController.forgotPassword. st_handler. Qed.

Lemma st_resetPassword (env : Env) (body : Body.t) :
  invariantHandler I (UserAuthController.resetPassword env body).
Proof. unfold UserAuthController.resetPassword. st_handler. Qed.

Lemma st_logout (env : Env) (reqUser : User.t) (body : Body.t) :
  invariantHandler I (UserAuthController.logout env reqUser body).
Proof. unfold UserAuthController.logout. st_handler. Qed.

Lemma st_refreshToken (env : Env) (body : Body.t) :
  invariantHandler I (UserAuthController.refreshToken env body).
Proof. unfold UserAuthController.refreshToken. st_handler. Qed.

Lemma st_updatePassword (env : Env) (reqUser : User.t) (body : Body.t) :
  invariantHandler I (UserAuthController.updatePassword env reqUser body).
Proof. unfold UserAuthController.updatePassword. st_handler. Qed.

Lemma st_updateDetails (env : Env) (reqUser : User.t) (body : Body.t) :
  invariantHandler I (UserAuthController.updateDetails env reqUser body).
Proof. unfold UserAuthController.updateDetails. st_handler. Qed.

Lemma st_createDummyAccount (env : Env) :
  invariantTx I (AdminAuthController.createDummyAccount env).
Proof. unfold AdminAuthController.createDummyAccount. st_tx. Qed.

Lemma st_adminLogin (env : Env) (body : Body.t) :
  invariantHandler I (AdminAuthController.login env body).
Proof.
  unfold AdminAuthController.login. cbv zeta.
  destruct (negb _); [apply invariant_idle|].
  intros db HI.
  destruct (Sql.findOne _ (users db)) as [admin|].
  - destruct (negb (bcrypt_compare _ _)); [exact HI|].
    destruct (negb (User.isActive admin)); [exact HI|].
    revert db HI. apply invariant_transaction. st_tx.
  - destruct (_ && _); [|exact HI].
    destruct (AdminAuthController.createDummyAccount env db) as [dummy db1|msg] eqn:E;
      [|exact HI].
    pose proof (st_createDummyAccount env db dummy db1 E HI) as HI1.
    clear E. revert db1 HI1.
    apply invariant_transaction. st_tx.
Qed.

Lemma st_adminRefreshToken (env : Env) (body : Body.t) :
  invariantHandler I (AdminAuthController.refreshToken env body).
Proof. unfold AdminAuthController.refreshToken. st_handler. Qed.

Lemma st_adminLogout (env : Env) (reqUser : User.t) (body : Body.t) :
  invariantHandler I (AdminAuthController.logout env reqUser body).
Proof. unfold AdminAuthController.logout. st_handler. Qed.

Lemma st_serve (env : Env) (req : Request) : invariantHandler I (serve env req).
Proof.
  destruct req; cbv beta iota delta [serve];
    try (apply invariant_guarded; intro);
    auto using st_signup, st_verifyOTP, st_resendOtp, st_login,
      st_forgotPassword, st_resetPassword, st_logout, st_refreshToken,
      st_updatePassword, st_updateDetails, st_adminLogin,
      st_adminRefreshToken, st_adminLogout.
Qed.

Lemma st_serveAll (trace : list (Env * Request)) (db : Db) :
  I db -> I (serveAll trace db).
Proof.
  revert db; induction trace as [|[env req] trace IH]; intros db HI; simpl.
  - exact HI.
  - apply IH. now apply st_serve.
Qed.

End StoreInvariant.

Lemma otps_create_inv (t userId : Z) (otp : string) (expiresAt : Z) (isUsed : bool)
  (db db' : Db) (row : Otp.t) :
  Otps.create t userId otp expiresAt isUsed db = Ok row db' ->
  row = Otp.mk (freshId (map Otp.id (otps db))) userId otp expiresAt isUsed t /\
  db' = withOtps (otps db ++ [row]) db.
Proof. unfold Otps.create. intro H. inversion H; subst. split; reflexivity. Qed.

Lemma ids_used (p : Otp.t -> bool) (rows : list Otp.t) :
  map Otp.id (map (fun r => if p r then Otp.use r else r) rows) = map Otp.id rows.
Proof. rewrite map_map. apply map_ext. intro r. now destruct (p r). Qed.

Lemma ids_applied (p : User.t -> bool) (upd : User.updates) (rows : list User.t) :
  map User.id (map (fun u => if p u then User.apply upd u else u) rows)
  = map User.id rows.
Proof. rewrite map_map. apply map_ext. intro u. now destruct (p u). Qed.

Lemma emails_applied (p : User.t -> bool) (upd : User.updates) (rows : list User.t) :
  map User.email (map (fun u => if p u then User.apply upd u else u) rows)
  = map User.email rows.
Proof. rewrite map_map. apply map_ext. intro u. now destruct (p u). Qed.

Lemma rt_create_frame (token : string) (userId expiresAt : Z) (isRevoked : bool)
  (db db' : Db) (row : RefreshToken.t) :
  RefreshTokens.create token userId expiresAt isRevoked db = Ok row db' ->
  users db' = users db /\ otps db' = otps db /\
  map RefreshToken.id (refreshTokens db')
  = (map RefreshToken.id (refreshTokens db)
     ++ [freshId (map RefreshToken.id (refreshTokens db))])%list.
Proof.
  unfold RefreshTokens.create.
  destruct (existsb _ (refreshTokens db)); [discriminate|].
  intro H. inversion H; subst; clear H. simpl. rewrite map_app. repeat split.
Qed.

Section StoreFacts.
Context {rt : Runtime}.

(** Accounts are never removed and never change their email. *)
Lemma emailTaken_serveAll (email : string) (trace : list (Env * Request)) (db : Db) :
  emailTaken email db -> emailTaken email (serveAll trace db).
Proof.
  apply st_serveAll; unfold emailTaken.
  - intros token userId expiresAt isRevoked d row d' E H.
    apply rt_create_frame in E. destruct E as [E _]. now rewrite E.
  - intros p d H. exact H.
  - intros t userId otp expiresAt isUsed d row d' E H.
    apply otps_create_inv in E. destruct E as [_ ->]. exact H.
  - intros p d H. exact H.
  - intros username e password phone roleId isActive _ d row d' E H.
    apply users_create_inv in E. destruct E as [_ [-> _]].
    simpl. rewrite map_app. apply in_or_app. now left.
  - intros p upd d _ H. simpl. now rewrite emails_applied.
Qed.

(** A used OTP row is never removed and never becomes unused. *)
Lemma consumed_serveAll (i : Z) (trace : list (Env * Request)) (db : Db) :
  consumed i db -> consumed i (serveAll trace db).
Proof.
  apply st_serveAll; unfold consumed.
  - intros token userId expiresAt isRevoked d row d' E H.
    apply rt_create_frame in E. destruct E as [_ [E _]]. now rewrite E.
  - intros p d H. exact H.
  - intros t userId otp expiresAt isUsed d row d' E [Hin Hused].
    apply otps_create_inv in E. destruct E as [-> ->]. simpl. split.
    + rewrite map_app. apply in_or_app. now left.
    + intros r Hr Hid. apply in_app_or in Hr. destruct Hr as [Hr|[<-|[]]].
      * now apply Hused.
      * simpl in Hid. exfalso. apply (freshId_fresh (map Otp.id (otps d))).
        now rewrite Hid.
  - intros p d [Hin Hused]. simpl. rewrite ids_used. split; [assumption|].
    intros r Hr Hid. apply in_map_iff in Hr. destruct Hr as [y [<- Hy]].
    destruct (p y); [reflexivity | now apply Hused].
  - intros username e password phone roleId isActive _ d row d' E H.
    apply users_create_inv in E. destruct E as [_ [-> _]]. exact H.
  - intros p upd d _ H. exact H.
Qed.

(** An active account is never removed and never deactivated. *)
Lemma activated_serveAll (i : Z) (trace : list (Env * Request)) (db : Db) :
  activated i db -> activated i (serveAll trace db).
Proof.
  apply st_serveAll; unfold activated.
  - intros token userId expiresAt isRevoked d row d' E H.
    apply rt_create_frame in E. destruct E as [E _]. now rewrite E.
  - intros p d H. exact H.
  - intros t userId otp expiresAt isUsed d row d' E H.
    apply otps_create_inv in E. destruct E as [_ ->]. exact H.
  - intros p d H. exact H.
  - intros username e password phone roleId isActive _ d row d' E [Hin Hact].
    apply users_create_inv in E. destruct E as [-> [-> _]]. simpl. split.
    + rewrite map_app. apply in_or_app. now left.
    + intros u Hu Hid. apply in_app_or in Hu. destruct Hu as [Hu|[<-|[]]].
      * now apply Hact.
      * simpl in Hid. exfalso. apply (freshId_fresh (map User.id (users d))).
        now rewrite Hid.
  - intros p upd d Hupd [Hin Hact]. simpl. rewrite ids_applied.
    split; [assumption|].
    intros u Hu Hid. apply in_map_iff in Hu. destruct Hu as [y [<- Hy]].
    destruct (p y); [|now apply Hact].
    simpl in Hid. specialize (Hact y Hy Hid). simpl. rewrite Hact.
    destruct (User.newIsActive upd) as [[|]|]; try reflexivity.
    now elim Hupd.
Qed.

(** Primary keys stay pairwise distinct. *)
Lemma wfIds_serveAll (trace : list (Env * Request)) (db : Db) :
  wfIds db -> wfIds (serveAll trace db).
Proof.
  apply st_serveAll; unfold wfIds.
  - intros token userId expiresAt isRevoked d row d' E [Hu [Hr Ho]].
    apply rt_create_frame in E. destruct E as [Eu [Eo Er]].
    rewrite Eu, Eo, Er. repeat split; try assumption.
    apply NoDup_snoc; [apply freshId_fresh | assumption].
  - intros p d [Hu [Hr Ho]]. simpl. rewrite ids_revoked. auto.
  - intros t userId otp expiresAt isUsed d row d' E [Hu [Hr Ho]].
    apply otps_create_inv in E. destruct E as [-> ->]. simpl.
    repeat split; try assumption. rewrite map_app.
    apply NoDup_snoc; [apply freshId_fresh | assumption].
  - intros p d [Hu [Hr Ho]]. simpl. rewrite ids_used. auto.
  - intros username e password phone r isActive _ d row d' E [Hu [Hr Ho]].
    apply users_create_inv in E. destruct E as [-> [-> _]]. simpl.
    repeat split; try assumption. rewrite map_app.
    apply NoDup_snoc; [apply freshId_fresh | assumption].
  - intros p upd d _ [Hu [Hr Ho]]. simpl. rewrite ids_applied. auto.
Qed.

End StoreFacts.

(** ** Sign-up *)

Section Signup.
Context {rt : Runtime}.

Lemma validate_signup (body : Body.t) :
  BaseController.validateFields body ["username"; "email"; "password"]
  = Js.truthy (Body.username body) && (Js.truthy (Body.email body)
    && (Js.truthy (Body.password body) && true)).
Proof. reflexivity. Qed.

Lemma find_email_none (email : string) (rows : list User.t) :
  ~ In email (map User.email rows) ->
  Sql.findOne (fun u => (User.email u =? email)%string) rows = None.
Proof.
  intro H. apply find_none_iff. intros u Hu. apply String.eqb_neq.
  intro E. apply H. rewrite <- E. now apply in_map.
Qed.

Lemma find_email_some (email : string) (rows : list User.t) :
  In email (map User.email rows) ->
  exists u, Sql.findOne (fun u => (User.email u =? email)%string) rows = Some u.
Proof.
  intro H. destruct (Sql.findOne _ rows) as [u|] eqn:E; [eauto|].
  exfalso. apply in_map_iff in H. destruct H as [u [Hu Hin]].
  pose proof (find_none _ _ E u Hin) as Hn. cbv beta in Hn.
  rewrite Hu, String.eqb_refl in Hn. discriminate Hn.
Qed.

(** A sign-up with an email some account carries. *)
Lemma signup_duplicate (env : Env) (body : Body.t) (db : Db) (email : string) :
  Body.email body = Some email -> emailTaken email db ->
  UserAuthController.signup env body db = (NextError "Email already in use" 400, db) \/
  UserAuthController.signup env body db = (NextError "Required fields missing" 400, db).
Proof.
  intros He Htaken. unfold UserAuthController.signup. cbv zeta.
  destruct (negb (BaseController.validateFields body _)); [right; reflexivity|].
  left. unfold transaction, bind, rollback.
  rewrite findUserByEmail_eq, He. cbn [Body.str].
  destruct (find_email_some email (users db) Htaken) as [u Hu]. now rewrite Hu.
Qed.

Lemma not_served_error (message : string) (statusCode : Z) (db : Db) :
  statusCode <> 200 -> statusCode <> 201 ->
  ~ served (fst (NextError message statusCode, db)).
Proof. intros H1 H2 [H|H]; simpl in H; contradiction. Qed.

(** A sign-up that is served stored an account with the email given. *)
Lemma signup_served_taken (env : Env) (body : Body.t) (db : Db) (email : string) :
  Body.email body = Some email ->
  served (fst (UserAuthController.signup env body db)) ->
  emailTaken email (snd (UserAuthController.signup env body db)).
Proof.
  intros He.
  destruct (UserAuthController.signup env body db) as [o db'] eqn:E.
  cbn [fst snd]. intro Hs.
  assert (Hno : forall m c d, (NextError m c, d) = (o, db') -> c <> 200 -> c <> 201 -> False).
  { intros m c d H H1 H2. inversion H; subst o. destruct Hs as [H3|H3]; simpl in H3; lia. }
  unfold UserAuthController.signup in E. cbv zeta in E.
  destruct (negb (BaseController.validateFields body _));
    [exfalso; eapply Hno; [exact E | lia | lia]|].
  unfold transaction, bind, rollback, commit, BaseController.handleError in E.
  rewrite findUserByEmail_eq, He in E. cbn [Body.str] in E.
  destruct (Sql.findOne _ (users db)) as [u|]; cbv beta iota in E;
    [exfalso; eapply Hno; [exact E | lia | lia]|].
  destruct (UserAuthService.createUser env _ email _ _ _ _ db) as [user db1|msg] eqn:Ec;
    [|exfalso; eapply Hno; [exact E | lia | lia]].
  unfold UserAuthService.createUser in Ec. apply users_create_inv in Ec.
  destruct Ec as [Hrow [Hdb1 _]].
  rewrite generateToken_1h in E.
  cbn [BaseController.signed BaseController.orThrow] in E.
  unfold ret in E. cbv beta iota in E.
  rewrite generateRefreshToken_eq in E. cbv zeta in E.
  destruct (existsb _ (refreshTokens db1));
    [exfalso; eapply Hno; [exact E | lia | lia]|].
  rewrite createOtp_eq in E. unfold BaseController.sendOtpEmail, ret in E.
  cbv beta iota in E. inversion E; subst db'.
  unfold emailTaken. cbn [users withOtps withRefreshTokens].
  subst db1. cbn [users withUsers]. rewrite map_app.
  apply in_or_app. right. rewrite Hrow. left. reflexivity.
Qed.

End Signup.

(** X11: a sign-up whose values pass the validators of the [User]
    model (a username of 3 to 50 characters that is not blank, an email
    [isEmail] accepts, a phone, when one is given, that matches the
    pattern) and fit their columns, in a store that holds the user
    role, that collides with no account in username or email and draws
    a refresh token not stored yet, is
    answered 201 and commits three rows: an account that is not active,
    has the user role and stores the bcrypt hash of the password, an
    unrevoked refresh token and an unused OTP, both of that account,
    which expire where [setDate(getDate() + 7)] and
    [setMinutes(getMinutes() + 5)] lead: seven days and five minutes
    after the request where no clock change bears on the span. *)
Theorem signup_creates_inactive_account {rt : Runtime} (env : Env) (body : Body.t)
  (db : Db) (username email password : string) :
  Body.username body = Some username ->
  Validate.notEmpty username = true -> Validate.len 3 50 username = true ->
  Body.email body = Some email -> email <> "" -> isEmail email = true ->
  (String.length email <= 100)%nat ->
  Body.password body = Some password -> password <> "" ->
  (forall p, Body.phone body = Some p ->
             Validate.phone p = true /\ (String.length p <= 15)%nat) ->
  (exists role, In role (roles db) /\ Role.id role = BaseController.userTypes_user) ->
  (forall u, In u (users db) -> User.email u <> email /\ User.username u <> username) ->
  ~ In (Js.toHex (randomBytes40 env)) (map RefreshToken.token (refreshTokens db)) ->
  let user := User.mk (freshId (map User.id (users db))) username email
                      (bcrypt_hash password 10 (salt env)) (Body.phone body) 2 false in
  UserAuthController.signup env body db
  = (Respond 201
       [("error", JBool false);
        ("message", JStr "Registration successful. Verification OTP sent to your email");
        ("accessToken",
         JToken (Jwt.mk (Jwt.Access (User.id user) 2 false) (now env / 1000)
                        (now env / 1000 + 3600) BaseController.secret));
        ("refreshToken", JStr (Js.toHex (randomBytes40 env)));
        ("user", UserAuthController.userJson (User.id user) username email false)],
     mkDb (users db ++ [user]) (roles db)
          (refreshTokens db ++ [issuedRow env (User.id user) db])
          (otps db ++ [issuedOtp env (User.id user) db])) /\
  (steadyZone (now env) 604800000 ->
   RefreshToken.expiresAt (issuedRow env (User.id user) db) = now env + 604800000) /\
  (steadyZone (now env) 300000 ->
   Otp.expiresAt (issuedOtp env (User.id user) db) = now env + 300000).
Proof.
  intros Hu Hune Hulen He Hene Hmail _ Hp Hpne Hphone _ Hnew Hfresh user.
  assert (Hutruthy : Js.truthy (Some username) = true).
  { destruct username; [discriminate Hulen | reflexivity]. }
  split; [|split].
  - unfold UserAuthController.signup. cbv zeta.
    rewrite validate_signup, Hu, He, Hp, Hutruthy, !truthy_Some by assumption.
    cbn [negb andb Body.str].
    unfold transaction, bind, rollback, commit, BaseController.handleError.
    rewrite findUserByEmail_eq.
    assert (Hfind : Sql.findOne (fun u => (User.email u =? email)%string) (users db)
                    = None).
    { apply find_none_iff. intros u Hin. destruct (Hnew u Hin) as [H _].
      now apply String.eqb_neq. }
    rewrite Hfind. cbv beta iota.
    unfold UserAuthService.createUser. rewrite (truthy_Some password Hpne).
    rewrite users_create_ok; [|assumption|assumption|assumption| |assumption].
    2:{ intros p Hbp. now destruct (Hphone p Hbp). }
    fold user.
    rewrite generateToken_1h. cbn [BaseController.signed BaseController.orThrow].
    unfold ret at 1. cbv beta iota.
    rewrite generateRefreshToken_eq. cbv zeta.
    rewrite refreshTokens_withUsers.
    destruct (existsb _ (refreshTokens db)) eqn:E;
      [apply existsb_token in E; contradiction|].
    rewrite createOtp_eq. unfold BaseController.sendOtpEmail, ret. cbv beta iota.
    reflexivity.
  - intro Hsteady. exact (addDays_steady (now env) 7 Hsteady).
  - intro Hsteady. exact (addMinutes_steady (now env) 5 Hsteady).
Qed.

Lemma signup_creates_inactive_account_witness :
  users (snd (UserAuthController.signup (rt := demoRuntime) signupEnv signupBody rolesDb))
  = [User.mk 1 "cyan" "c@x.com" "$2b$10$secret1" None 2 false].
Proof.
  rewrite (proj1 (signup_creates_inactive_account (rt := demoRuntime) signupEnv
                    signupBody rolesDb "cyan" "c@x.com" "secret1"
                    eq_refl eq_refl eq_refl eq_refl ltac:(discriminate) eq_refl
                    ltac:(cbn; lia) eq_refl ltac:(discriminate)
                    ltac:(intros p H; discriminate H)
                    ltac:(exists (Role.mk 2 "user" "Regular user"); split;
                          [right; left; reflexivity | reflexivity])
                    ltac:(intros u []) ltac:(intros []))).
  reflexivity.
Defined.

(** X12: once a sign-up was served for an email, no later sign-up with
    that email is: after any sequence of requests it is answered
    "Email already in use" (or "Required fields missing") with 400 and
    writes nothing.  Accounts are never removed and never change their
    email. *)
Theorem signup_email_stays_taken {rt : Runtime} (env : Env) (body : Body.t) (db : Db)
  (email : string) :
  Body.email body = Some email ->
  served (fst (UserAuthController.signup env body db)) ->
  forall (trace : list (Env * Request)) (env' : Env) (body' : Body.t),
    Body.email body' = Some email ->
    let later := serveAll trace (snd (UserAuthController.signup env body db)) in
    UserAuthController.signup env' body' later
    = (NextError "Email already in use" 400, later) \/
    UserAuthController.signup env' body' later
    = (NextError "Required fields missing" 400, later).
Proof.
  intros He Hs trace env' body' He' later.
  apply (signup_duplicate env' body' later email He').
  apply emailTaken_serveAll. now apply signup_served_taken.
Qed.

Lemma signup_email_stays_taken_witness :
  UserAuthController.signup (rt := demoRuntime) verifyEnv signupBody
    (snd (UserAuthController.signup (rt := demoRuntime) signupEnv signupBody emptyDb))
  = (NextError "Email already in use" 400,
     snd (UserAuthController.signup (rt := demoRuntime) signupEnv signupBody emptyDb)).
Proof.
  destruct (signup_email_stays_taken (rt := demoRuntime) signupEnv signupBody emptyDb
              "c@x.com" eq_refl ltac:(right; reflexivity) [] verifyEnv signupBody eq_refl)
    as [H|H].
  - exact H.
  - exfalso. vm_compute in H. discriminate H.
Defined.

(** ** Login and password recovery *)

Lemma validate_login {rt : Runtime} (body : Body.t) (email password : string) :
  Body.email body = Some email -> email <> "" ->
  Body.password body = Some password -> password <> "" ->
  BaseController.validateFields body ["email"; "password"] = true.
Proof.
  intros He Hene Hp Hpne. unfold BaseController.validateFields. cbn [forallb].
  change (Body.has body "email") with (Js.truthy (Body.email body)).
  change (Body.has body "password") with (Js.truthy (Body.password body)).
  now rewrite He, Hp, !truthy_Some.
Qed.

(** X13: a login with an email no account carries and a login with a
    wrong password are answered alike, "Invalid credentials" with 400,
    and write nothing. *)
Theorem login_failures_look_alike {rt : Runtime} (env : Env) (body : Body.t) (db : Db)
  (email password : string) :
  Body.email body = Some email -> email <> "" ->
  Body.password body = Some password -> password <> "" ->
  (Sql.findOne (fun u => (User.email u =? email)%string) (users db) = None \/
   exists user,
     Sql.findOne (fun u => (User.email u =? email)%string) (users db) = Some user /\
     bcrypt_compare password (User.password user) = false) ->
  UserAuthController.login env body db = (NextError "Invalid credentials" 400, db).
Proof.
  intros He Hene Hp Hpne Hcase.
  unfold UserAuthController.login. cbv zeta.
  rewrite (validate_login body email password) by assumption.
  rewrite He, Hp. cbn [negb Body.str].
  unfold transaction, bind, rollback, BaseController.handleError.
  rewrite findUserByEmail_eq.
  destruct Hcase as [Hnone|[user [Hsome Hpw]]].
  - now rewrite Hnone.
  - rewrite Hsome. cbv beta iota. unfold UserAuthService.verifyPassword.
    now rewrite Hpw.
Qed.

Lemma login_failures_look_alike_witness :
  UserAuthController.login (rt := demoRuntime) anaEnv (loginBody "a@x.com" "wrong") anaDb
  = UserAuthController.login (rt := demoRuntime) anaEnv (loginBody "z@x.com" "secret1")
      anaDb.
Proof.
  rewrite (login_failures_look_alike (rt := demoRuntime) anaEnv
             (loginBody "a@x.com" "wrong") anaDb "a@x.com" "wrong"
             eq_refl ltac:(discriminate) eq_refl ltac:(discriminate)
             (or_intror (ex_intro _ ana (conj eq_refl eq_refl)))).
  rewrite (login_failures_look_alike (rt := demoRuntime) anaEnv
             (loginBody "z@x.com" "secret1") anaDb "z@x.com" "secret1"
             eq_refl ltac:(discriminate) eq_refl ltac:(discriminate)
             (or_introl eq_refl)).
  reflexivity.
Defined.

(** X14: a login with the credentials of an active account, and a
    refresh token not stored yet, is answered 200 without
    [requireVerification]; it stores the new refresh token for the
    account and nothing else: no OTP is issued and no earlier refresh
    token of the account is revoked. *)
Theorem login_active_account {rt : Runtime} (env : Env) (body : Body.t) (db : Db)
  (user : User.t) (email password : string) :
  Body.email body = Some email -> email <> "" ->
  Body.password body = Some password -> password <> "" ->
  Sql.findOne (fun u => (User.email u =? email)%string) (users db) = Some user ->
  bcrypt_compare password (User.password user) = true ->
  User.isActive user = true ->
  ~ In (Js.toHex (randomBytes40 env)) (map RefreshToken.token (refreshTokens db)) ->
  UserAuthController.login env body db
  = (Respond 200
       [("error", JBool false);
        ("message", JStr "Login successful");
        ("accessToken",
         JToken (Jwt.mk (Jwt.Access (User.id user) 2 false) (now env / 1000)
                        (now env / 1000 + 3600) BaseController.secret));
        ("refreshToken", JStr (Js.toHex (randomBytes40 env)));
        ("user", UserAuthController.userJson (User.id user) (User.username user)
                   (User.email user) true)],
     withRefreshTokens (refreshTokens db ++ [issuedRow env (User.id user) db]) db).
Proof.
  intros He Hene Hp Hpne Hfound Hpw Hactive Hfresh.
  unfold UserAuthController.login. cbv zeta.
  rewrite (validate_login body email password) by assumption.
  rewrite He, Hp. cbn [negb Body.str].
  unfold transaction, bind, rollback, commit, BaseController.handleError.
  rewrite findUserByEmail_eq, Hfound. cbv beta iota.
  unfold UserAuthService.verifyPassword. rewrite Hpw, Hactive. cbn [negb].
  rewrite generateToken_1h. cbn [BaseController.signed BaseController.orThrow].
  unfold ret at 1. cbv beta iota.
  rewrite generateRefreshToken_eq. cbv zeta.
  destruct (existsb _ (refreshTokens db)) eqn:E;
    [apply existsb_token in E; contradiction|].
  reflexivity.
Qed.

Lemma login_active_account_witness :
  refreshTokens
    (snd (UserAuthController.login (rt := demoRuntime) anaEnv
            (loginBody "a@x.com" "secret1") anaDb))
  = [anaToken; RefreshToken.mk 2 "0a0b" 7 604860000 false].
Proof.
  rewrite (login_active_account (rt := demoRuntime) anaEnv
             (loginBody "a@x.com" "secret1") anaDb ana "a@x.com" "secret1").
  - reflexivity.
  - reflexivity.
  - discriminate.
  - reflexivity.
  - discriminate.
  - reflexivity.
  - reflexivity.
  - reflexivity.
  - simpl. intros [H|[]]. discriminate H.
Defined.

(** X15: the forgot-password route tells nothing about the accounts: for
    every request that carries an email it gives the same 200 answer,
    whether an account has that email or not, and it never writes. *)
Theorem forgotPassword_tells_nothing {rt : Runtime} (env : Env) (body : Body.t)
  (db : Db) :
  Js.truthy (Body.email body) = true ->
  UserAuthController.forgotPassword env body db
  = (Respond 200
       [("error", JBool false);
        ("message",
         JStr "If your email exists in our system, you will receive a password reset link")],
     db).
Proof.
  intro He. unfold UserAuthController.forgotPassword. cbv zeta.
  rewrite He. cbn [negb].
  unfold transaction, bind, rollback, commit, UserAuthController.genericResetReply.
  rewrite findUserByEmail_eq.
  destruct (Sql.findOne _ (users db)) as [user|]; cbv beta iota; [|reflexivity].
  rewrite generatePasswordResetToken_15m. reflexivity.
Qed.

Lemma forgotPassword_tells_nothing_witness :
  UserAuthController.forgotPassword (rt := demoRuntime) anaEnv
    (loginBody "a@x.com" "") anaDb
  = UserAuthController.forgotPassword (rt := demoRuntime) anaEnv
      (loginBody "nobody@x.com" "") anaDb.
Proof.
  rewrite (forgotPassword_tells_nothing (rt := demoRuntime) anaEnv
             (loginBody "a@x.com" "") anaDb eq_refl).
  rewrite (forgotPassword_tells_nothing (rt := demoRuntime) anaEnv
             (loginBody "nobody@x.com" "") anaDb eq_refl).
  reflexivity.
Defined.

(** ** Password reset, logout and the owner check of the refresh route *)

Section ResetAgain.
Context {rt : Runtime}.

Lemma validate_reset (body : Body.t) :
  BaseController.validateFields body ["token"; "newPassword"]
  = Body.tokenTruthy (Body.token body) && (Js.truthy (Body.newPassword body) && true).
Proof. reflexivity. Qed.

(** The reset route, when the token names an account that still carries
    the email of the token. *)
Lemma resetPassword_run (env : Env) (body : Body.t) (db : Db) (userId : Z)
  (email : string) (user : User.t) :
  BaseController.validateFields body ["token"; "newPassword"] = true ->
  UserAuthController.decodeResetToken env (Body.token body) = Some (userId, email) ->
  accountOf userId db = Some user ->
  User.email user = email ->
  UserAuthController.resetPassword env body db
  = (Respond 200 [("error", JBool false); ("message", JStr "Password reset successful")],
     withRefreshTokens
       (map (fun r => if liveOf userId r then RefreshToken.revoke r else r)
            (refreshTokens db))
       (withUsers
          (map (fun x => if User.id x =? User.id user
                         then User.apply
                                (hashedUpdates env
                                   (User.mkUpdates None (Body.newPassword body) None None))
                                x
                         else x) (users db)) db)).
Proof.
  intros Hv Hdec Hacc Hmail. unfold accountOf in Hacc.
  unfold UserAuthController.resetPassword. cbv zeta.
  rewrite Hv, Hdec. cbn [negb].
  unfold transaction, bind, rollback, commit, BaseController.handleError.
  rewrite findUserById_eq, Hacc. cbv beta iota.
  rewrite Hmail, String.eqb_refl. cbn [negb].
  rewrite updateUser_eq by reflexivity. rewrite Hacc. cbv beta iota.
  rewrite revokeAllUserRefreshTokens_count. reflexivity.
Qed.

End ResetAgain.

(** X16: a password reset that is served stores, for the account of the
    token, the bcrypt hash of the new password and changes no other of
    its fields; the token is not consumed: until it expires the reset
    route serves it again, with any new password. *)
Theorem resetPassword_token_not_consumed {rt : Runtime} (env : Env) (body : Body.t)
  (db db' : Db) (status : Z) (json : list (string * Json))
  (userId : Z) (email : string) :
  UserAuthController.decodeResetToken env (Body.token body) = Some (userId, email) ->
  UserAuthController.resetPassword env body db = (Respond status json, db') ->
  (exists before after,
     accountOf userId db = Some before /\ accountOf userId db' = Some after /\
     sameButPassword before after /\
     User.password after
     = bcrypt_hash (Body.str (Body.newPassword body)) 10 (salt env)) /\
  forall (env' : Env) (body' : Body.t),
    Body.token body' = Body.token body ->
    Js.truthy (Body.newPassword body') = true ->
    UserAuthController.decodeResetToken env' (Body.token body) = Some (userId, email) ->
    served (fst (UserAuthController.resetPassword env' body' db')).
Proof.
  intros Hdec Hok.
  assert (Hv : BaseController.validateFields body ["token"; "newPassword"] = true).
  { unfold UserAuthController.resetPassword in Hok. cbv zeta in Hok.
    destruct (BaseController.validateFields body _); [reflexivity|].
    discriminate Hok. }
  assert (Hacc : exists user, accountOf userId db = Some user /\ User.email user = email).
  { unfold UserAuthController.resetPassword in Hok. cbv zeta in Hok.
    rewrite Hv, Hdec in Hok. cbn [negb] in Hok.
    unfold transaction, bind, rollback, BaseController.handleError in Hok.
    rewrite findUserById_eq in Hok. unfold accountOf.
    destruct (Sql.findOne _ (users db)) as [user|]; cbv beta iota in Hok;
      [|discriminate Hok].
    exists user. split; [reflexivity|].
    destruct (User.email user =? email)%string eqn:E; [now apply String.eqb_eq|].
    discriminate Hok. }
  destruct Hacc as [user [Hacc Hmail]].
  rewrite (resetPassword_run env body db userId email user Hv Hdec Hacc Hmail) in Hok.
  inversion Hok; subst; clear Hok.
  set (upd := hashedUpdates env (User.mkUpdates None (Body.newPassword body) None None)).
  assert (Hidu : User.id user = userId).
  { unfold accountOf in Hacc. apply find_some in Hacc.
    destruct Hacc as [_ E]. now apply Z.eqb_eq in E. }
  assert (Hafter : accountOf userId
                     (withRefreshTokens
                        (map (fun r => if liveOf userId r then RefreshToken.revoke r else r)
                             (refreshTokens db))
                        (withUsers
                           (map (fun x => if User.id x =? User.id user
                                          then User.apply upd x else x) (users db)) db))
                   = Some (User.apply upd user)).
  { unfold accountOf. cbn [users withRefreshTokens withUsers].
    rewrite find_map_id by (intro u; now destruct (User.id u =? User.id user)).
    unfold accountOf in Hacc. rewrite Hacc. cbn [option_map].
    now rewrite Z.eqb_refl. }
  split.
  - exists user, (User.apply upd user).
    split; [exact Hacc|]. split; [exact Hafter|].
    split; [apply hashed_password_only|].
    unfold upd, hashedUpdates. cbn [User.newPassword].
    rewrite validate_reset in Hv. apply andb_prop in Hv. destruct Hv as [_ Hv].
    apply andb_prop in Hv. destruct Hv as [Hv _]. rewrite Hv. reflexivity.
  - intros env' body' Htok Hnew Hdec'.
    erewrite resetPassword_run.
    + left. reflexivity.
    + rewrite validate_reset, Htok, Hnew. rewrite validate_reset in Hv.
      apply andb_prop in Hv. destruct Hv as [Hv _]. now rewrite Hv.
    + rewrite Htok. exact Hdec'.
    + exact Hafter.
    + reflexivity.
Qed.

Lemma resetPassword_token_not_consumed_witness :
  served (fst (UserAuthController.resetPassword (rt := demoRuntime) verifyEnv resetBody
                 (snd (UserAuthController.resetPassword (rt := demoRuntime) anaEnv
                         resetBody anaDb)))).
Proof.
  refine (proj2 (resetPassword_token_not_consumed (rt := demoRuntime) anaEnv resetBody
                   anaDb
                   (snd (UserAuthController.resetPassword (rt := demoRuntime) anaEnv
                           resetBody anaDb))
                   200
                   (jsonOf (fst (UserAuthController.resetPassword (rt := demoRuntime)
                                   anaEnv resetBody anaDb)))
                   7 "a@x.com" _ _) verifyEnv resetBody _ _ _).
  - reflexivity.
  - vm_compute. reflexivity.
  - reflexivity.
  - reflexivity.
  - reflexivity.
Defined.

(** X17: logout never fails.  With a refresh token in the body it
    revokes the row that carries that string, whoever owns it (the
    caller is not compared with the owner), and a stored string is
    refused by the refresh route from then on; without one it revokes
    every unrevoked row of the caller.  The other tables are untouched. *)
Theorem logout_revokes {rt : Runtime} (env : Env) (reqUser : User.t) (body : Body.t)
  (db : Db) :
  wfTokens db -> wfIds db ->
  exists db',
    UserAuthController.logout env reqUser body db
    = (Respond 200 [("error", JBool false); ("message", JStr "Logout successful")], db') /\
    users db' = users db /\ otps db' = otps db /\
    (forall t, Body.refreshToken body = Some t -> t <> "" ->
       refreshTokens db' =
         map (fun r => if (RefreshToken.token r =? t)%string
                       then RefreshToken.revoke r else r) (refreshTokens db) /\
       (In t (map RefreshToken.token (refreshTokens db)) ->
        forall (trace : list (Env * Request)) (env' : Env) (body' : Body.t),
          Body.refreshToken body' = Some t ->
          UserAuthController.refreshToken env' body' (serveAll trace db')
          = (NextError "Invalid or expired refresh token" 401, serveAll trace db'))) /\
    (Js.truthy (Body.refreshToken body) = false ->
     refreshTokens db' =
       map (fun r => if liveOf (User.id reqUser) r then RefreshToken.revoke r else r)
           (refreshTokens db)).
Proof.
  intros Hwf [_ [Hids _]].
  unfold UserAuthController.logout. cbv zeta. unfold transaction, bind, commit.
  destruct (Js.truthy (Body.refreshToken body)) eqn:Et.
  - apply truthy_inv in Et. destruct Et as [t [Hb Hne]]. rewrite Hb. cbn [Body.str].
    destruct (revokeRefreshToken_rows t db Hwf Hids) as [found [Hrun Hfound]].
    rewrite Hrun. unfold ret. cbv beta iota.
    eexists. split; [reflexivity|]. cbn [users otps refreshTokens withRefreshTokens].
    split; [reflexivity|]. split; [reflexivity|]. split; [|discriminate].
    intros t' Hb' Hne'. injection Hb' as <-. split; [reflexivity|].
    intros Hin trace env' body' Hb'.
    apply (dead_refused t); try assumption.
    apply dead_serveAll. split.
    + cbn [refreshTokens withRefreshTokens]. now rewrite tokens_revoked.
    + cbn [refreshTokens withRefreshTokens]. intros r Hr Hrt.
      apply in_map_iff in Hr. destruct Hr as [y [<- Hy]].
      destruct (RefreshToken.token y =? t)%string eqn:E; [reflexivity|].
      apply String.eqb_neq in E. contradiction.
  - rewrite revokeAllUserRefreshTokens_count. unfold ret. cbv beta iota.
    eexists. split; [reflexivity|]. cbn [users otps refreshTokens withRefreshTokens].
    split; [reflexivity|]. split; [reflexivity|]. split; [|reflexivity].
    intros t Hb Hne. rewrite Hb, (truthy_Some t Hne) in Et. discriminate Et.
Qed.

Lemma logout_revokes_witness :
  exists db',
    UserAuthController.logout anaEnv bob (refreshBody "c0ffee") bobDb
    = (Respond 200 [("error", JBool false); ("message", JStr "Logout successful")], db') /\
    refreshTokens db' = [RefreshToken.revoke anaToken].
Proof.
  destruct (logout_revokes (rt := demoRuntime) anaEnv bob (refreshBody "c0ffee") bobDb)
    as [db' [Hrun [_ [_ [Htok _]]]]].
  - unfold wfTokens. simpl. constructor; [intros []| constructor].
  - unfold wfIds. simpl. repeat split; repeat constructor.
    + intros [H|[]]. discriminate H.
    + intros [].
    + intros [].
  - exists db'. split; [exact Hrun|].
    destruct (Htok "c0ffee" eq_refl ltac:(discriminate)) as [Hrows _].
    rewrite Hrows. reflexivity.
Defined.

(** X18: the refresh routes check the owner of the token.  A token that
    verifies but whose owner is missing, is not of the user role or is
    not active is refused by the user route with "User not found or
    inactive" (401); one whose owner is not an active admin is refused
    by the admin route with "User not found or not an admin" (401).
    In both cases the token is not consumed: nothing is written. *)
Theorem refresh_checks_owner {rt : Runtime} (env : Env) (body : Body.t) (db : Db)
  (t : string) (doc : RefreshToken.t) :
  Body.refreshToken body = Some t -> t <> "" ->
  BaseController.verifyRefreshToken env t db = Ok (Some doc) db ->
  ((accountOf (RefreshToken.userId doc) db = None \/
    exists owner, accountOf (RefreshToken.userId doc) db = Some owner /\
                  (User.roleId owner <> 2 \/ User.isActive owner = false)) ->
   UserAuthController.refreshToken env body db
   = (NextError "User not found or inactive" 401, db)) /\
  ((forall u, In u (users db) -> User.id u = RefreshToken.userId doc ->
              User.roleId u <> 1 \/ User.isActive u = false) ->
   AdminAuthController.refreshToken env body db
   = (NextError "User not found or not an admin" 401, db)).
Proof.
  intros Hb Hne Hv. split.
  - intro Howner.
    unfold UserAuthController.refreshToken. cbv zeta.
    rewrite Hb, (truthy_Some t Hne). cbn [negb Body.str].
    unfold transaction, bind, rollback, BaseController.handleError.
    rewrite Hv. cbv beta iota. rewrite findUserById_eq. unfold accountOf in Howner.
    destruct Howner as [Hnone|[owner [Hsome Hbad]]].
    + now rewrite Hnone.
    + rewrite Hsome. cbv beta iota.
      change BaseController.userTypes_user with 2.
      destruct Hbad as [Hrole|Hact].
      * apply Z.eqb_neq in Hrole. now rewrite Hrole.
      * rewrite Hact. cbn [negb]. now rewrite orb_true_r.
  - intro Hnone.
    unfold AdminAuthController.refreshToken. cbv zeta.
    rewrite Hb, (truthy_Some t Hne). cbn [negb Body.str].
    unfold transaction, bind, commit, BaseController.handleError.
    rewrite Hv. cbv beta iota. unfold Users.findOne.
    assert (Hf : Sql.findOne
                   (fun u => (User.id u =? RefreshToken.userId doc)
                             && (User.roleId u =? BaseController.userTypes_admin)
                             && User.isActive u) (users db) = None).
    { apply find_none_iff. intros u Hu.
      destruct (User.id u =? RefreshToken.userId doc) eqn:E; [|reflexivity].
      apply Z.eqb_eq in E. change BaseController.userTypes_admin with 1.
      destruct (Hnone u Hu E) as [Hrole|Hact].
      - apply Z.eqb_neq in Hrole. now rewrite Hrole.
      - rewrite Hact. now rewrite andb_false_r. }
    rewrite Hf. reflexivity.
Qed.

Lemma refresh_checks_owner_witness :
  AdminAuthController.refreshToken (rt := demoRuntime) anaEnv (refreshBody "c0ffee") anaDb
  = (NextError "User not found or not an admin" 401, anaDb).
Proof.
  refine (proj2 (refresh_checks_owner (rt := demoRuntime) anaEnv (refreshBody "c0ffee")
                   anaDb "c0ffee" anaToken eq_refl _ eq_refl) _).
  - discriminate.
  - intros u [<-|[]] _. left. discriminate.
Defined.

(** ** One-time codes: issue, cooldown, invalidation *)

Lemma getOtpTimeRemaining_eq (env : Env) (userId : Z) (db : Db) :
  UserAuthService.getOtpTimeRemaining env userId db
  = Ok (match Sql.findNewest (UserAuthService.activeOtp env userId) (otps db) with
        | None => 0
        | Some o => (Otp.expiresAt o - now env + 500) / 1000
        end) db.
Proof.
  unfold UserAuthService.getOtpTimeRemaining, Otps.findNewest, bind, ret.
  now destruct (Sql.findNewest _ (otps db)).
Qed.

Lemma invalidateAllOtps_eq (userId : Z) (db : Db) :
  UserAuthService.invalidateAllOtps userId db
  = Ok [Z.of_nat (List.length (filter (unusedOf userId) (otps db)))]
       (withOtps (map (fun r => if unusedOf userId r then Otp.use r else r) (otps db)) db).
Proof. reflexivity. Qed.

Lemma unused_invalidated (userId : Z) (rows : list Otp.t) :
  filter (unusedOf userId)
         (map (fun r => if unusedOf userId r then Otp.use r else r) rows) = [].
Proof.
  induction rows as [|r rows IH]; [reflexivity|]. cbn [map filter].
  destruct (unusedOf userId r) eqn:E.
  - unfold unusedOf at 1. cbn [Otp.use Otp.isUsed negb].
    rewrite andb_false_r. exact IH.
  - rewrite E. exact IH.
Qed.

Lemma others_invalidated (userId other : Z) (rows : list Otp.t) :
  other <> userId ->
  filter (fun r => Otp.userId r =? other)
         (map (fun r => if unusedOf userId r then Otp.use r else r) rows)
  = filter (fun r => Otp.userId r =? other) rows.
Proof.
  intro Hne. induction rows as [|r rows IH]; [reflexivity|]. cbn [map filter].
  destruct (unusedOf userId r) eqn:E.
  - unfold unusedOf in E. apply andb_true_iff in E. destruct E as [E _].
    apply Z.eqb_eq in E. cbn [Otp.use Otp.userId].
    assert (Hf : (Otp.userId r =? other) = false) by (apply Z.eqb_neq; lia).
    rewrite Hf. exact IH.
  - destruct (Otp.userId r =? other); [f_equal|]; exact IH.
Qed.

Lemma outstanding_filter (userId : Z) (code : string) (rows : list Otp.t) :
  filter (outstanding userId code) rows
  = filter (fun r => (Otp.otp r =? code)%string) (filter (unusedOf userId) rows).
Proof.
  induction rows as [|r rows IH]; [reflexivity|]. cbn [filter].
  unfold outstanding at 1. destruct (unusedOf userId r); cbn [andb filter].
  - destruct (Otp.otp r =? code)%string; [f_equal|]; exact IH.
  - exact IH.
Qed.

(** What [verifyOtp] answers when the account has no unused row. *)
Lemma verifyOtp_none (env : Env) (userId : Z) (code : string) (db : Db) :
  filter (unusedOf userId) (otps db) = [] ->
  BaseController.verifyOtp env userId code db = Ok false db.
Proof.
  intro Hnil. rewrite verifyOtp_eq. unfold Sql.findNewest.
  now rewrite outstanding_filter, Hnil.
Qed.

(** X19: [resendOtp] reads the seconds left on the newest unexpired,
    unused code of the caller.  With more than 30 it answers 400 and
    writes nothing.  Otherwise it answers 200 and the new code is the
    only unused row of the account: a later [verifyOtp] accepts exactly
    that code, up to the expiry [setMinutes(getMinutes() + 5)] gave it,
    which is five minutes after the resend where no clock change bears
    on them; the rows of other accounts and the other tables are as
    they were. *)
Theorem resendOtp_cooldown {rt : Runtime} (env : Env) (reqUser : User.t) (db : Db) :
  exists t,
    UserAuthService.getOtpTimeRemaining env (User.id reqUser) db = Ok t db /\
    0 <= t /\
    (30 < t ->
     UserAuthController.resendOtp env reqUser db
     = (Respond 400
          [("error", JBool true);
           ("message", JStr ("Please wait " ++ Js.toString ((t + 59) / 60)
                             ++ " minute(s) before requesting a new OTP"));
           ("secondsRemaining", JStr (Js.toString t ++ " seconds remaining"))], db)) /\
    (t <= 30 ->
     exists db',
       UserAuthController.resendOtp env reqUser db
       = (Respond 200
            [("error", JBool false); ("message", JStr "New OTP sent to your email")], db') /\
       users db' = users db /\ refreshTokens db' = refreshTokens db /\
       filter (unusedOf (User.id reqUser)) (otps db')
       = [issuedOtp env (User.id reqUser) db] /\
       (forall other, other <> User.id reqUser ->
          filter (fun r => Otp.userId r =? other) (otps db')
          = filter (fun r => Otp.userId r =? other) (otps db)) /\
       (forall (env' : Env) (code : string),
          verifies env' (User.id reqUser) code db'
          = (OtpCode.generate (otpBuffer env) =? code)%string
            && (now env' <=? JsDate.addMinutes (now env) 5)) /\
       (steadyZone (now env) 300000 ->
        JsDate.addMinutes (now env) 5 = now env + 300000)).
Proof.
  eexists. split; [apply getOtpTimeRemaining_eq|].
  set (t := match Sql.findNewest _ (otps db) with None => 0 | Some o => _ end).
  assert (Ht : 0 <= t).
  { subst t. destruct (Sql.findNewest _ (otps db)) as [o|] eqn:E; [|lia].
    apply findNewest_Some in E. destruct E as [_ [Hact _]].
    unfold UserAuthService.activeOtp in Hact.
    apply andb_true_iff in Hact. destruct Hact as [_ Hact]. apply Z.ltb_lt in Hact.
    apply Z.div_pos; lia. }
  split; [exact Ht|].
  unfold UserAuthController.resendOtp. cbv zeta.
  unfold transaction, bind, rollback, commit. rewrite getOtpTimeRemaining_eq.
  fold t. cbv beta iota. split.
  - intro Hlt. apply Z.ltb_lt in Hlt. now rewrite Hlt.
  - intro Hle. assert (Hf : (30 <? t) = false) by (apply Z.ltb_ge; exact Hle).
    rewrite Hf, invalidateAllOtps_eq. cbv beta iota. rewrite createOtp_eq.
    unfold BaseController.sendOtpEmail, ret. cbv beta iota.
    eexists. split; [reflexivity|].
    cbn [users refreshTokens otps withOtps]. rewrite ids_used.
    fold (issuedOtp env (User.id reqUser) db).
    assert (Hnew : unusedOf (User.id reqUser) (issuedOtp env (User.id reqUser) db) = true).
    { unfold unusedOf, issuedOtp. cbn [Otp.userId Otp.isUsed negb].
      now rewrite Z.eqb_refl. }
    assert (Hrows : filter (unusedOf (User.id reqUser))
                      (map (fun r => if unusedOf (User.id reqUser) r then Otp.use r else r)
                           (otps db) ++ [issuedOtp env (User.id reqUser) db])%list
                    = [issuedOtp env (User.id reqUser) db]).
    { rewrite filter_app, unused_invalidated. cbn [filter app]. now rewrite Hnew. }
    split; [reflexivity|]. split; [reflexivity|]. split; [exact Hrows|].
    split; [|split].
    + intros other Hne. rewrite filter_app, (others_invalidated _ _ _ Hne).
      cbn [filter]. unfold issuedOtp at 1. cbn [Otp.userId].
      assert (Hf' : (User.id reqUser =? other) = false) by (apply Z.eqb_neq; lia).
      rewrite Hf'. apply app_nil_r.
    + intros env' code. unfold verifies. rewrite verifyOtp_eq. unfold Sql.findNewest.
      cbn [otps withOtps]. rewrite outstanding_filter, Hrows. cbn [filter].
      change (Otp.otp (issuedOtp env (User.id reqUser) db))
        with (OtpCode.generate (otpBuffer env)).
      destruct (OtpCode.generate (otpBuffer env) =? code)%string; [|reflexivity].
      cbn [Sql.newest andb].
      change (Otp.expiresAt (issuedOtp env (User.id reqUser) db))
        with (JsDate.addMinutes (now env) 5).
      symmetry. apply Z.leb_antisym.
    + intro Hsteady. exact (addMinutes_steady (now env) 5 Hsteady).
Qed.

Lemma resendOtp_cooldown_witness :
  exists db',
    UserAuthController.resendOtp (rt := demoRuntime) anaEnv ana anaDb
    = (Respond 200
         [("error", JBool false); ("message", JStr "New OTP sent to your email")], db') /\
    filter (unusedOf (User.id ana)) (otps db')
    = [issuedOtp (rt := demoRuntime) anaEnv (User.id ana) anaDb].
Proof.
  destruct (resendOtp_cooldown (rt := demoRuntime) anaEnv ana anaDb)
    as [t [Ht [_ [_ Hok]]]].
  assert (H0 : t = 0) by (vm_compute in Ht; congruence).
  assert (Hle : t <= 30) by (rewrite H0; discriminate).
  destruct (Hok Hle) as [db' [Hrun [_ [_ [Hrows _]]]]].
  exists db'. split; [exact Hrun | exact Hrows].
Defined.

(** X20: [invalidateAllOtps] marks every unused code of the account as
    used and returns what [Otp.update] resolves to, the array whose one
    element is the number of rows it changed.  Afterwards [verifyOtp]
    refuses every code for that account at any time and
    [hasActiveOtp] answers [false]; the rows of other accounts and the
    other tables are as they were. *)
Theorem invalidateAllOtps_effect (userId : Z) (db : Db) :
  exists db',
    UserAuthService.invalidateAllOtps userId db
    = Ok [Z.of_nat (List.length (filter (unusedOf userId) (otps db)))] db' /\
    users db' = users db /\ refreshTokens db' = refreshTokens db /\
    map Otp.id (otps db') = map Otp.id (otps db) /\
    (forall (env : Env) (code : string),
       BaseController.verifyOtp env userId code db' = Ok false db') /\
    (forall env : Env, UserAuthService.hasActiveOtp env userId db' = Ok false db') /\
    (forall other, other <> userId ->
       filter (fun r => Otp.userId r =? other) (otps db')
       = filter (fun r => Otp.userId r =? other) (otps db)).
Proof.
  rewrite invalidateAllOtps_eq. eexists. split; [reflexivity|].
  cbn [users refreshTokens otps withOtps].
  split; [reflexivity|]. split; [reflexivity|]. split; [apply ids_used|]. split; [|split].
  - intros env code. apply verifyOtp_none. cbn [otps withOtps].
    apply unused_invalidated.
  - intro env. unfold UserAuthService.hasActiveOtp, Otps.findNewest, bind, ret.
    assert (Hnone : Sql.findNewest (UserAuthService.activeOtp env userId)
                      (otps (withOtps
                         (map (fun r => if unusedOf userId r then Otp.use r else r)
                              (otps db)) db)) = None).
    { apply findNewest_None. cbn [otps withOtps]. intros x Hx.
      unfold UserAuthService.activeOtp. fold (unusedOf userId x).
      assert (Hu : unusedOf userId x = false).
      { destruct (unusedOf userId x) eqn:E; [|reflexivity].
        assert (Hin : In x (filter (unusedOf userId)
                              (map (fun r => if unusedOf userId r then Otp.use r else r)
                                   (otps db)))) by (apply filter_In; auto).
        rewrite unused_invalidated in Hin. contradiction. }
      now rewrite Hu. }
    now rewrite Hnone.
  - intros other Hne. now apply others_invalidated.
Qed.

(** X21: a code that [createOtp] has just issued is accepted by
    [verifyOtp] for the same account exactly up to the expiry that
    [setMinutes(getMinutes() + 5)] gave it, given that the stored rows
    were created earlier; the expiry is five minutes after the creation
    where no clock change bears on them. *)
Theorem otp_round_trip {rt : Runtime} (env env' : Env) (userId : Z) (db : Db) :
  (forall r, In r (otps db) -> Otp.createdAt r < now env) ->
  exists code db',
    BaseController.createOtp env userId (Some 5) db = Ok code db' /\
    verifies env' userId code db' = (now env' <=? JsDate.addMinutes (now env) 5) /\
    (now env' <= JsDate.addMinutes (now env) 5 ->
     exists db'',
       BaseController.verifyOtp env' userId code db' = Ok true db'' /\
       consumed (freshId (map Otp.id (otps db))) db'') /\
    (steadyZone (now env) 300000 ->
     JsDate.addMinutes (now env) 5 = now env + 300000).
Proof.
  intro Hold. rewrite createOtp_eq. eexists. eexists. split; [reflexivity|].
  fold (issuedOtp env userId db).
  assert (Hfind : Sql.findNewest (outstanding userId (OtpCode.generate (otpBuffer env)))
                    (otps db ++ [issuedOtp env userId db])%list
                  = Some (issuedOtp env userId db)).
  { apply findNewest_strict.
    - apply in_or_app. right. now left.
    - unfold outstanding, unusedOf, issuedOtp. cbn [Otp.userId Otp.isUsed Otp.otp negb].
      now rewrite Z.eqb_refl, String.eqb_refl.
    - intros x Hx _ Hne. apply in_app_or in Hx. destruct Hx as [Hx|[<-|[]]].
      + exact (Hold x Hx).
      + now elim Hne. }
  split; [|split].
  3:{ intro Hsteady. exact (addMinutes_steady (now env) 5 Hsteady). }
  - unfold verifies. rewrite verifyOtp_eq. cbn [otps withOtps]. rewrite Hfind.
    change (Otp.expiresAt (issuedOtp env userId db))
      with (JsDate.addMinutes (now env) 5).
    symmetry. apply Z.leb_antisym.
  - intro Hle. rewrite verifyOtp_eq. cbn [otps withOtps]. rewrite Hfind.
    change (Otp.expiresAt (issuedOtp env userId db))
      with (JsDate.addMinutes (now env) 5).
    assert (Hlt : (JsDate.addMinutes (now env) 5 <? now env') = false)
      by (apply Z.ltb_ge; exact Hle).
    rewrite Hlt. cbn [negb]. eexists. split; [reflexivity|].
    change (Otp.id (issuedOtp env userId db)) with (freshId (map Otp.id (otps db))).
    unfold consumed. cbn [otps withOtps]. rewrite ids_used, map_app. split.
    + apply in_or_app. right. now left.
    + intros r Hr Hid. apply in_map_iff in Hr. destruct Hr as [y [<- Hy]].
      destruct (Otp.id y =? freshId (map Otp.id (otps db))) eqn:E; [reflexivity|].
      apply Z.eqb_neq in E. destruct (E Hid).
Qed.

Lemma otp_round_trip_witness :
  exists code db',
    BaseController.createOtp (rt := demoRuntime) anaEnv (User.id ana) (Some 5) anaDb
    = Ok code db' /\
    verifies anaEnv (User.id ana) code db' = true.
Proof.
  destruct (otp_round_trip (rt := demoRuntime) anaEnv anaEnv (User.id ana) anaDb)
    as [code [db' [Hrun [Hv _]]]].
  - intros r [].
  - exists code, db'. split; [exact Hrun|]. rewrite Hv. reflexivity.
Defined.

(** ** What the routes never undo *)

(** X22: a served [verifyOTP] request leaves the caller's account stored
    and active and the row of the presented code used, and both stay so
    whatever requests follow: no route deactivates an account or makes a
    used code usable again. *)
Theorem verifyOTP_activates_for_good {rt : Runtime} (env : Env) (reqUser : User.t)
  (body : Body.t) (db : Db) :
  served (fst (UserAuthController.verifyOTP env reqUser body db)) ->
  exists record,
    In record (otps db) /\
    outstanding (User.id reqUser) (Body.str (Body.otp body)) record = true /\
    forall trace : list (Env * Request),
      activated (User.id reqUser)
        (serveAll trace (snd (UserAuthController.verifyOTP env reqUser body db))) /\
      consumed (Otp.id record)
        (serveAll trace (snd (UserAuthController.verifyOTP env reqUser body db))).
Proof.
  destruct (UserAuthController.verifyOTP env reqUser body db) as [o db'] eqn:E.
  cbn [fst snd]. intro Hs.
  assert (Hno : forall m c d, (NextError m c, d) = (o, db') -> c <> 200 -> c <> 201 -> False).
  { intros m c d H H1 H2. inversion H; subst o. destruct Hs as [H3|H3]; simpl in H3; lia. }
  unfold UserAuthController.verifyOTP in E. cbv zeta in E.
  destruct (negb (Js.truthy (Body.otp body)));
    [exfalso; eapply Hno; [exact E | lia | lia]|].
  unfold transaction, bind, rollback, commit, BaseController.handleError in E.
  rewrite verifyOtp_eq in E.
  destruct (Sql.findNewest _ (otps db)) as [record|] eqn:Ef; cbv beta iota in E;
    [|exfalso; eapply Hno; [exact E | lia | lia]].
  destruct (negb (negb (Otp.expiresAt record <? now env)));
    [exfalso; eapply Hno; [exact E | lia | lia]|].
  rewrite updateUser_eq in E by reflexivity. cbn [users withOtps] in E.
  destruct (Sql.findOne _ (users db)) as [u|] eqn:Eu; cbv beta iota in E;
    [|exfalso; eapply Hno; [exact E | lia | lia]].
  rewrite generateToken_1h in E.
  cbn [BaseController.signed BaseController.orThrow] in E.
  unfold ret in E. cbv beta iota in E.
  rewrite generateRefreshToken_eq in E. cbv zeta in E.
  cbn [refreshTokens withUsers withOtps] in E.
  destruct (existsb _ (refreshTokens db));
    [exfalso; eapply Hno; [exact E | lia | lia]|].
  cbv beta iota in E. inversion E; subst db'. clear E.
  apply findNewest_Some in Ef. destruct Ef as [Hin [Hout _]].
  exists record. split; [exact Hin|]. split; [exact Hout|].
  pose proof (find_some _ _ Eu) as [Huin Hid]. apply Z.eqb_eq in Hid.
  intro trace. split.
  - apply activated_serveAll. unfold activated.
    cbn [users withRefreshTokens withUsers withOtps]. rewrite ids_applied. split.
    + rewrite <- Hid. now apply in_map.
    + intros x Hx Hxid. apply in_map_iff in Hx. destruct Hx as [y [<- Hy]].
      destruct (User.id y =? User.id u) eqn:Ey; [reflexivity|].
      apply Z.eqb_neq in Ey. rewrite Hid in Ey. destruct (Ey Hxid).
  - apply consumed_serveAll. unfold consumed.
    cbn [otps withRefreshTokens withUsers withOtps]. rewrite ids_used. split.
    + now apply in_map.
    + intros x Hx Hxid. apply in_map_iff in Hx. destruct Hx as [y [<- Hy]].
      destruct (Otp.id y =? Otp.id record) eqn:Ey; [reflexivity|].
      apply Z.eqb_neq in Ey. destruct (Ey Hxid).
Qed.

Lemma verifyOTP_activates_for_good_witness :
  exists record,
    In record (otps bobCodeDb) /\
    outstanding (User.id bob) (Body.str (Body.otp (otpBody "424242"))) record = true /\
    forall trace : list (Env * Request),
      activated (User.id bob)
        (serveAll (rt := demoRuntime) trace
           (snd (UserAuthController.verifyOTP (rt := demoRuntime) verifyEnv bob
                   (otpBody "424242") bobCodeDb))) /\
      consumed (Otp.id record)
        (serveAll (rt := demoRuntime) trace
           (snd (UserAuthController.verifyOTP (rt := demoRuntime) verifyEnv bob
                   (otpBody "424242") bobCodeDb))).
Proof.
  apply (verifyOTP_activates_for_good (rt := demoRuntime) verifyEnv bob
           (otpBody "424242") bobCodeDb).
  left. vm_compute. reflexivity.
Defined.

(** X23: an account that is stored stays stored with the same email and
    the same role whatever requests follow: no route removes an
    account, changes its email or changes its role. *)
Theorem accounts_are_permanent {rt : Runtime} (i : Z) (email : string) (roleId : Z)
  (trace : list (Env * Request)) (db : Db) :
  registered i email roleId db ->
  registered i email roleId (serveAll trace db).
Proof.
  apply st_serveAll; unfold registered.
  - intros token userId expiresAt isRevoked d row d' E H.
    apply rt_create_frame in E. destruct E as [E _]. now rewrite E.
  - intros p d H. exact H.
  - intros t userId otp expiresAt isUsed d row d' E H.
    apply otps_create_inv in E. destruct E as [_ ->]. exact H.
  - intros p d H. exact H.
  - intros username e password phone r isActive _ d row d' E [Hin Hreg].
    apply users_create_inv in E. destruct E as [-> [-> _]]. simpl. split.
    + rewrite map_app. apply in_or_app. now left.
    + intros u Hu Hid. apply in_app_or in Hu. destruct Hu as [Hu|[<-|[]]].
      * now apply Hreg.
      * simpl in Hid. exfalso. apply (freshId_fresh (map User.id (users d))).
        now rewrite Hid.
  - intros p upd d _ [Hin Hreg]. simpl. rewrite ids_applied.
    split; [assumption|].
    intros u Hu Hid. apply in_map_iff in Hu. destruct Hu as [y [<- Hy]].
    destruct (p y); [|now apply Hreg].
    simpl in Hid. exact (Hreg y Hy Hid).
Qed.

Lemma accounts_are_permanent_witness :
  registered 7 "a@x.com" 2
    (serveAll (rt := demoRuntime)
       [(signupEnv, PostUserSignup signupBody);
        (loginEnv, PostUserLogin (loginBody "a@x.com" "secret1"))] anaDb).
Proof.
  apply (accounts_are_permanent (rt := demoRuntime)).
  unfold registered. simpl. split; [now left|].
  intros u [<-|[]] _. split; reflexivity.
Defined.

(** X24: the only administrator account a request can create is the
    development account "dummy@gmail.com": when every administrator
    stored is that account, as in an empty store, this is still so
    after any requests. *)
Theorem admins_only_by_bootstrap {rt : Runtime} (trace : list (Env * Request))
  (db : Db) :
  onlyDummyAdmin db -> onlyDummyAdmin (serveAll trace db).
Proof.
  apply st_serveAll; unfold onlyDummyAdmin.
  - intros token userId expiresAt isRevoked d row d' E H.
    apply rt_create_frame in E. destruct E as [E _]. now rewrite E.
  - intros p d H. exact H.
  - intros t userId otp expiresAt isUsed d row d' E H.
    apply otps_create_inv in E. destruct E as [_ ->]. exact H.
  - intros p d H. exact H.
  - intros username e password phone roleId isActive Hshape d row d' E H.
    apply users_create_inv in E. destruct E as [-> [-> _]].
    cbn [users withUsers]. intros u Hu Hrole.
    apply in_app_or in Hu. destruct Hu as [Hu|[<-|[]]]; [now apply H|].
    cbn [User.roleId User.email] in *.
    destruct Hshape as [[Hr _]|[_ He]]; [|exact He].
    rewrite Hr in Hrole. discriminate Hrole.
  - intros p upd d _ H. cbn [users withUsers]. intros u Hu Hrole.
    apply in_map_iff in Hu. destruct Hu as [y [<- Hy]].
    destruct (p y); [|now apply H].
    cbn [User.apply User.email User.roleId] in *. now apply H.
Qed.

Lemma admins_only_by_bootstrap_witness :
  onlyDummyAdmin
    (serveAll (rt := demoRuntime)
       [(signupEnv, PostUserSignup signupBody);
        (loginEnv, PostAdminLogin (loginBody "dummy@gmail.com" "123"))] emptyDb).
Proof.
  apply (admins_only_by_bootstrap (rt := demoRuntime)).
  intros u [].
Defined.

(** ** The admin login *)

(** X25: the outcomes of the admin login other than the bootstrap.  The
    credentials of an account that is not an administrator are refused
    with "Invalid credentials" (400), as is a wrong password of an
    administrator; an administrator that is not active is told so; an
    active administrator with the right password gets 200 with an
    access token of the admin type, valid one hour, and a new refresh
    token is stored.  The refused logins write nothing. *)
Theorem admin_login_outcomes {rt : Runtime} (env : Env) (body : Body.t) (db : Db)
  (email password : string) :
  Body.email body = Some email -> email <> "" ->
  Body.password body = Some password -> password <> "" ->
  ((forall u, In u (users db) -> User.email u = email ->
              User.roleId u <> BaseController.userTypes_admin) ->
   (email, password) <> ("dummy@gmail.com", "123") ->
   AdminAuthController.login env body db = (NextError "Invalid credentials" 400, db)) /\
  (forall admin,
     Sql.findOne (fun u => (User.email u =? email)%string
                           && (User.roleId u =? BaseController.userTypes_admin))
                 (users db) = Some admin ->
     (bcrypt_compare password (User.password admin) = false ->
      AdminAuthController.login env body db = (NextError "Invalid credentials" 400, db)) /\
     (bcrypt_compare password (User.password admin) = true ->
      User.isActive admin = false ->
      AdminAuthController.login env body db
      = (NextError "Your account is inactive" 400, db)) /\
     (bcrypt_compare password (User.password admin) = true ->
      User.isActive admin = true ->
      ~ In (Js.toHex (randomBytes40 env)) (map RefreshToken.token (refreshTokens db)) ->
      AdminAuthController.login env body db
      = (Respond 200
           [("error", JBool false);
            ("message", JStr "Admin login successful");
            ("accessToken",
             JToken (Jwt.mk (Jwt.Access (User.id admin) 1 false) (now env / 1000)
                            (now env / 1000 + 3600) BaseController.secret));
            ("refreshToken", JStr (Js.toHex (randomBytes40 env)));
            ("user", JObj [("username", JStr (User.username admin));
                           ("email", JStr (User.email admin))])],
         withRefreshTokens (refreshTokens db ++ [issuedRow env (User.id admin) db]) db))).
Proof.
  intros He Hene Hp Hpne.
  unfold AdminAuthController.login. cbv zeta.
  rewrite (validate_login body email password) by assumption.
  rewrite He, Hp. cbn [negb Body.str]. split.
  - intros Hnone Hnot.
    assert (Hf : Sql.findOne (fun u => (User.email u =? email)%string
                                && (User.roleId u =? BaseController.userTypes_admin))
                   (users db) = None).
    { apply find_none_iff. intros u Hu.
      destruct (User.email u =? email)%string eqn:E; [|reflexivity].
      apply String.eqb_eq in E. cbn [andb]. apply Z.eqb_neq. now apply Hnone. }
    rewrite Hf.
    destruct (email =? "dummy@gmail.com")%string eqn:E1; [|reflexivity].
    destruct (password =? "123")%string eqn:E2; [|reflexivity].
    apply String.eqb_eq in E1, E2. subst. now elim Hnot.
  - intros admin Hfound. rewrite Hfound. split; [|split].
    + intros Hpw. now rewrite Hpw.
    + intros Hpw Hact. now rewrite Hpw, Hact.
    + intros Hpw Hact Hfresh. rewrite Hpw, Hact. cbn [negb].
      unfold transaction, bind, commit.
      rewrite generateToken_1h. cbn [BaseController.signed BaseController.orThrow].
      unfold ret at 1. cbv beta iota.
      rewrite generateRefreshToken_eq. cbv zeta.
      destruct (existsb _ (refreshTokens db)) eqn:E;
        [apply existsb_token in E; contradiction|].
      reflexivity.
Qed.

Lemma admin_login_outcomes_witness :
  AdminAuthController.login (rt := demoRuntime) anaEnv (loginBody "a@x.com" "secret1") anaDb
  = (NextError "Invalid credentials" 400, anaDb).
Proof.
  refine (proj1 (admin_login_outcomes (rt := demoRuntime) anaEnv
                   (loginBody "a@x.com" "secret1") anaDb "a@x.com" "secret1"
                   eq_refl _ eq_refl _) _ _).
  - discriminate.
  - discriminate.
  - intros u [<-|[]] _. discriminate.
  - discriminate.
Defined.

(** ** Profile details and upload paths *)

(** X26: whatever the body of an [updateDetails] request carries, the
    request changes at most the username and the phone of the caller's
    account: the key, email, password hash, role and activation of
    every account, the accounts of other keys and the other tables are
    as they were.  A request with neither a username nor a phone is
    answered "No fields to update" (400). *)
Theorem updateDetails_profile_only {rt : Runtime} (env : Env) (reqUser : User.t)
  (body : Body.t) (db : Db) :
  let db' := snd (UserAuthController.updateDetails env reqUser body db) in
  map credentials (users db') = map credentials (users db) /\
  roles db' = roles db /\ refreshTokens db' = refreshTokens db /\ otps db' = otps db /\
  (forall u, In u (users db) -> User.id u <> User.id reqUser -> In u (users db')) /\
  (Js.truthy (Body.username body) = false -> Js.truthy (Body.phone body) = false ->
   UserAuthController.updateDetails env reqUser body db
   = (NextError "No fields to update" 400, db)).
Proof.
  cbv zeta. unfold UserAuthController.updateDetails. cbv zeta.
  destruct (negb (Js.truthy (Body.username body)) && negb (Js.truthy (Body.phone body)))
    eqn:Eb.
  - cbn [snd]. repeat split; try reflexivity. intros; assumption.
  - assert (Hsome : Js.truthy (Body.username body) = false ->
                    Js.truthy (Body.phone body) = false -> False).
    { intros H1 H2. rewrite H1, H2 in Eb. discriminate Eb. }
    unfold transaction, bind, commit, ret, BaseController.handleError.
    rewrite updateUser_run.
    destruct (Sql.findOne _ (users db)) as [u|] eqn:Ef; cbv beta iota.
    + destruct (Users.updateRow u _ db) as [a db1|msg] eqn:Er; cbn [snd].
      * apply users_updateRow_inv in Er. destruct Er as [_ ->].
        cbn [users roles refreshTokens otps withUsers].
        pose proof (find_some _ _ Ef) as [_ Hid]. apply Z.eqb_eq in Hid.
        split.
        { rewrite map_map. apply map_ext. intro x.
          destruct (User.id x =? User.id u); [|reflexivity].
          unfold hashedUpdates. cbn [User.newPassword Js.truthy].
          reflexivity. }
        split; [reflexivity|]. split; [reflexivity|]. split; [reflexivity|]. split.
        -- intros x Hx Hne. apply in_map_iff. exists x. split; [|exact Hx].
           destruct (User.id x =? User.id u) eqn:Ex; [|reflexivity].
           apply Z.eqb_eq in Ex. rewrite Hid in Ex. destruct (Hne Ex).
        -- intros H1 H2. destruct (Hsome H1 H2).
      * split; [reflexivity|]. split; [reflexivity|]. split; [reflexivity|].
        split; [reflexivity|]. split; [intros; assumption|].
        intros H1 H2. destruct (Hsome H1 H2).
    + cbn [snd]. split; [reflexivity|]. split; [reflexivity|]. split; [reflexivity|].
      split; [reflexivity|]. split; [intros; assumption|].
      intros H1 H2. destruct (Hsome H1 H2).
Qed.

(** A username another account holds, or one too short for the model,
    is refused and nothing is written. *)
Example updateDetails_username_refused :
  UserAuthController.updateDetails (rt := demoRuntime) anaEnv bob
    (detailsBody (Some "ana") None) bobDb
  = (NextError "Validation error" 500, bobDb) /\
  UserAuthController.updateDetails (rt := demoRuntime) anaEnv bob
    (detailsBody (Some "bo") None) bobDb
  = (NextError "Validation error: Validation len on username failed" 500, bobDb).
Proof. split; reflexivity. Qed.

(** ** A changed password at the next login *)

Lemma find_map_email (f : User.t -> User.t) (e : string) (rows : list User.t) :
  (forall u, User.email (f u) = User.email u) ->
  Sql.findOne (fun u => (User.email u =? e)%string) (map f rows)
  = option_map f (Sql.findOne (fun u => (User.email u =? e)%string) rows).
Proof.
  intro He. unfold Sql.findOne.
  induction rows as [|a rows IH]; [reflexivity|]. simpl.
  rewrite He. destruct (User.email a =? e)%string; [reflexivity | exact IH].
Qed.

(** X27: with a [bcrypt] whose [compare] accepts what its [hash] made,
    a password change that succeeded for an active account decides the
    next login with that account's email: the new password is served
    (given a refresh token not stored yet), and any password that
    [compare] rejects against the new hash, the old one as a rule, is
    refused with "Invalid credentials". *)
Theorem password_change_then_login {rt : Runtime} (env env' : Env) (reqUser u : User.t)
  (body lb : Body.t) (db db' : Db) (status : Z) (json : list (string * Json))
  (email new pw : string) :
  (forall p s, bcrypt_compare p (bcrypt_hash p 10 s) = true) ->
  Body.newPassword body = Some new -> new <> "" ->
  UserAuthController.updatePassword env reqUser body db = (Respond status json, db') ->
  Sql.findOne (fun x => (User.email x =? email)%string) (users db) = Some u ->
  User.id u = User.id reqUser -> User.isActive u = true ->
  Body.email lb = Some email -> email <> "" ->
  Body.password lb = Some pw -> pw <> "" ->
  (pw = new ->
   ~ In (Js.toHex (randomBytes40 env')) (map RefreshToken.token (refreshTokens db')) ->
   served (fst (UserAuthController.login env' lb db'))) /\
  (bcrypt_compare pw (bcrypt_hash new 10 (salt env)) = false ->
   UserAuthController.login env' lb db' = (NextError "Invalid credentials" 400, db')).
Proof.
  intros Hlaw Hnew Hne Hrun Hu Hid Hact He Hene Hp Hpne.
  apply updatePassword_success in Hrun. destruct Hrun as [u0 [Hu0 [_ Hdb]]].
  pose proof (find_some _ _ Hu0) as [_ Hid0]. apply Z.eqb_eq in Hid0.
  set (upd := hashedUpdates env (User.mkUpdates None (Body.newPassword body) None None))
    in Hdb.
  set (f := fun x => if User.id x =? User.id u0 then User.apply upd x else x) in Hdb.
  assert (Hfe : forall x, User.email (f x) = User.email x).
  { intro x. unfold f. now destruct (User.id x =? User.id u0). }
  assert (Hfu : f u = User.apply upd u).
  { unfold f. assert (E : (User.id u =? User.id u0) = true)
      by (apply Z.eqb_eq; congruence). now rewrite E. }
  assert (Hpass : User.password (f u) = bcrypt_hash new 10 (salt env)).
  { rewrite Hfu. unfold upd, hashedUpdates. cbn [User.newPassword].
    rewrite Hnew, (truthy_Some new Hne). reflexivity. }
  assert (Hactive : User.isActive (f u) = true).
  { rewrite Hfu. unfold upd, hashedUpdates. cbn [User.newPassword].
    destruct (Js.truthy (Body.newPassword body)); exact Hact. }
  assert (Hfind : Sql.findOne (fun x => (User.email x =? email)%string) (users db')
                  = Some (f u)).
  { rewrite Hdb, users_withUsers, (find_map_email f email (users db) Hfe), Hu.
    reflexivity. }
  unfold UserAuthController.login. cbv zeta.
  rewrite (validate_login lb email pw) by assumption.
  rewrite He, Hp. cbn [negb Body.str].
  unfold transaction, bind, rollback, commit, BaseController.handleError.
  rewrite findUserByEmail_eq, Hfind. cbv beta iota.
  unfold UserAuthService.verifyPassword. rewrite Hpass. split.
  - intros -> Hfresh. rewrite Hlaw, Hactive. cbn [negb].
    rewrite generateToken_1h. cbn [BaseController.signed BaseController.orThrow].
    unfold ret at 1. cbv beta iota.
    rewrite generateRefreshToken_eq. cbv zeta.
    destruct (existsb _ (refreshTokens db')) eqn:E;
      [apply existsb_token in E; contradiction|].
    left. reflexivity.
  - intro Hbad. now rewrite Hbad.
Qed.

Lemma password_change_then_login_witness :
  UserAuthController.login (rt := demoRuntime) loginEnv (loginBody "a@x.com" "secret1")
    (snd (UserAuthController.updatePassword (rt := demoRuntime) anaEnv ana
            (passwordBody "secret1" "secret2") anaDb))
  = (NextError "Invalid credentials" 400,
     snd (UserAuthController.updatePassword (rt := demoRuntime) anaEnv ana
            (passwordBody "secret1" "secret2") anaDb)).
Proof.
  refine (proj2 (password_change_then_login (rt := demoRuntime) anaEnv loginEnv ana ana
                   (passwordBody "secret1" "secret2") (loginBody "a@x.com" "secret1")
                   anaDb _ 200 _ "a@x.com" "secret2" "secret1"
                   _ eq_refl _ eq_refl eq_refl eq_refl eq_refl eq_refl _ eq_refl _) _).
  - intros p s. apply String.eqb_refl.
  - discriminate.
  - discriminate.
  - discriminate.
  - reflexivity.
Defined.

(** ** [createPath] *)

Lemma contains_app (c : ascii) (s t : string) :
  Files.contains c (s ++ t) = Files.contains c s || Files.contains c t.
Proof.
  induction s as [|d s IH]; [reflexivity|]. cbn [String.append Files.contains].
  rewrite IH. apply orb_assoc.
Qed.

Lemma digit_not_space (d : Z) : 0 <= d < 10 -> Ascii.eqb (Js.digit d) " " = false.
Proof.
  intro H.
  assert (E : d = 0 \/ d = 1 \/ d = 2 \/ d = 3 \/ d = 4 \/ d = 5 \/ d = 6 \/ d = 7
              \/ d = 8 \/ d = 9) by lia.
  repeat (destruct E as [->|E]; [reflexivity|]). subst d. reflexivity.
Qed.

Lemma decimal_no_space (fuel : nat) (n : Z) :
  0 <= n -> Files.contains " " (Js.decimal fuel n) = false.
Proof.
  revert n. induction fuel as [|fuel IH]; intros n Hn; cbn [Js.decimal].
  - cbn [Files.contains]. rewrite digit_not_space; [reflexivity|].
    apply Z.mod_pos_bound. lia.
  - destruct (n <? 10) eqn:E.
    + apply Z.ltb_lt in E. cbn [Files.contains].
      rewrite digit_not_space; [reflexivity | lia].
    + rewrite contains_app, IH by (apply Z.div_pos; lia).
      cbn [Files.contains orb]. rewrite digit_not_space; [reflexivity|].
      apply Z.mod_pos_bound. lia.
Qed.

Lemma replaceAll_length (from to : ascii) (s : string) :
  String.length (Files.replaceAll from to s) = String.length s.
Proof. induction s as [|c s IH]; [reflexivity|]. cbn. now rewrite IH. Qed.

Lemma replaceAll_clean (s : string) :
  Files.contains " " (Files.replaceAll " " "-" s) = false.
Proof.
  induction s as [|c s IH]; [reflexivity|]. cbn [Files.replaceAll Files.contains].
  rewrite IH, orb_false_r. destruct (Ascii.eqb c " ") eqn:E; [reflexivity | exact E].
Qed.

Lemma replaceAll_same (from to : ascii) (s : string) :
  Files.contains from s = false -> Files.replaceAll from to s = s.
Proof.
  induction s as [|c s IH]; [reflexivity|]. cbn [Files.replaceAll Files.contains].
  intro H. apply orb_false_iff in H. destruct H as [Hc Hs].
  rewrite Hc, IH by exact Hs. reflexivity.
Qed.

Lemma replaceAll_get (from to : ascii) (s : string) (i : nat) :
  String.get i (Files.replaceAll from to s)
  = option_map (fun c => if Ascii.eqb c from then to else c) (String.get i s).
Proof.
  revert i. induction s as [|c s IH]; intro i; [reflexivity|].
  cbn [Files.replaceAll]. destruct i as [|i]; [reflexivity|]. cbn [String.get].
  apply IH.
Qed.

(** X28: [createPath] appends to the path given, and to nothing else,
    the time stamp, a dash and a file name that is the name given,
    character by character, with every space replaced by a dash and
    every other character kept: it is as long as the name, has no
    space, equals the name when the name has none, and with a path free
    of spaces the whole result is free of spaces. *)
Theorem createPath_shape (dateNow : Z) (path : option string) (name : string) :
  0 <= dateNow ->
  exists fileName,
    Files.createPath dateNow path name
    = (Js.orElse path "" ++ Js.toString dateNow ++ "-" ++ fileName)%string /\
    String.length fileName = String.length name /\
    (forall (i : nat) (c : ascii),
       String.get i name = Some c ->
       String.get i fileName = Some (if Ascii.eqb c " " then "-"%char else c)) /\
    Files.contains " " fileName = false /\
    (Files.contains " " name = false -> fileName = name) /\
    (Files.contains " " (Js.orElse path "") = false ->
     Files.contains " " (Files.createPath dateNow path name) = false).
Proof.
  intro Hnow. exists (Files.replaceAll " " "-" name).
  split; [reflexivity|]. split; [apply replaceAll_length|].
  split; [intros i c Hc; now rewrite replaceAll_get, Hc|].
  split; [apply replaceAll_clean|]. split; [apply replaceAll_same|].
  intro Hpath. unfold Files.createPath. cbv zeta.
  rewrite !contains_app, Hpath, replaceAll_clean.
  unfold Js.toString. rewrite decimal_no_space by exact Hnow. reflexivity.
Qed.

Lemma createPath_shape_witness :
  exists fileName,
    Files.createPath 1700000000000 (Some "banners/") "my image.jpg"
    = (Js.orElse (Some "banners/") "" ++ Js.toString 1700000000000 ++ "-" ++ fileName)%string
    /\ String.length fileName = String.length "my image.jpg"
    /\ (forall (i : nat) (c : ascii),
          String.get i "my image.jpg" = Some c ->
          String.get i fileName = Some (if Ascii.eqb c " " then "-"%char else c))
    /\ Files.contains " " fileName = false
    /\ (Files.contains " " "my image.jpg" = false -> fileName = "my image.jpg")
    /\ (Files.contains " " (Js.orElse (Some "banners/") "") = false ->
        Files.contains " "
          (Files.createPath 1700000000000 (Some "banners/") "my image.jpg") = false).
Proof.
  apply (createPath_shape 1700000000000 (Some "banners/") "my image.jpg").
  discriminate.
Defined.
